(** * SocialScour backend: streaming research pipeline

    A shallow embedding of [backend/models.py], [backend/storage_service.py],
    [backend/rag_service.py] and [backend/main.py], and the properties of the
    streaming research pipeline proved about it.

    Conventions.
    - A Python [str] is a [list ascii]; a character is a code point below 256
      (Latin-1), which is where every literal of the source lives.
    - An [async] generator is the trace of what it does when it is driven
      to its end: the chunks it yields and the calls it makes to the model,
      in order, and the exception that ends it, if one does.
    - A function that can raise returns an [outcome]: its value, or the
      exception.
    - The external collaborators (Tavily search, the Gemini model) and the
      library functions whose code is not part of the repository
      ([json.loads], pydantic's [model_dump_json] and field validation, float
      formatting) are parameters of the development. *)

From Stdlib Require Import Ascii String QArith DecimalString DecimalNat.
From stdpp Require Import base list gmap strings sorting.

Local Open Scope nat_scope.

(** ** Python strings *)

Abbreviation str := (list ascii).

Definition py (s : string) : str := list_ascii_of_string s.
Arguments py s%_string.

(** The three characters that cannot be written inside a literal. *)
Definition dq : ascii := "034"%char.   (* the double quote *)
Definition nl : ascii := "010"%char.   (* the newline *)
Definition bs : ascii := "092"%char.   (* the backslash *)

Module Py.

(** [str.isspace] on one character, for the code points below 256:
    TAB..CR, FS..US, space, NEL and NBSP. *)
Definition isspace (c : ascii) : bool :=
  let n := nat_of_ascii c in
  ((9 <=? n) && (n <=? 13)) || ((28 <=? n) && (n <=? 32))
  || (n =? 133) || (n =? 160).

(** The class [\d] of the [re] module. *)
Definition isdigit (c : ascii) : bool :=
  let n := nat_of_ascii c in (48 <=? n) && (n <=? 57).

(** [str.lower] on one character. *)
Definition lower_char (c : ascii) : ascii :=
  let n := nat_of_ascii c in
  if ((65 <=? n) && (n <=? 90))
     || ((192 <=? n) && (n <=? 222) && negb (n =? 215))
  then ascii_of_nat (n + 32) else c.

Definition lower (s : str) : str := map lower_char s.

Fixpoint lstrip (s : str) : str :=
  match s with
  | c :: s' => if isspace c then lstrip s' else s
  | [] => []
  end.

Definition rstrip (s : str) : str := rev (lstrip (rev s)).

(** [s.strip()] *)
Definition strip (s : str) : str := rstrip (lstrip s).

(** [s.split()]: the maximal runs of non-whitespace characters.  [cur] is
    the run being read, last character first. *)
Fixpoint split_from (cur : str) (s : str) : list str :=
  match s with
  | [] => match cur with [] => [] | _ => [rev cur] end
  | c :: s' =>
      if isspace c
      then match cur with
           | [] => split_from [] s'
           | _ => rev cur :: split_from [] s'
           end
      else split_from (c :: cur) s'
  end.

Definition split (s : str) : list str := split_from [] s.

(** [sep.join(l)] *)
Fixpoint join (sep : str) (l : list str) : str :=
  match l with
  | [] => []
  | [x] => x
  | x :: l' => x ++ sep ++ join sep l'
  end.

(** [s.startswith(p)] *)
Fixpoint startswith (p s : str) : bool :=
  match p, s with
  | [], _ => true
  | a :: p', b :: s' => if decide (a = b) then startswith p' s' else false
  | _ :: _, [] => false
  end.

(** [s.endswith(p)] *)
Definition endswith (p s : str) : bool := startswith (rev p) (rev s).

(** [s[1:-1]] *)
Definition slice_1_m1 (s : str) : str := drop 1 (take (length s - 1) s).

(** [s.replace(old, new)] for a non-empty [old]: the occurrences of [old]
    are replaced from the left, without overlap.  [skip] counts the
    characters of a matched occurrence that are still to be passed. *)
Fixpoint replace_from (old new : str) (skip : nat) (s : str) : str :=
  match s with
  | [] => []
  | c :: s' =>
      match skip with
      | S k => replace_from old new k s'
      | O =>
          if startswith old s
          then new ++ replace_from old new (length old - 1) s'
          else c :: replace_from old new 0 s'
      end
  end.

Definition replace (old new s : str) : str := replace_from old new 0 s.

(** [sub in s] *)
Fixpoint contains (sub s : str) : bool :=
  startswith sub s
  || match s with
     | [] => false
     | _ :: s' => contains sub s'
     end.

(** [s.split(sep)] for a non-empty [sep]; [cur] is the piece being read,
    last character first, and [skip] is as in [replace_from]. *)
Fixpoint split_on_from (sep : str) (skip : nat) (cur s : str) : list str :=
  match s with
  | [] => [rev cur]
  | c :: s' =>
      match skip with
      | S k => split_on_from sep k cur s'
      | O =>
          if startswith sep s
          then rev cur :: split_on_from sep (length sep - 1) [] s'
          else split_on_from sep 0 (c :: cur) s'
      end
  end.

Definition split_on (sep s : str) : list str := split_on_from sep 0 [] s.

(** [str(n)] for a natural number. *)
Definition of_nat (n : nat) : str :=
  py (NilEmpty.string_of_uint (Nat.to_uint n)).

(** [truthy s]: a non-empty string is true. *)
Definition truthy (s : str) : bool :=
  match s with [] => false | _ => true end.

End Py.

(** ** Exceptions *)

(** The exceptions that travel through the pipeline.  [int()] refuses a
    string of more than 4300 digits with a [ValueError] whose text names
    the number of digits; every other exception is known by [str(e)]. *)
Inductive exception :=
| IntTooLong (digits : nat)
| Exception (msg : str).

(** What a call that can raise does. *)
Inductive outcome (A : Type) :=
| Returns (a : A)
| Raises (e : exception).
Arguments Returns {A} a.
Arguments Raises {A} e.

(** ** [storage_service.generate_chat_title] *)

Definition generate_chat_title (query : str) : str :=
  let words := take 4 (Py.split query) in
  let title := Py.join (py " ") words in
  let title := Py.strip title in
  let title :=
    if 30 <? length title then take 27 title ++ py "..." else title in
  if Py.truthy title then title else py "New Research".

(** ** [models.py] *)

(** A [datetime] is a reading of a logical clock. *)
Definition datetime : Type := nat.

Module Message.
Record t := mk {
  id : str;
  role : str;               (* "user" or "assistant" *)
  content : str;
  timestamp : datetime }.
End Message.

Module Source.
Record t := mk {
  id : str;
  title : str;
  url : str;
  subreddit : str;
  upvotes : option Z;
  content : str;
  timestamp : datetime }.
End Source.

Module Chat.
Record t := mk {
  id : str;
  title : str;
  messages : list Message.t;
  sources : list Source.t;
  created_at : datetime;
  updated_at : datetime;
  subreddit_filter : option str }.
End Chat.

Module SentimentAnalysis.
Record t := mk {
  score : Q;                (* 0-100 *)
  label : str;
  confidence : Q }.         (* 0-1 *)
End SentimentAnalysis.

(** The defaults of the model classes.  [str(uuid.uuid4())] and
    [datetime.now()] stand on the right of [=] in the class bodies, so each
    is evaluated once, when [models.py] is imported; the value it produced
    then is the field's default for every later construction. *)
Record ClassDefaults := {
  Message_id : str;
  Message_timestamp : datetime;
  Source_id : str;
  Source_timestamp : datetime;
  Chat_id : str;
  Chat_created_at : datetime;
  Chat_updated_at : datetime }.

(** ** Library values: JSON *)

(** What [json.loads] returns. *)
#[warnings="-register-all"]
Inductive json :=
| JNull
| JBool (b : bool)
| JNum (q : Q)
| JStr (s : str)
| JArr (l : list json)
| JObj (kv : list (str * json)).

(** Lookup in a parsed object; of two members with one name the later one
    is the one a Python [dict] keeps. *)
Fixpoint dict_find (k : str) (kv : list (str * json)) : option json :=
  match kv with
  | [] => None
  | (k', v) :: kv' =>
      match dict_find k kv' with
      | Some w => Some w
      | None => if decide (k' = k) then Some v else None
      end
  end.

(** [d.get(k, dflt)] *)
Definition dict_get (k : str) (dflt : json) (kv : list (str * json)) : json :=
  default dflt (dict_find k kv).

(** [k in d] *)
Definition dict_has (k : str) (kv : list (str * json)) : bool :=
  bool_decide (is_Some (dict_find k kv)).

(** What [json.loads] does.  A text that is not JSON raises
    [json.JSONDecodeError]; an integer literal that [int()] refuses raises
    a [ValueError] that is not a [JSONDecodeError]; anything else the
    reader raises ([RecursionError] on a text nested too deep) is neither. *)
Inductive loads_outcome :=
| Loaded (value : json)
| JSONDecodeError
| LoadsValueError (e : exception)
| LoadsRaises (e : exception).

(** The library functions the pipeline calls and whose code is outside the
    repository. *)
Record Library := {
  (** [json.loads] *)
  json_loads : str -> loads_outcome;
  (** pydantic's [model_dump_json] on a [SentimentAnalysis]. *)
  model_dump_json : SentimentAnalysis.t -> str;
  (** pydantic's validation of a [float] and of a [str] field; [None] is
      [ValidationError]. *)
  validate_float : json -> option Q;
  validate_str : json -> option str;
  (** [f"{x}"] and [f"{x:.0f}"] on a float. *)
  float_str : Q -> str;
  float_fmt0 : Q -> str;
  (** [str(e)] for the [ValueError] of [int()] on a string of that many
      digits. *)
  int_too_long_str : nat -> str }.

(** [str(e)] *)
Definition exception_str (lib : Library) (e : exception) : str :=
  match e with
  | IntTooLong digits => int_too_long_str lib digits
  | Exception msg => msg
  end.

(** ** The collaborators *)

Module Result.
(** One search result: a [dict] read with [.get] only. *)
Record t := mk {
  title : option str;
  content : option str;
  url : option str }.
End Result.

(** What [tavily_client.search] does: it raises, or it returns a response
    whose ['results'] member may be absent. *)
Inductive search_outcome :=
| SearchRaises (msg : str)
| SearchResponse (results : option (list Result.t)).

(** What [gemini_model.generate_content(prompt)] does. *)
Inductive generate_outcome :=
| GenerateRaises (msg : str)
| GenerateNoText               (* a falsy response, or one without [text] *)
| GenerateTextRaises (msg : str) (* reading [response.text] raises *)
| GenerateText (text : str).

(** One chunk of a streamed response. *)
Inductive text_attr :=
| TextAbsent                   (* [hasattr(_, 'text')] is false *)
| TextRaises (msg : str)       (* reading [text] raises *)
| TextValue (s : str).

Module Chunk.
Record t := mk {
  text : text_attr;
  parts : option (list (option str)) }. (* each part: its [text], if any *)
End Chunk.

(** What [gemini_model.generate_content(prompt, stream=True)] does.  In
    [StreamChunks chunks fault] the iteration yields [chunks] and then ends,
    or raises when [fault] is a message. *)
Inductive stream_outcome :=
| StreamRaises (msg : str)
| StreamNotIterable
| StreamChunks (chunks : list Chunk.t) (fault : option str).

Record TavilyClient := {
  search : str -> nat -> search_outcome }.   (* query, max_results *)

Record GenerativeModel := {
  generate_content : str -> generate_outcome;
  generate_content_stream : str -> stream_outcome }.

(** The state of a [RAGService] after [__init__]. *)
Record RAGService := {
  tavily_client : option TavilyClient;
  gemini_model : option GenerativeModel }.

(** The calls made to the model, for the properties that count them. *)
Inductive call :=
| CallGenerate (prompt : str)
| CallStream (prompt : str).

(** One step of a generator that its consumer can see: a call to the model,
    or a chunk handed over at a [yield]. *)
Inductive event :=
| ModelCall (c : call)
| Yield (chunk : str).

(** The chunks of a trace, in order. *)
Definition chunks_of (events : list event) : list str :=
  omap (fun ev => match ev with Yield chunk => Some chunk | ModelCall _ => None end)
       events.

(** The calls of a trace, in order. *)
Definition calls_of (events : list event) : list call :=
  omap (fun ev => match ev with ModelCall c => Some c | Yield _ => None end)
       events.

(** ** [storage_service.py] *)

(** The chats held by the [StorageService] singleton, with the clock that
    [datetime.now()] reads; a reading advances the clock.  [_save_chats]
    mirrors [chats] to a file and swallows its own faults, so it does not
    change this state. *)
Record Storage := {
  chats : gmap str Chat.t;
  clock : datetime }.

Definition get_chat (st : Storage) (chat_id : str) : option Chat.t :=
  chats st !! chat_id.

Section Store.
Context (defaults : ClassDefaults).

(** [Message(role=..., content=...)] *)
Definition Message_new (role content : str) : Message.t :=
  {| Message.id := Message_id defaults;
     Message.role := role;
     Message.content := content;
     Message.timestamp := Message_timestamp defaults |}.

(** [Source(title=..., url=..., subreddit=..., upvotes=..., content=...)] *)
Definition Source_new (title url subreddit : str) (upvotes : Z)
    (content : str) : Source.t :=
  {| Source.id := Source_id defaults;
     Source.title := title;
     Source.url := url;
     Source.subreddit := subreddit;
     Source.upvotes := Some upvotes;
     Source.content := content;
     Source.timestamp := Source_timestamp defaults |}.

Definition add_message (st : Storage) (chat_id role content : str)
    : Storage * option Message.t :=
  match get_chat st chat_id with
  | None => (st, None)
  | Some chat =>
      let message := Message_new role content in
      let chat :=
        {| Chat.id := Chat.id chat;
           Chat.title := Chat.title chat;
           Chat.messages := Chat.messages chat ++ [message];
           Chat.sources := Chat.sources chat;
           Chat.created_at := Chat.created_at chat;
           Chat.updated_at := clock st;
           Chat.subreddit_filter := Chat.subreddit_filter chat |} in
      ({| chats := <[chat_id := chat]> (chats st); clock := S (clock st) |},
       Some message)
  end.

Definition add_sources (st : Storage) (chat_id : str)
    (sources : list Source.t) : Storage * bool :=
  match get_chat st chat_id with
  | None => (st, false)
  | Some chat =>
      let chat :=
        {| Chat.id := Chat.id chat;
           Chat.title := Chat.title chat;
           Chat.messages := Chat.messages chat;
           Chat.sources := Chat.sources chat ++ sources;
           Chat.created_at := Chat.created_at chat;
           Chat.updated_at := clock st;
           Chat.subreddit_filter := Chat.subreddit_filter chat |} in
      ({| chats := <[chat_id := chat]> (chats st); clock := S (clock st) |},
       true)
  end.

End Store.

(** ** [rag_service.py] *)

(** [d.get(k, dflt)] on a search result. *)
Definition get_title (result : Result.t) : str :=
  default (py "No Title") (Result.title result).
Definition get_content (result : Result.t) : str :=
  default [] (Result.content result).
Definition get_url (result : Result.t) : str :=
  default [] (Result.url result).

Definition slash : ascii := "/"%char.

(** The longest prefix without a slash: what [[^/]+] matches. *)
Fixpoint until_slash (s : str) : str :=
  match s with
  | c :: s' => if decide (c = slash) then [] else c :: until_slash s'
  | [] => []
  end.

(** [re.search(r'reddit\.com/r/([^/]+)', url)]: the group of the leftmost
    match. *)
Fixpoint search_subreddit (url : str) : option str :=
  match url with
  | [] => None
  | _ :: url' =>
      if Py.startswith (py "reddit.com/r/") url
      then match until_slash (drop 13 url) with
           | [] => search_subreddit url'
           | name => Some name
           end
      else search_subreddit url'
  end.

Definition extract_subreddit_from_url (url : str) : str :=
  match search_subreddit url with
  | Some name => name
  | None => py "unknown"
  end.

(** The number a string of decimal digits writes. *)
Definition decimal_value (digits : str) : Z :=
  fold_left (fun acc c => (acc * 10 + Z.of_nat (nat_of_ascii c - 48))%Z)
            digits 0%Z.

(** [sys.int_info.default_max_str_digits]: the longest string of digits
    that [int()] converts. *)
Definition int_max_str_digits : nat := 4300.

(** [int(digits)] on a string of decimal digits.  Leading zeros count as
    digits. *)
Definition int_of_digits (digits : str) : outcome Z :=
  if int_max_str_digits <? length digits
  then Raises (IntTooLong (length digits))
  else Returns (decimal_value digits).

(** The longest prefix of digits: what [\d+] matches greedily. *)
Fixpoint leading_digits (s : str) : str :=
  match s with
  | c :: s' => if Py.isdigit c then c :: leading_digits s' else []
  | [] => []
  end.

(** The match of [(\d+)\s*(upvotes?|karma|points?)] that starts at the head
    of [s], if there is one: its first group.  The digits and the white
    space are matched greedily; giving some back never helps, since what
    follows a digit or a blank given back is that digit or blank. *)
Definition match_upvotes_here (s : str) : option str :=
  let digits := leading_digits s in
  let rest := Py.lstrip (drop (length digits) s) in
  match digits with
  | [] => None
  | _ =>
      if Py.startswith (py "upvote") rest
         || Py.startswith (py "karma") rest
         || Py.startswith (py "point") rest
      then Some digits else None
  end.

(** [re.search] of that pattern: the leftmost match. *)
Fixpoint search_upvotes (s : str) : option str :=
  match s with
  | [] => None
  | _ :: s' =>
      match match_upvotes_here s with
      | Some digits => Some digits
      | None => search_upvotes s'
      end
  end.

(** [extract_upvotes_from_content]; it raises when [int()] does. *)
Definition extract_upvotes_from_content (content : str) : outcome Z :=
  match search_upvotes (Py.lower content) with
  | Some digits => int_of_digits digits
  | None => Returns 0%Z
  end.

(** The verdict every failure of the classifier degrades to, up to its
    confidence. *)
Definition neutral (confidence : Q) : SentimentAnalysis.t :=
  {| SentimentAnalysis.score := 50;
     SentimentAnalysis.label := py "Neutral";
     SentimentAnalysis.confidence := confidence |}.

(** One wire frame: [f"data: {payload}\n\n"]. *)
Definition sse (payload : str) : str := py "data: " ++ payload ++ [nl; nl].

(** A quoted payload: [f'"{text}"']. *)
Definition quoted (text : str) : str := [dq] ++ text ++ [dq].

Definition DONE : str := py "[DONE]".

(** [text.replace('"', '\\"').replace('\n', '\\n')] *)
Definition escape (text : str) : str :=
  Py.replace [nl] [bs; "n"%char] (Py.replace [dq] [bs; dq] text).

(** [text.replace('\\n', '\n').replace('\\"', '"')] *)
Definition unescape (text : str) : str :=
  Py.replace [bs; dq] [dq] (Py.replace [bs; "n"%char] [nl] text).

Definition sentiment_prompt (combined_text : str) : str :=
  [nl]
  ++ py "Analyze the sentiment of the following text and provide:" ++ [nl]
  ++ py "1. A sentiment score from 0-100 (0=very negative, 50=neutral, 100=very positive)" ++ [nl]
  ++ py "2. A sentiment label (Very Negative, Negative, Neutral, Positive, Very Positive)" ++ [nl]
  ++ py "3. A confidence score from 0-1" ++ [nl]
  ++ [nl]
  ++ py "Text: " ++ take 2000 combined_text ++ [nl]
  ++ [nl]
  ++ py "Respond only with a JSON object in this exact format:" ++ [nl]
  ++ py "{" ++ [nl]
  ++ py "    " ++ quoted (py "score") ++ py ": <number 0-100>," ++ [nl]
  ++ py "    " ++ quoted (py "label") ++ py ": "
     ++ quoted (py "<sentiment label>") ++ py "," ++ [nl]
  ++ py "    " ++ quoted (py "confidence") ++ py ": <number 0-1>" ++ [nl]
  ++ py "}" ++ [nl].

(** One entry of the context, for the result at index [i] of the loop. *)
Definition context_part (i : nat) (title subreddit content : str) : str :=
  [nl]
  ++ py "Source [" ++ Py.of_nat (i + 1) ++ py "]: " ++ title ++ [nl]
  ++ py "Subreddit: r/" ++ subreddit ++ [nl]
  ++ py "Content: " ++ take 500 content ++ py "..." ++ [nl].

(** Line 128: [" ".join(texts[:5])]. *)
Definition combined_text (texts : list str) : str :=
  Py.join (py " ") (take 5 texts).

(** Lines 88-90: the query sent to the search provider. *)
Definition search_query (query : str) (subreddit_filter : option str) : str :=
  match subreddit_filter with
  | Some f =>
      if Py.truthy f
      then query ++ py " site:reddit.com/r/" ++ f
      else query ++ py " site:reddit.com"
  | None => query ++ py " site:reddit.com"
  end.

Section Service.
Context (lib : Library) (defaults : ClassDefaults) (self : RAGService).

Definition search_reddit (query : str) (subreddit_filter : option str)
    (max_results : nat) : list Result.t :=
  match tavily_client self with
  | None => []                        (* ValueError, caught below *)
  | Some client =>
      match search client (search_query query subreddit_filter) max_results with
      | SearchResponse (Some results) => results
      | SearchResponse None => []     (* [response.get('results', [])] *)
      | SearchRaises _ => []          (* [except Exception: return []] *)
      end
  end.

(** [SentimentAnalysis(score=..., label=..., confidence=...)] on values
    read from the parsed response; [None] is [ValidationError]. *)
Definition SentimentAnalysis_new (score label confidence : json)
    : option SentimentAnalysis.t :=
  match validate_float lib score, validate_str lib label,
        validate_float lib confidence with
  | Some s, Some l, Some c =>
      Some {| SentimentAnalysis.score := s;
              SentimentAnalysis.label := l;
              SentimentAnalysis.confidence := c |}
  | _, _, _ => None
  end.

(** Lines 163-166: the contents of a fenced block, when there is one.
    [None] is the [IndexError] of [[1]]. *)
Definition unfence (response_text : str) : option str :=
  if Py.contains (py "```json") response_text then
    match Py.split_on (py "```json") response_text with
    | _ :: inner :: _ =>
        match Py.split_on (py "```") inner with
        | first :: _ => Some (Py.strip first)
        | [] => None
        end
    | _ => None
    end
  else if Py.contains (py "```") response_text then
    match Py.split_on (py "```") response_text with
    | _ :: inner :: _ =>
        match Py.split_on (py "```") inner with
        | first :: _ => Some (Py.strip first)
        | [] => None
        end
    | _ => None
    end
  else Some response_text.

(** Lines 157-178, from the text of the response on. *)
Definition parse_sentiment (text : str) : SentimentAnalysis.t :=
  let response_text := Py.strip text in
  match unfence response_text with
  | None => neutral 0                 (* outer handler *)
  | Some response_text =>
      match json_loads lib response_text with
      | JSONDecodeError => neutral (3 # 10)   (* the handler of line 174 *)
      | LoadsValueError _ => neutral 0        (* outer handler *)
      | LoadsRaises _ => neutral 0            (* outer handler *)
      | Loaded (JObj sentiment_data) =>
          match SentimentAnalysis_new
                  (dict_get (py "score") (JNum 50) sentiment_data)
                  (dict_get (py "label") (JStr (py "Neutral")) sentiment_data)
                  (dict_get (py "confidence") (JNum (1 # 2)) sentiment_data)
          with
          | Some sentiment => sentiment
          | None => neutral 0         (* ValidationError: outer handler *)
          end
      | Loaded _ => neutral 0         (* no [.get]: outer handler *)
      end
  end.

(** [analyze_sentiment]: the verdict, and the calls made to the model. *)
Definition analyze_sentiment (texts : list str)
    : SentimentAnalysis.t * list call :=
  match gemini_model self with
  | None => (neutral 0, [])           (* ValueError: outer handler *)
  | Some model =>
      let combined_text := combined_text texts in
      if negb (Py.truthy (Py.strip combined_text)) then (neutral 0, [])
      else
        let prompt := sentiment_prompt combined_text in
        let sentiment :=
          match generate_content model prompt with
          | GenerateRaises _ => neutral 0
          | GenerateNoText => neutral 0
          | GenerateTextRaises _ => neutral 0
          | GenerateText text => parse_sentiment text
          end in
        (sentiment, [CallGenerate prompt])
  end.

(** The loop of lines 198-219, entered at index [i].  Line 204 raises
    when the count of a content cannot be converted; nothing catches it
    inside [generate_sentiment_report]. *)
Fixpoint report_loop (i : nat) (results : list Result.t)
    (sources : list Source.t) (context_parts : list str)
    : outcome (list Source.t * list str) :=
  match results with
  | [] => Returns (sources, context_parts)
  | result :: rest =>
      let title := get_title result in
      let content := get_content result in
      let url := get_url result in
      let subreddit := extract_subreddit_from_url url in
      match extract_upvotes_from_content content with
      | Raises e => Raises e
      | Returns upvotes =>
          let source :=
            Source_new defaults title url subreddit upvotes
              (take 1000 content) in
          report_loop (S i) rest (sources ++ [source])
            (context_parts ++ [context_part i title subreddit content])
      end
  end.

Definition system_prompt (query context : str)
    (sentiment : SentimentAnalysis.t) : str :=
  let score := float_str lib (SentimentAnalysis.score sentiment) in
  let label := SentimentAnalysis.label sentiment in
  let percent :=
    float_fmt0 lib (SentimentAnalysis.confidence sentiment * 100)%Q in
  [nl]
  ++ py "You are a social listening analyst. Analyze the following Reddit discussions about "
     ++ quoted query ++ py " and provide comprehensive insights." ++ [nl]
  ++ [nl]
  ++ py "Context from Reddit:" ++ [nl]
  ++ context ++ [nl]
  ++ [nl]
  ++ py "The overall sentiment score for " ++ quoted query ++ py " is "
     ++ score ++ py "/100 (" ++ label ++ py ") with " ++ percent
     ++ py "% confidence." ++ [nl]
  ++ [nl]
  ++ py "You MUST follow this exact structure in your response:" ++ [nl]
  ++ [nl]
  ++ py "**Sentiment Explanation:** " ++ [nl]
  ++ py "Explain why the sentiment score is " ++ score ++ py "/100 ("
     ++ label ++ py "). What specific aspects of " ++ quoted query
     ++ py " drive this sentiment? What are the main factors that led to this "
     ++ Py.lower label ++ py " assessment? (2-3 sentences)" ++ [nl]
  ++ [nl]
  ++ py "**Direct Answer:** " ++ [nl]
  ++ py "Provide a 2-3 sentence summary of the overall sentiment about "
     ++ quoted query ++ py " on Reddit based on the discussions analyzed."
     ++ [nl]
  ++ [nl]
  ++ py "**Key Sentiment Drivers:** " ++ [nl]
  ++ py "Explain WHY people feel this way. Provide a bulleted list of the main factors driving the sentiment:" ++ [nl]
  ++ py "- Driver 1 (with citation [X] if referencing a specific source)" ++ [nl]
  ++ py "- Driver 2 (with citation [X] if referencing a specific source)" ++ [nl]
  ++ py "- Driver 3 (with citation [X] if referencing a specific source)" ++ [nl]
  ++ [nl]
  ++ py "**Contradicting Views:** " ++ [nl]
  ++ py "What are the minority opinions or dissenting views? What do critics or skeptics say?" ++ [nl]
  ++ py "- Contradicting point 1 (with citation [X] if referencing a specific source)" ++ [nl]
  ++ py "- Contradicting point 2 (with citation [X] if referencing a specific source)" ++ [nl]
  ++ [nl]
  ++ py "Use citations like [1], [2], etc., to reference the sources provided above. Be concise, data-driven, and specific in your analysis." ++ [nl].

(** The frame of one text: lines 284-285 and 290-291. *)
Definition text_frame (text : str) : str := sse (quoted (escape text)).

(** The frames of the parts of a chunk: lines 288-291. *)
Definition part_frames (parts : list (option str)) : list str :=
  omap (fun part =>
          match part with
          | Some text => if Py.truthy text then Some (text_frame text) else None
          | None => None
          end) parts.

(** The body of the loop of lines 279-292 on the chunks that are left:
    the frames yielded, and the message of the exception that ends the
    iteration, if one does. *)
Fixpoint stream_loop (chunks : list Chunk.t) (fault : option str)
    : list str * option str :=
  match chunks with
  | [] => ([], fault)
  | chunk :: rest =>
      let in_parts :=
        match Chunk.parts chunk with
        | Some parts => part_frames parts
        | None => []
        end in
      match Chunk.text chunk with
      | TextRaises msg => ([], Some msg)
      | TextValue text =>
          let here := if Py.truthy text then [text_frame text] else in_parts in
          let '(later, raised) := stream_loop rest fault in
          (here ++ later, raised)
      | TextAbsent =>
          let '(later, raised) := stream_loop rest fault in
          (in_parts ++ later, raised)
      end
  end.

Definition gemini_error_frame (msg : str) : str :=
  sse (quoted (py "Error calling Gemini API: " ++ msg)).

(** Lines 271-305: the inner [try] and its handler. *)
Definition stream_frames (response : stream_outcome) : list str :=
  match response with
  | StreamRaises msg => [gemini_error_frame msg]
  | StreamNotIterable =>
      [gemini_error_frame (py "Gemini response is not iterable")]
  | StreamChunks chunks fault =>
      match stream_loop chunks fault with
      | (frames, Some msg) => frames ++ [gemini_error_frame msg]
      | (frames, None) =>
          match chunks with
          | [] => frames
                  ++ [sse (quoted (py "No response generated. Please try again."))]
          | _ => frames
          end
      end
  end.

(** The chunks after the verdict, lines 267-314: the frame of the outer
    handler when the model is unconfigured, the frames of the stream after
    the streaming call otherwise, and the terminal frame. *)
Definition synthesis (prompt : str) : list event :=
  match gemini_model self with
  | None =>
      [Yield (sse (quoted (py "Error generating report: "
                           ++ py "Gemini model not initialized. Check GEMINI_API_KEY.")));
       Yield (sse DONE)]
  | Some model =>
      ModelCall (CallStream prompt)
      :: map Yield (stream_frames (generate_content_stream model prompt)
                    ++ [sse DONE])
  end.

(** [generate_sentiment_report]: what the generator does, and the exception
    that ends it.  The loop of lines 198-219 stands before the [try] of
    line 259 and before the first [yield]: when it raises, the generator
    raises at its first step. *)
Definition generate_sentiment_report (query : str)
    (search_results : list Result.t) (subreddit_filter : option str)
    : list event * option exception :=
  match report_loop 0 (take 8 search_results) [] [] with
  | Raises e => ([], Some e)
  | Returns (sources, context_parts) =>
      let context := Py.join [nl; nl] context_parts in
      let sentiment_texts := map get_content (take 5 search_results) in
      let '(sentiment, calls) := analyze_sentiment sentiment_texts in
      let prompt := system_prompt query context sentiment in
      let verdict := sse (model_dump_json lib sentiment) in
      (map ModelCall calls ++ Yield verdict :: synthesis prompt, None)
  end.

End Service.

(** ** [main.py] *)

(** [isinstance(parsed, dict) and 'score' in parsed and 'label' in parsed] *)
Definition is_sentiment (parsed : json) : bool :=
  match parsed with
  | JObj d => dict_has (py "score") d && dict_has (py "label") d
  | _ => false
  end.

(** Lines 118-121: the text a payload carries. *)
Definition decode_payload (data : str) : str :=
  let text_content :=
    if Py.startswith [dq] data && Py.endswith [dq] data
    then Py.slice_1_m1 data else data in
  unescape text_content.

(** The local variables of [generate_research_stream] while it consumes the
    report, with the chunks it has yielded so far. *)
Record Loop := {
  accumulated_content : list str;
  sentiment_data : option json;
  yielded : list str }.

(** What a run of [generate_research_stream] leaves behind: the frames
    sent, the storage, the calls made to the model, and the exception that
    the handler of lines 151-153 caught, when it was entered. *)
Record Run := {
  frames : list str;
  storage : Storage;
  calls : list call;
  error : option exception }.

Definition empty_search_msg : str :=
  py "No relevant discussions found on Reddit.".

Definition fallback_msg : str := py "Report generated successfully".

Section Orchestrator.
Context (lib : Library) (defaults : ClassDefaults) (rag_service : RAGService).

(** Lines 116-126: the chunk carries text. *)
Definition consume_text (s : Loop) (chunk data : str) : Loop :=
  let text_content := decode_payload data in
  if Py.truthy text_content && negb (bool_decide (text_content = DONE))
  then
    {| accumulated_content := accumulated_content s ++ [text_content];
       sentiment_data := sentiment_data s;
       yielded := yielded s ++ [chunk] |}
  else
    {| accumulated_content := accumulated_content s;
       sentiment_data := sentiment_data s;
       yielded := yielded s ++ [chunk] |}.

(** The body of the loop of lines 92-126 on one chunk.  The inner handler
    of line 113 catches [JSONDecodeError] and [ValueError]; any other
    exception of [json.loads] leaves the loop before the chunk is
    yielded. *)
Definition consume (s : Loop) (chunk : str) : outcome Loop :=
  let yield_only :=
    {| accumulated_content := accumulated_content s;
       sentiment_data := sentiment_data s;
       yielded := yielded s ++ [chunk] |} in
  if Py.startswith (py "data: ") chunk then
    let data := Py.strip (drop 6 chunk) in
    if decide (data = DONE) then Returns yield_only
    else
      match json_loads lib data with
      | Loaded parsed =>
          if is_sentiment parsed then
            Returns {| accumulated_content := accumulated_content s;
                       sentiment_data := Some parsed;
                       yielded := yielded s ++ [chunk] |}
          else Returns (consume_text s chunk data)
      | JSONDecodeError => Returns (consume_text s chunk data)
      | LoadsValueError _ => Returns (consume_text s chunk data)
      | LoadsRaises e => Raises e
      end
  else Returns yield_only.

(** The [async for] of lines 92-126 over the report: the generator is
    resumed step by step, so the calls it makes after a chunk that the loop
    fails on are never made.  The result is the state of the loop, the
    calls made, and the exception that left the loop, if one did. *)
Fixpoint consume_report (events : list event) (s : Loop) (made : list call)
    : Loop * list call * option exception :=
  match events with
  | [] => (s, made, None)
  | ModelCall c :: rest => consume_report rest s (made ++ [c])
  | Yield chunk :: rest =>
      match consume s chunk with
      | Returns s' => consume_report rest s' made
      | Raises e => (s, made, Some e)
      end
  end.

(** The loop of lines 138-146. *)
Fixpoint sources_loop (results : list Result.t) (sources : list Source.t)
    : outcome (list Source.t) :=
  match results with
  | [] => Returns sources
  | result :: rest =>
      match extract_upvotes_from_content (get_content result) with
      | Raises e => Raises e
      | Returns upvotes =>
          let source :=
            Source_new defaults
              (get_title result)
              (get_url result)
              (extract_subreddit_from_url (get_url result))
              upvotes
              (take 1000 (get_content result)) in
          sources_loop rest (sources ++ [source])
      end
  end.

(** Line 152: the frame of the handler. *)
Definition error_frame (e : exception) : str :=
  sse (quoted (py "Error: " ++ exception_str lib e)).

(** Lines 151-153: what the run is when the handler catches [e], after
    [sent] has been yielded and with the storage as it is then. *)
Definition handled (sent : list str) (st : Storage) (made : list call)
    (e : exception) : Run :=
  {| frames := sent ++ [error_frame e; sse DONE];
     storage := st;
     calls := made;
     error := Some e |}.

(** [generate_research_stream] *)
Definition generate_research_stream (st : Storage) (chat_id query : str)
    (subreddit_filter : option str) : Run :=
  let search_results := search_reddit rag_service query subreddit_filter 10 in
  match search_results with
  | [] =>
      let error_msg := empty_search_msg in
      {| frames := [sse (quoted error_msg); sse DONE];
         storage := fst (add_message defaults st chat_id (py "assistant") error_msg);
         calls := [];
         error := None |}
  | _ =>
      let '(events, raised) :=
        generate_sentiment_report lib defaults rag_service
          query search_results subreddit_filter in
      let '(s, made, stopped) :=
        consume_report events
          {| accumulated_content := [];
             sentiment_data := None;
             yielded := [] |} [] in
      match stopped, raised with
      | Some e, _ => handled (yielded s) st made e
      | None, Some e => handled (yielded s) st made e
      | None, None =>
          let full_content := Py.strip (concat (accumulated_content s)) in
          let st :=
            if Py.truthy full_content
            then fst (add_message defaults st chat_id (py "assistant") full_content)
            else fst (add_message defaults st chat_id (py "assistant") fallback_msg) in
          match sources_loop (take 8 search_results) [] with
          | Raises e => handled (yielded s) st made e
          | Returns sources =>
              let st := fst (add_sources st chat_id sources) in
              {| frames := yielded s; storage := st; calls := made;
                 error := None |}
          end
      end
  end.

End Orchestrator.

(** ** The client contract for frames (spec 4.3 and 6) *)

Inductive frame_kind := Verdict | TextFragment | Done | Malformed.

#[global] Instance frame_kind_eq_dec : EqDecision frame_kind.
Proof. solve_decision. Defined.

(** The payload of a frame: what follows ["data: "], trimmed. *)
Definition payload (chunk : str) : option str :=
  if Py.startswith (py "data: ") chunk
  then Some (Py.strip (drop 6 chunk)) else None.

(** The payload reads as an object with [score] and [label]. *)
Definition reads_as_verdict (lib : Library) (data : str) : bool :=
  match json_loads lib data with
  | Loaded parsed => is_sentiment parsed
  | _ => false
  end.

(** A frame is the terminal one when its payload is the sentinel, a verdict
    when its payload parses to an object with [score] and [label], and a
    text fragment otherwise. *)
Definition kind (lib : Library) (chunk : str) : frame_kind :=
  match payload chunk with
  | None => Malformed
  | Some data =>
      if decide (data = DONE) then Done
      else if reads_as_verdict lib data then Verdict
      else TextFragment
  end.

(** The decoded payloads of the text fragments of a stream, in order. *)
Definition fragments (lib : Library) (stream : list str) : list str :=
  omap (fun chunk =>
          if decide (kind lib chunk = TextFragment)
          then decode_payload <$> payload chunk else None) stream.

(** ** A reference instance of the library

    A JSON reader and writer for Latin-1 text and decimal numbers, with the
    validation pydantic applies to [float] and [str] fields.  The properties
    of the pipeline are proved for every [Library]; this one is the instance
    at which they are run on concrete inputs.  It is exact on the inputs of
    this development and no more than a reference elsewhere: numbers are
    exact rationals and not binary floats, so it reads neither [NaN] nor
    [Infinity], prints no exponent, and rounds [x:.0f] on the decimal
    value; its validation of a [float] given as a string follows the JSON
    grammar of numbers; and it puts no limit on the depth of a text, so it
    never raises [RecursionError]. *)

Module Ref.

Definition is_ws (c : ascii) : bool :=
  let n := nat_of_ascii c in (n =? 32) || (n =? 9) || (n =? 10) || (n =? 13).

Fixpoint skip_ws (s : str) : str :=
  match s with
  | c :: s' => if is_ws c then skip_ws s' else s
  | [] => []
  end.

Definition hex_value (c : ascii) : option nat :=
  let n := nat_of_ascii c in
  if (48 <=? n) && (n <=? 57) then Some (n - 48)
  else if (65 <=? n) && (n <=? 70) then Some (n - 55)
  else if (97 <=? n) && (n <=? 102) then Some (n - 87)
  else None.

Definition simple_escape (c : ascii) : option ascii :=
  if decide (c = dq) then Some dq
  else if decide (c = bs) then Some bs
  else if decide (c = "/"%char) then Some "/"%char
  else if decide (c = "b"%char) then Some "008"%char
  else if decide (c = "f"%char) then Some "012"%char
  else if decide (c = "n"%char) then Some nl
  else if decide (c = "r"%char) then Some "013"%char
  else if decide (c = "t"%char) then Some "009"%char
  else None.

Definition cons_fst (c : ascii) (r : option (str * str)) : option (str * str) :=
  match r with
  | Some (text, rest) => Some (c :: text, rest)
  | None => None
  end.

(** A string, from the character after its opening quote: its text and
    what follows the closing quote. *)
Fixpoint read_string (s : str) : option (str * str) :=
  match s with
  | [] => None
  | c :: s' =>
      if decide (c = dq) then Some ([], s')
      else if decide (c = bs) then
        match s' with
        | "u"%char :: h1 :: h2 :: h3 :: h4 :: s'' =>
            match hex_value h1, hex_value h2, hex_value h3, hex_value h4 with
            | Some 0, Some 0, Some a, Some b =>
                cons_fst (ascii_of_nat (16 * a + b)) (read_string s'')
            | _, _, _, _ => None
            end
        | e :: s'' =>
            match simple_escape e with
            | Some ch => cons_fst ch (read_string s'')
            | None => None
            end
        | [] => None
        end
      else if nat_of_ascii c <? 32 then None
      else cons_fst c (read_string s')
  end.

(** What reading a value gives: the value and the rest of the text, or
    the reason why there is none. *)
Inductive read (A : Type) :=
| Read (a : A) (rest : str)
| NotJSON
| IntegerTooLong (digits : nat).
Arguments Read {A} a rest.
Arguments NotJSON {A}.
Arguments IntegerTooLong {A} digits.

(** The integer part of a number: a zero, or digits that start with
    another digit. *)
Definition integer_part (s : str) : str :=
  match leading_digits s with
  | "0"%char :: _ => ["0"%char]
  | digits => digits
  end.

(** The fraction: a point and digits after it, when there are some. *)
Definition fraction_part (s : str) : option str :=
  match s with
  | "."%char :: s' =>
      match leading_digits s' with
      | [] => None
      | digits => Some digits
      end
  | _ => None
  end.

(** The exponent: its sign, its digits and the characters it takes. *)
Definition exponent_part (s : str) : option (bool * str * nat) :=
  match s with
  | e :: s' =>
      if bool_decide (e = "e"%char) || bool_decide (e = "E"%char) then
        let '(eneg, signed, s'') :=
          match s' with
          | "-"%char :: t => (true, 1, t)
          | "+"%char :: t => (false, 1, t)
          | _ => (false, 0, s')
          end in
        match leading_digits s'' with
        | [] => None
        | digits => Some (eneg, digits, 1 + signed + length digits)
        end
      else None
  | [] => None
  end.

(** A number: an optional minus, the integer part, an optional fraction and
    an optional exponent.  A number without fraction and exponent is
    converted by [int()], which refuses more than 4300 digits. *)
Definition read_number (s : str) : read Q :=
  let '(neg, s) :=
    match s with
    | "-"%char :: s' => (true, s')
    | _ => (false, s)
    end in
  let int_part := integer_part s in
  let s := drop (length int_part) s in
  match int_part with
  | [] => NotJSON
  | _ =>
      let frac := fraction_part s in
      let s := match frac with Some ds => drop (1 + length ds) s | None => s end in
      let exp := exponent_part s in
      let s := match exp with Some (_, _, n) => drop n s | None => s end in
      match frac, exp with
      | None, None =>
          match int_of_digits int_part with
          | Returns m => Read ((if neg then - m else m)%Z # 1) s
          | Raises _ => IntegerTooLong (length int_part)
          end
      | _, _ =>
          let frac := default [] frac in
          let e :=
            match exp with
            | Some (true, ds, _) => (- decimal_value ds)%Z
            | Some (false, ds, _) => decimal_value ds
            | None => 0%Z
            end in
          let m := decimal_value (int_part ++ frac) in
          let m := if neg then (- m)%Z else m in
          let p := (e - Z.of_nat (length frac))%Z in
          let q :=
            if (0 <=? p)%Z then (m * 10 ^ p)%Z # 1
            else m # Z.to_pos (10 ^ (- p)) in
          Read (Qred q) s
      end
  end.

(** A value, and then the elements of an array and the members of an
    object from the position after their opening bracket. *)
Fixpoint read_value (fuel : nat) (s : str) : read json :=
  match fuel with
  | O => NotJSON
  | S fuel =>
      match skip_ws s with
      | [] => NotJSON
      | c :: s' =>
          if decide (c = dq) then
            match read_string s' with
            | Some (text, rest) => Read (JStr text) rest
            | None => NotJSON
            end
          else if decide (c = "{"%char) then
            match skip_ws s' with
            | "}"%char :: rest => Read (JObj []) rest
            | _ =>
                match read_members fuel s' with
                | Read kv rest => Read (JObj kv) rest
                | NotJSON => NotJSON
                | IntegerTooLong n => IntegerTooLong n
                end
            end
          else if decide (c = "["%char) then
            match skip_ws s' with
            | "]"%char :: rest => Read (JArr []) rest
            | _ =>
                match read_elements fuel s' with
                | Read l rest => Read (JArr l) rest
                | NotJSON => NotJSON
                | IntegerTooLong n => IntegerTooLong n
                end
            end
          else if Py.startswith (py "true") (c :: s') then
            Read (JBool true) (drop 4 (c :: s'))
          else if Py.startswith (py "false") (c :: s') then
            Read (JBool false) (drop 5 (c :: s'))
          else if Py.startswith (py "null") (c :: s') then
            Read JNull (drop 4 (c :: s'))
          else
            match read_number (c :: s') with
            | Read q rest => Read (JNum q) rest
            | NotJSON => NotJSON
            | IntegerTooLong n => IntegerTooLong n
            end
      end
  end
with read_elements (fuel : nat) (s : str) : read (list json) :=
  match fuel with
  | O => NotJSON
  | S fuel =>
      match read_value fuel s with
      | Read v rest =>
          match skip_ws rest with
          | ","%char :: rest' =>
              match read_elements fuel rest' with
              | Read l rest'' => Read (v :: l) rest''
              | NotJSON => NotJSON
              | IntegerTooLong n => IntegerTooLong n
              end
          | "]"%char :: rest' => Read [v] rest'
          | _ => NotJSON
          end
      | NotJSON => NotJSON
      | IntegerTooLong n => IntegerTooLong n
      end
  end
with read_members (fuel : nat) (s : str) : read (list (str * json)) :=
  match fuel with
  | O => NotJSON
  | S fuel =>
      match skip_ws s with
      | c :: s' =>
          if decide (c = dq) then
            match read_string s' with
            | Some (k, rest) =>
                match skip_ws rest with
                | ":"%char :: rest' =>
                    match read_value fuel rest' with
                    | Read v rest'' =>
                        match skip_ws rest'' with
                        | ","%char :: rest3 =>
                            match read_members fuel rest3 with
                            | Read kv rest4 => Read ((k, v) :: kv) rest4
                            | NotJSON => NotJSON
                            | IntegerTooLong n => IntegerTooLong n
                            end
                        | "}"%char :: rest3 => Read [(k, v)] rest3
                        | _ => NotJSON
                        end
                    | NotJSON => NotJSON
                    | IntegerTooLong n => IntegerTooLong n
                    end
                | _ => NotJSON
                end
            | None => NotJSON
            end
          else NotJSON
      | [] => NotJSON
      end
  end.

(** [json.loads]: one value, with nothing but white space after it. *)
Definition json_loads (s : str) : loads_outcome :=
  match read_value (S (2 * length s)) s with
  | Read v rest =>
      match skip_ws rest with
      | [] => Loaded v
      | _ => JSONDecodeError
      end
  | NotJSON => JSONDecodeError
  | IntegerTooLong n => LoadsValueError (IntTooLong n)
  end.

Definition digit_char (d : Z) : ascii := ascii_of_nat (48 + Z.to_nat d).

Definition print_Z (z : Z) : str :=
  py (NilEmpty.string_of_uint (N.to_uint (Z.to_N z))).

(** The digits of [r / d] after the point, at most [fuel] of them. *)
Fixpoint frac_digits (fuel : nat) (r d : Z) : str :=
  match fuel with
  | O => []
  | S fuel =>
      if (r =? 0)%Z then []
      else digit_char (r * 10 / d) :: frac_digits fuel (r * 10 mod d) d
  end.

(** A float as Python prints it: [50.0], [0.3]. *)
Definition print_float (q : Q) : str :=
  let n := Qnum q in
  let d := Zpos (Qden q) in
  let a := Z.abs n in
  (if (n <? 0)%Z then py "-" else [])
  ++ print_Z (a / d) ++ py "."
  ++ match frac_digits 17 (a mod d) d with
     | [] => py "0"
     | ds => ds
     end.

(** [f"{x:.0f}"]: the nearest integer, ties to even. *)
Definition print_fmt0 (q : Q) : str :=
  let n := Qnum q in
  let d := Zpos (Qden q) in
  let a := Z.abs n in
  let whole := (a / d)%Z in
  let r := (a mod d)%Z in
  let up := (d <? 2 * r)%Z || ((d =? 2 * r)%Z && Z.odd whole) in
  (if (n <? 0)%Z then py "-" else [])
  ++ print_Z (if up then whole + 1 else whole)%Z.

Definition hex_char (n : nat) : ascii :=
  if n <? 10 then ascii_of_nat (48 + n) else ascii_of_nat (87 + n).

Definition escape_char (c : ascii) : str :=
  let n := nat_of_ascii c in
  if decide (c = dq) then [bs; dq]
  else if decide (c = bs) then [bs; bs]
  else if decide (c = nl) then [bs; "n"%char]
  else if n =? 13 then [bs; "r"%char]
  else if n =? 9 then [bs; "t"%char]
  else if n =? 8 then [bs; "b"%char]
  else if n =? 12 then [bs; "f"%char]
  else if n <? 32
       then [bs; "u"%char; "0"%char; "0"%char; hex_char (n / 16); hex_char (n mod 16)]
       else [c].

Definition print_string (s : str) : str :=
  quoted (concat (map escape_char s)).

Definition model_dump_json (v : SentimentAnalysis.t) : str :=
  py "{" ++ quoted (py "score") ++ py ":"
  ++ print_float (SentimentAnalysis.score v)
  ++ py "," ++ quoted (py "label") ++ py ":"
  ++ print_string (SentimentAnalysis.label v)
  ++ py "," ++ quoted (py "confidence") ++ py ":"
  ++ print_float (SentimentAnalysis.confidence v)
  ++ py "}".

Definition validate_float (v : json) : option Q :=
  match v with
  | JNum q => Some q
  | JBool b => Some (if b then 1 else 0)%Q
  | JStr s =>
      match read_number (Py.strip s) with
      | Read q [] => Some q
      | _ => None
      end
  | _ => None
  end.

Definition validate_str (v : json) : option str :=
  match v with
  | JStr s => Some s
  | _ => None
  end.

(** The text of the [ValueError] of [int()]. *)
Definition int_too_long_str (digits : nat) : str :=
  py "Exceeds the limit (" ++ Py.of_nat int_max_str_digits
  ++ py " digits) for integer string conversion: value has "
  ++ Py.of_nat digits
  ++ py " digits; use sys.set_int_max_str_digits() to increase the limit".

Definition lib : Library :=
  Build_Library json_loads model_dump_json validate_float validate_str
    print_float print_fmt0 int_too_long_str.

End Ref.

(** ** The rest of [storage_service.py] *)

Section StoreOps.
Context (defaults : ClassDefaults).

(** [Chat(title=..., subreddit_filter=...)] *)
Definition Chat_new (title : str) (subreddit_filter : option str) : Chat.t :=
  {| Chat.id := Chat_id defaults;
     Chat.title := title;
     Chat.messages := [];
     Chat.sources := [];
     Chat.created_at := Chat_created_at defaults;
     Chat.updated_at := Chat_updated_at defaults;
     Chat.subreddit_filter := subreddit_filter |}.

(** [create_chat]; the clock is not read. *)
Definition create_chat (st : Storage) (title : str)
    (subreddit_filter : option str) : Storage * Chat.t :=
  let chat := Chat_new title subreddit_filter in
  ({| chats := <[Chat.id chat := chat]> (chats st); clock := clock st |},
   chat).

End StoreOps.

Definition update_chat_title (st : Storage) (chat_id new_title : str)
    : Storage * bool :=
  match get_chat st chat_id with
  | None => (st, false)
  | Some chat =>
      let chat :=
        {| Chat.id := Chat.id chat;
           Chat.title := new_title;
           Chat.messages := Chat.messages chat;
           Chat.sources := Chat.sources chat;
           Chat.created_at := Chat.created_at chat;
           Chat.updated_at := clock st;
           Chat.subreddit_filter := Chat.subreddit_filter chat |} in
      ({| chats := <[chat_id := chat]> (chats st); clock := S (clock st) |},
       true)
  end.

(** [delete_chat]; the clock is not read. *)
Definition delete_chat (st : Storage) (chat_id : str) : Storage * bool :=
  match get_chat st chat_id with
  | Some _ => ({| chats := delete chat_id (chats st); clock := clock st |}, true)
  | None => (st, false)
  end.

(** One step of [sorted(values, key=lambda x: x.updated_at, reverse=True)]:
    [chat], which stood before the chats of [later] in [values], goes
    before the first of them that is not more recent than it.  The sort is
    stable: chats with one [updated_at] keep the order of [values]. *)
Fixpoint insert_by_updated_at (chat : Chat.t) (later : list Chat.t)
    : list Chat.t :=
  match later with
  | [] => [chat]
  | other :: rest =>
      if Chat.updated_at chat <? Chat.updated_at other
      then other :: insert_by_updated_at chat rest
      else chat :: other :: rest
  end.

Definition sorted_by_updated_at (values : list Chat.t) : list Chat.t :=
  foldr insert_by_updated_at [] values.

(** [get_all_chats].  A [dict] lists its values in the order of insertion,
    which the map of this model does not record: [map_to_list] gives the
    order in which the values are handed to the sort, and that order shows
    in the result only between chats with one [updated_at]. *)
Definition get_all_chats (st : Storage) : list Chat.t :=
  sorted_by_updated_at (snd <$> map_to_list (chats st)).

(** ** [RAGService.__init__] *)

(** The environment variables read at start. *)
Record Environ := {
  TAVILY_API_KEY : option str;
  GEMINI_API_KEY : option str }.

(** One entry of [genai.list_models()]. *)
Record ModelInfo := {
  model_name : str;
  supported_generation_methods : list str }.

(** The [genai] module: [GenerativeModel(name)] returns a model or raises
    ([None]); [list_models()] returns its entries or raises ([None]). *)
Record Genai := {
  GenerativeModel_new : str -> option GenerativeModel;
  list_models : option (list ModelInfo) }.

(** Lines 35-39: the test call.  The response must be truthy and have a
    [text] attribute; a [text] that raises when read makes [hasattr]
    raise. *)
Definition validated (model : GenerativeModel) : bool :=
  match generate_content model (py "test") with
  | GenerateText _ => true
  | _ => false
  end.

(** Constructing a model and testing it, as lines 33-39 and 44-49 do. *)
Definition try_model (genai : Genai) (name : str) : option GenerativeModel :=
  match GenerativeModel_new genai name with
  | Some model => if validated model then Some model else None
  | None => None
  end.

(** [name.split('/')[-1]] *)
Definition last_segment (name : str) : str :=
  default [] (last (Py.split_on [slash] name)).

(** Lines 56-60: the names of the models that can generate content. *)
Definition available_models (models : list ModelInfo) : list str :=
  omap (fun model =>
          if bool_decide (py "generateContent"
                          ∈ supported_generation_methods model)
          then Some (last_segment (model_name model)) else None) models.

(** Lines 63-76: the first available model that passes the test. *)
Fixpoint first_valid (genai : Genai) (names : list str)
    : option GenerativeModel :=
  match names with
  | [] => None
  | name :: rest =>
      match try_model genai name with
      | Some model => Some model
      | None => first_valid genai rest
      end
  end.

(** Lines 22-79. *)
Definition init_gemini (env : Environ) (genai : Genai)
    : option GenerativeModel :=
  match GEMINI_API_KEY env with
  | None => None
  | Some key =>
      if negb (Py.truthy key) then None
      else
        match try_model genai (py "gemini-1.5-flash") with
        | Some model => Some model
        | None =>
            match try_model genai (py "gemini-1.5-pro") with
            | Some model => Some model
            | None =>
                match list_models genai with
                | Some models => first_valid genai (available_models models)
                | None => None
                end
            end
        end
  end.

(** [RAGService()]; [TavilyClient_new] is the constructor of the search
    client. *)
Definition RAGService_init (env : Environ)
    (TavilyClient_new : str -> TavilyClient) (genai : Genai) : RAGService :=
  {| tavily_client :=
       match TAVILY_API_KEY env with
       | Some key => if Py.truthy key then Some (TavilyClient_new key) else None
       | None => None
       end;
     gemini_model := init_gemini env genai |}.

(** ** The routes of [main.py] *)

(** What a route answers: a body, or [HTTPException(status_code=404)]. *)
Inductive response (A : Type) :=
| Ok (body : A)
| NotFound (detail : str).
Arguments Ok {A} body.
Arguments NotFound {A} detail.

Module QueryRequest.
Record t := mk {
  query : str;
  chat_id : option str;
  subreddit_filter : option str }.
End QueryRequest.

Definition chat_not_found : str := py "Chat not found".

Module Api.
Section Routes.
Context (lib : Library) (defaults : ClassDefaults) (rag_service : RAGService).

(** The routes are given from the last one up, so that each body names the
    operations of the storage and not the routes of the same names. *)

(** [POST /api/research]: the storage when the stream has been consumed,
    the frames of the body and the [X-Chat-ID] header. *)
Definition create_new_research (st : Storage) (request : QueryRequest.t)
    : Storage * (list str * str) :=
  let '(st, chat) :=
    create_chat defaults st
      (generate_chat_title (QueryRequest.query request))
      (QueryRequest.subreddit_filter request) in
  let st :=
    fst (add_message defaults st (Chat.id chat) (py "user")
           (QueryRequest.query request)) in
  let run :=
    generate_research_stream lib defaults rag_service st (Chat.id chat)
      (QueryRequest.query request)
      (QueryRequest.subreddit_filter request) in
  (storage run, (frames run, Chat.id chat)).

(** [POST /api/research/{chat_id}/stream]: the storage when the stream has
    been consumed, and the frames of the body. *)
Definition stream_research (st : Storage) (chat_id : str)
    (request : QueryRequest.t) : Storage * response (list str) :=
  match get_chat st chat_id with
  | None => (st, NotFound chat_not_found)
  | Some _ =>
      let st :=
        fst (add_message defaults st chat_id (py "user")
               (QueryRequest.query request)) in
      let run :=
        generate_research_stream lib defaults rag_service st chat_id
          (QueryRequest.query request)
          (QueryRequest.subreddit_filter request) in
      (storage run, Ok (frames run))
  end.

(** [POST /api/chats].  The chat returned is the object that
    [add_message] has just changed in place. *)
Definition create_chat (st : Storage) (query : str)
    (subreddit_filter : option str) : Storage * Chat.t :=
  let title := generate_chat_title query in
  let '(st, chat) := create_chat defaults st title subreddit_filter in
  let st := fst (add_message defaults st (Chat.id chat) (py "user") query) in
  (st, default chat (get_chat st (Chat.id chat))).

(** [GET /api/chats/{chat_id}] *)
Definition get_chat (st : Storage) (chat_id : str) : response Chat.t :=
  match get_chat st chat_id with
  | Some chat => Ok chat
  | None => NotFound chat_not_found
  end.

(** [PUT /api/chats/{chat_id}/title] *)
Definition update_chat_title (st : Storage) (chat_id title : str)
    : Storage * response bool :=
  match update_chat_title st chat_id title with
  | (st, true) => (st, Ok true)
  | (st, false) => (st, NotFound chat_not_found)
  end.

(** [DELETE /api/chats/{chat_id}] *)
Definition delete_chat (st : Storage) (chat_id : str)
    : Storage * response bool :=
  match delete_chat st chat_id with
  | (st, true) => (st, Ok true)
  | (st, false) => (st, NotFound chat_not_found)
  end.

(** [GET /api/chats] *)
Definition get_chats (st : Storage) : list Chat.t := get_all_chats st.

End Routes.
End Api.

(** ** Vocabulary of the properties *)

(** Nothing but white space, and no white space at all. *)
Definition blank (s : str) : Prop := Forall (fun c => Py.isspace c = true) s.
Definition solid (s : str) : Prop := Forall (fun c => Py.isspace c = false) s.

(** A word: what [split] returns. *)
Definition word (w : str) : Prop := w <> [] /\ solid w.

(** The search collaborator is unconfigured, or it raises on this query. *)
Definition search_faults (rag : RAGService) (query : str)
    (subreddit_filter : option str) (max_results : nat) : Prop :=
  match tavily_client rag with
  | None => True
  | Some client =>
      exists msg,
        search client (search_query query subreddit_filter) max_results
        = SearchRaises msg
  end.

(** The service whose search collaborator answers every query with
    [results]. *)
Definition with_results (results : list Result.t) (rag : RAGService)
    : RAGService :=
  {| tavily_client :=
       Some {| search := fun _ _ => SearchResponse (Some results) |};
     gemini_model := gemini_model rag |}.

(** The classifier reached the model, which answered with [text]. *)
Definition model_answers (rag : RAGService) (texts : list str) (text : str)
    : Prop :=
  exists model,
    gemini_model rag = Some model
    /\ Py.strip (combined_text texts) <> []
    /\ generate_content model (sentiment_prompt (combined_text texts))
       = GenerateText text.


(** A text that opens with a quote reads as a string, or it is not
    JSON: it never reads as a verdict, and the reader raises nothing but
    [JSONDecodeError] on it. *)
Definition quoted_is_text (lib : Library) : Prop :=
  forall s,
    (exists text, json_loads lib (dq :: s) = Loaded (JStr text))
    \/ json_loads lib (dq :: s) = JSONDecodeError.

(** The count of a content can be read: [extract_upvotes_from_content]
    returns. *)
Definition count_readable (content : str) : Prop :=
  exists n, extract_upvotes_from_content content = Returns n.

#[global] Instance count_readable_dec content : Decision (count_readable content).
Proof.
  unfold count_readable.
  destruct (extract_upvotes_from_content content) as [n|e].
  - left. by exists n.
  - right. by intros [n H].
Defined.

(** The counts of the results a run uses can all be read. *)
Definition counts_readable (results : list Result.t) : Prop :=
  Forall (fun result => count_readable (get_content result)) (take 8 results).

(** The count read from a content, where it can be read. *)
Definition upvotes_of (content : str) : Z :=
  match extract_upvotes_from_content content with
  | Returns n => n
  | Raises _ => 0%Z
  end.

(** The verdict of a run over [results]. *)
Definition verdict_of (lib : Library) (rag : RAGService)
    (results : list Result.t) : SentimentAnalysis.t :=
  fst (analyze_sentiment lib rag (map get_content (take 5 results))).

(** The source record made of one search result whose count can be
    read. *)
Definition source_of (defaults : ClassDefaults) (result : Result.t)
    : Source.t :=
  Source_new defaults
    (get_title result)
    (get_url result)
    (extract_subreddit_from_url (get_url result))
    (upvotes_of (get_content result))
    (take 1000 (get_content result)).




(** The run completed: the handler of the orchestrator was not entered. *)
Definition completes (run : Run) : Prop := error run = None.

(** The exception of the first result whose count cannot be read. *)
Fixpoint count_fault (results : list Result.t) : option exception :=
  match results with
  | [] => None
  | result :: rest =>
      match extract_upvotes_from_content (get_content result) with
      | Raises e => Some e
      | Returns _ => count_fault rest
      end
  end.

(** The exception, other than a [ValueError], that the reader raises on
    the payload of a chunk. *)
Definition reader_fault (lib : Library) (chunk : str) : option exception :=
  match payload chunk with
  | Some data =>
      if decide (data = DONE) then None
      else match json_loads lib data with
           | LoadsRaises e => Some e
           | _ => None
           end
  | None => None
  end.

(** The state of the orchestrator's loop before the first chunk. *)
Definition loop_start : Loop :=
  {| accumulated_content := []; sentiment_data := None; yielded := [] |}.

(** The entry of the context made of the result at index [i]. *)
Definition context_of (i : nat) (result : Result.t) : str :=
  context_part i (get_title result)
    (extract_subreddit_from_url (get_url result)) (get_content result).

(** What the loop of [generate_research_stream] keeps of a decoded
    payload: a text that is neither empty nor the sentinel. *)
Definition kept (text : str) : Prop := text <> [] /\ text <> DONE.

#[global] Instance kept_dec (text : str) : Decision (kept text).
Proof. unfold kept. apply _. Defined.

(** The transcript of a stream: its decoded text fragments other than the
    sentinel, concatenated in order and trimmed. *)
Definition transcript (lib : Library) (stream : list str) : str :=
  Py.strip (concat (filter (fun text => text <> DONE) (fragments lib stream))).

(** Lines 129-134: the content of the assistant message. *)
Definition persisted_content (lib : Library) (stream : list str) : str :=
  if Py.truthy (transcript lib stream) then transcript lib stream
  else fallback_msg.

(** A frame that carries a quoted payload. *)
Definition quoted_frame (chunk : str) : Prop :=
  exists text, chunk = sse (quoted text).

(** Encoding a fragment as a frame and decoding the frame as the consumer
    does: lines 284-285 of [rag_service.py], then lines 99 and 118-121 of
    [main.py]. *)
Definition roundtrip (text : str) : option str :=
  decode_payload <$> payload (text_frame text).

(** What [escape] does to one character, and what its first pass does. *)
Definition escape_quote (c : ascii) : str :=
  if decide (c = dq) then [bs; dq] else [c].

Definition escape_char (c : ascii) : str :=
  if decide (c = dq) then [bs; dq]
  else if decide (c = nl) then [bs; "n"%char]
  else [c].

(** ** The claims that fail, as the specification states them *)

(** C1 as stated: on an empty search the stream is the error frame and the
    terminal frame, and the conversation gains neither a message nor a
    source. *)
Definition claim_C1 (lib : Library) (defaults : ClassDefaults)
    (rag : RAGService) (st : Storage) (chat_id query : str)
    (subreddit_filter : option str) : Prop :=
  search_reddit rag query subreddit_filter 10 = [] ->
  let run :=
    generate_research_stream lib defaults rag st chat_id query
      subreddit_filter in
  frames run = [sse (quoted empty_search_msg); sse DONE]
  /\ forall chat chat',
       get_chat st chat_id = Some chat ->
       get_chat (storage run) chat_id = Some chat' ->
       Chat.messages chat' = Chat.messages chat
       /\ Chat.sources chat' = Chat.sources chat.

(** C2 as stated: the message persisted at the end of a run over a
    non-empty search holds the concatenation of the decoded text fragments
    of the stream, or the fallback when that concatenation is empty. *)
Definition claim_C2 (lib : Library) (defaults : ClassDefaults)
    (rag : RAGService) (st : Storage) (chat_id query : str)
    (subreddit_filter : option str) : Prop :=
  search_reddit rag query subreddit_filter 10 <> [] ->
  let run :=
    generate_research_stream lib defaults rag st chat_id query
      subreddit_filter in
  let transcript := concat (fragments lib (frames run)) in
  completes run ->
  forall chat chat',
    get_chat st chat_id = Some chat ->
    get_chat (storage run) chat_id = Some chat' ->
    Chat.messages chat' =
      Chat.messages chat
      ++ [Message_new defaults (py "assistant")
            (if Py.truthy transcript then transcript else fallback_msg)].



(** ** Concrete inputs *)

Module Demo.

Definition defaults : ClassDefaults :=
  {| Message_id := py "0b8e8f0e-52f1-4a59-9d7a-6f6f0c1d2e3a";
     Message_timestamp := 0;
     Source_id := py "5c1d7a44-9b1e-4c0b-8a55-1f2e3d4c5b6a";
     Source_timestamp := 0;
     Chat_id := py "e2a9c3f1-7d64-4e0a-b1c2-93a4b5c6d7e8";
     Chat_created_at := 0;
     Chat_updated_at := 0 |}.

Definition query : str := py "iPhone 16 sentiment".
Definition chat_id : str := Chat_id defaults.

(** The conversation as [stream_research] leaves it before the run:
    created, with the user message. *)
Definition chat : Chat.t :=
  {| Chat.id := chat_id;
     Chat.title := generate_chat_title query;
     Chat.messages := [Message_new defaults (py "user") query];
     Chat.sources := [];
     Chat.created_at := 0;
     Chat.updated_at := 1;
     Chat.subreddit_filter := Some (py "technology") |}.

Definition st : Storage := {| chats := {[ chat_id := chat ]}; clock := 2 |}.

Definition hit (n : nat) (sub text : string) : Result.t :=
  {| Result.title := Some (py "Thread " ++ Py.of_nat n);
     Result.content := Some (py text);
     Result.url :=
       Some (py "https://www.reddit.com/r/" ++ py sub ++ py "/comments/"
             ++ Py.of_nat n) |}.

Definition hits : list Result.t :=
  [ hit 1 "apple" "Battery life is great, 120 upvotes";
    hit 2 "iphone" "Camera is a big step up";
    hit 3 "apple" "Too expensive for what it is";
    hit 4 "technology" "Runs hot under load";
    hit 5 "gadgets" "Best phone I have owned";
    hit 6 "apple" "Sixth";
    hit 7 "apple" "Seventh";
    hit 8 "apple" "Eighth";
    hit 9 "apple" "Ninth";
    hit 10 "apple" "Tenth" ].

Definition text_chunk (s : str) : Chunk.t :=
  {| Chunk.text := TextValue s; Chunk.parts := None |}.

(** A service whose search returns [results], whose model answers the
    sentiment prompt with [answer] and streams [stream]. *)
Definition rag (results : list Result.t) (answer : generate_outcome)
    (stream : stream_outcome) : RAGService :=
  {| tavily_client :=
       Some {| search := fun _ _ => SearchResponse (Some results) |};
     gemini_model :=
       Some {| generate_content := fun _ => answer;
               generate_content_stream := fun _ => stream |} |}.

(** A service whose search raises. *)
Definition rag_search_down : RAGService :=
  {| tavily_client :=
       Some {| search := fun _ _ => SearchRaises (py "401 Unauthorized") |};
     gemini_model := None |}.

Definition good_answer : generate_outcome :=
  GenerateText
    (py "{" ++ quoted (py "score") ++ py ": 72, " ++ quoted (py "label")
     ++ py ": " ++ quoted (py "Positive") ++ py ", "
     ++ quoted (py "confidence") ++ py ": 0.85}").

(** One fragment that ends with a newline. *)
Definition stream_hi : stream_outcome :=
  StreamChunks [text_chunk (py "Hi" ++ [nl])] None.


Definition texts : list str := map get_content hits.

(** A fragment with a double quote, a newline, and the two characters
    backslash and n: [say "hi\n"] and a line end. *)
Definition quip : str := py "say " ++ [dq] ++ py "hi\n" ++ [dq; nl].

(** A stream with a fragment that is the text of the sentinel. *)
Definition stream_sentinel : stream_outcome :=
  StreamChunks [text_chunk (py "[DONE]"); text_chunk (py "Hi")] None.

(** A stream that breaks after its first chunk. *)
Definition stream_broken : stream_outcome :=
  StreamChunks [text_chunk (py "Overall, ")] (Some (py "504 Deadline Exceeded")).

(** The chunks the report yields for the ten hits. *)
Definition report (stream : stream_outcome) : list str :=
  chunks_of
    (fst (generate_sentiment_report Ref.lib defaults
            (rag hits good_answer stream) query hits None)).

(** A count of 4301 digits, one more than [int()] converts. *)
Definition long_count : str := replicate 4301 "7"%char.

(** A result whose text boasts such a count. *)
Definition flooded : Result.t :=
  {| Result.title := Some (py "Thread 11");
     Result.content := Some (py "This got " ++ long_count ++ py " points");
     Result.url := Some (py "https://www.reddit.com/r/apple/comments/11") |}.

(** The results of a search with that result in the third place. *)
Definition flooded_hits : list Result.t :=
  take 2 hits ++ [flooded] ++ drop 2 hits.

(** Answers of the model to the sentiment prompt that the reader refuses
    for a reason other than their syntax. *)
Definition long_number_text : str := py "[" ++ long_count.
Definition long_number_answer : generate_outcome :=
  GenerateText long_number_text.

End Demo.

(** ** Vocabulary of the further properties *)

(** [later] is not more recent than [earlier]. *)
Definition not_after (earlier later : Chat.t) : Prop :=
  (Chat.updated_at later <= Chat.updated_at earlier)%nat.

(** A chunk of a streamed response that has a [text] and no parts. *)
Definition plain_chunk (text : str) : Chunk.t :=
  {| Chunk.text := TextValue text; Chunk.parts := None |}.

(** What the data model asks of a source. *)
Definition wellformed_source (s : Source.t) : Prop :=
  length (Source.content s) <= 1000
  /\ (exists n, Source.upvotes s = Some n /\ (0 <= n)%Z)
  /\ Source.subreddit s <> []
  /\ (slash ∉ Source.subreddit s).

(** The content of the message persisted for the texts a model streamed. *)
Definition message_of_texts (texts : list str) : str :=
  let text := Py.strip (concat (filter (fun t => t <> DONE) texts)) in
  if Py.truthy text then text else fallback_msg.

Definition backtick : ascii := "`"%char.

(** * Properties *)

(** ** Python strings *)

Section StringFacts.

Lemma lstrip_blank s : blank s -> Py.lstrip s = [].
Proof.
  induction 1 as [|c s Hc _ IH]; simpl; [done|]. by rewrite Hc.
Qed.

Lemma strip_blank s : blank s -> Py.strip s = [].
Proof.
  intros H. unfold Py.strip, Py.rstrip. by rewrite (lstrip_blank s H).
Qed.

Lemma lstrip_word w t : word w -> Py.lstrip (w ++ t) = w ++ t.
Proof.
  intros [Hne Hs]. destruct w as [|c w]; [done|].
  apply Forall_cons in Hs as [Hc _]. simpl. by rewrite Hc.
Qed.

Lemma word_rev w : word w -> word (rev w).
Proof.
  intros [Hne Hs]. split.
  - intros Hr. apply Hne. by rewrite <- (rev_involutive w), Hr.
  - by apply List.Forall_rev.
Qed.

(** A string that begins and ends with a word is left alone by [strip]. *)
Lemma strip_between w1 t w2 :
  word w1 -> word w2 -> Py.strip (w1 ++ t ++ w2) = w1 ++ t ++ w2.
Proof.
  intros H1 H2. unfold Py.strip, Py.rstrip.
  rewrite (lstrip_word w1 _ H1).
  rewrite (app_assoc w1 t w2), rev_app_distr.
  rewrite (lstrip_word _ _ (word_rev _ H2)).
  by rewrite <- rev_app_distr, rev_involutive.
Qed.

Lemma strip_word w : word w -> Py.strip w = w.
Proof.
  intros H. unfold Py.strip, Py.rstrip.
  rewrite <- (app_nil_r w) at 1. rewrite (lstrip_word w [] H), app_nil_r.
  rewrite <- (app_nil_r (rev w)).
  rewrite (lstrip_word _ [] (word_rev _ H)), app_nil_r.
  apply rev_involutive.
Qed.

Lemma split_from_words s : forall cur,
  solid cur -> Forall word (Py.split_from cur s).
Proof.
  induction s as [|c s IH]; intros cur Hcur; simpl.
  - destruct cur as [|a cur]; [constructor|].
    constructor; [|constructor]. apply word_rev. by split.
  - destruct (Py.isspace c) eqn:Hc.
    + destruct cur as [|a cur].
      * apply IH. constructor.
      * constructor; [|apply IH; constructor].
        apply word_rev. by split.
    + apply IH. by constructor.
Qed.

Lemma split_words s : Forall word (Py.split s).
Proof. apply split_from_words. constructor. Qed.

(** A join of words is empty, or it begins and ends with a word. *)
Lemma join_words sep l :
  Forall word l ->
  l = [] \/ (exists w, l = [w]) \/
  exists w1 t w2, word w1 /\ word w2 /\ Py.join sep l = w1 ++ t ++ w2.
Proof.
  induction 1 as [|w l Hw Hl IH]; [by left|].
  right. destruct IH as [-> | [[w' ->] | (w1 & t & w2 & H1 & H2 & E)]].
  - left. by exists w.
  - right. exists w, sep, w'. apply Forall_cons in Hl as [Hw' _]. by simpl.
  - right. exists w, (sep ++ w1 ++ t), w2.
    split; [done|]. split; [done|].
    destruct l as [|x l].
    { simpl in E. symmetry in E. apply app_eq_nil in E as [-> _].
      by destruct H1. }
    change (Py.join sep (w :: x :: l)) with (w ++ sep ++ Py.join sep (x :: l)).
    rewrite E. by rewrite <- !app_assoc.
Qed.

Lemma strip_join_words sep l :
  Forall word l -> Py.strip (Py.join sep l) = Py.join sep l.
Proof.
  intros H. destruct (join_words sep l H)
    as [-> | [[w ->] | (w1 & t & w2 & H1 & H2 & E)]].
  - done.
  - apply Forall_cons in H as [Hw _]. by apply strip_word.
  - rewrite E. by apply strip_between.
Qed.

Lemma join_nil_iff sep l : Forall word l -> Py.join sep l = [] <-> l = [].
Proof.
  intros H. split; [|by intros ->].
  destruct H as [|w l [Hne _] Hl]; [done|].
  destruct l; simpl; [done|]. intros E. by apply app_eq_nil in E as [? _].
Qed.

End StringFacts.

(** ** C10: the chat title *)

(** C10. For every query the title is non-empty and has at most 30
    characters.  It is the first four words of the query joined by single
    spaces (trimming changes nothing), cut to its first 27 characters
    followed by three dots when that is longer than 30, and the literal
    "New Research" exactly when the query has no word. *)
Theorem C10_chat_title (query : str) :
  let joined := Py.join (py " ") (take 4 (Py.split query)) in
  generate_chat_title query <> []
  /\ length (generate_chat_title query) <= 30
  /\ generate_chat_title query =
       (if 30 <? length joined then take 27 joined ++ py "..."
        else if Py.truthy joined then joined else py "New Research")
  /\ (joined = [] <-> Py.split query = []).
Proof.
  intros joined.
  assert (Hw : Forall word (take 4 (Py.split query)))
    by (apply Forall_take, split_words).
  assert (Hs : Py.strip joined = joined) by (by apply strip_join_words).
  assert (E : generate_chat_title query =
       (if 30 <? length joined then take 27 joined ++ py "..."
        else if Py.truthy joined then joined else py "New Research")).
  { unfold generate_chat_title. fold joined. rewrite Hs.
    destruct (30 <? length joined) eqn:Hlen; [|done].
    destruct (take 27 joined); done. }
  split; [|split; [|split; [exact E|]]].
  - rewrite E. destruct (30 <? length joined).
    + intros H. apply (f_equal length) in H.
      rewrite length_app in H. change (length (py "...")) with 3 in H.
      simpl in H. lia.
    + destruct joined; done.
  - rewrite E. destruct (30 <? length joined) eqn:Hlen.
    + apply Nat.ltb_lt in Hlen.
      rewrite length_app, length_take.
      change (length (py "...")) with 3. lia.
    + apply Nat.ltb_ge in Hlen. destruct (Py.truthy joined); [done|].
      simpl. lia.
  - unfold joined. rewrite (join_nil_iff _ _ Hw).
    split; [|by intros ->].
    destruct (Py.split query); [done|]. simpl. done.
Qed.

(** ** The conversation store *)

Section StoreFacts.
Context (defaults : ClassDefaults).

Lemma add_message_chat st chat_id role content chat :
  get_chat st chat_id = Some chat ->
  exists chat',
    get_chat (fst (add_message defaults st chat_id role content)) chat_id
    = Some chat'
    /\ Chat.messages chat'
       = Chat.messages chat ++ [Message_new defaults role content]
    /\ Chat.sources chat' = Chat.sources chat.
Proof.
  intros H. unfold add_message. rewrite H. simpl.
  eexists. split; [apply lookup_insert_eq|]. done.
Qed.

Lemma add_message_absent st chat_id role content :
  get_chat st chat_id = None ->
  fst (add_message defaults st chat_id role content) = st.
Proof. intros H. unfold add_message. by rewrite H. Qed.

Lemma add_sources_chat st chat_id sources chat :
  get_chat st chat_id = Some chat ->
  exists chat',
    get_chat (fst (add_sources st chat_id sources)) chat_id = Some chat'
    /\ Chat.messages chat' = Chat.messages chat
    /\ Chat.sources chat' = Chat.sources chat ++ sources.
Proof.
  intros H. unfold add_sources. rewrite H. simpl.
  eexists. split; [apply lookup_insert_eq|]. done.
Qed.

End StoreFacts.

(** ** C7 and C6: the sentiment classifier *)

(** C7. When the text the classifier combines (the first five texts, joined
    by spaces) is empty or white space only, the verdict is
    {score 50, "Neutral", confidence 0.0} and no call is made to the
    model. *)
Theorem C7_blank_texts_skip_model (lib : Library) (rag : RAGService)
    (texts : list str) :
  blank (combined_text texts) ->
  analyze_sentiment lib rag texts = (neutral 0, []).
Proof.
  intros H. unfold analyze_sentiment.
  destruct (gemini_model rag); [|done].
  by rewrite (strip_blank _ H).
Qed.

Lemma C7_witness :
  analyze_sentiment Ref.lib
    (Demo.rag Demo.hits Demo.good_answer Demo.stream_hi)
    [[]; py "  "; [nl]]
  = (neutral 0, []).
Proof.
  apply C7_blank_texts_skip_model. unfold blank. by repeat constructor.
Defined.

(** A list of texts that are all blank combines to a blank text. *)
Lemma combined_text_blank (texts : list str) :
  Forall blank texts -> blank (combined_text texts).
Proof.
  intros H. unfold combined_text.
  assert (H5 : Forall blank (take 5 texts)) by by apply Forall_take.
  induction H5 as [|t l Ht Hl IH]; [constructor|].
  destruct l as [|t' l]; [done|].
  change (blank (t ++ py " " ++ Py.join (py " ") (t' :: l))).
  apply Forall_app. split; [done|]. apply Forall_app. split; [|done].
  by repeat constructor.
Qed.


Lemma demo_answers (text : str) :
  model_answers (Demo.rag Demo.hits (GenerateText text) Demo.stream_hi)
    Demo.texts text.
Proof.
  eexists. split; [reflexivity|]. split; [|reflexivity].
  vm_compute. discriminate.
Qed.



(** The response that opens an array with a number of 4301 digits is
    refused by the reader with the [ValueError] of [int()], and the verdict
    has confidence 0.0. *)
Example long_number_is_not_a_decode_error :
  json_loads Ref.lib Demo.long_number_text = LoadsValueError (IntTooLong 4301)
  /\ fst (analyze_sentiment Ref.lib
            (Demo.rag Demo.hits Demo.long_number_answer Demo.stream_hi)
            Demo.texts)
     = neutral 0.
Proof. split; vm_compute; reflexivity. Qed.

(** ** C8 and C1: the search fails or finds nothing *)

(** C8. When the search collaborator is unconfigured or raises,
    [search_reddit] returns the empty list, and the run is the run of a
    service whose search found nothing: the same frames, the same storage,
    the same calls to the model. *)
Theorem C8_search_fault_is_empty_result (lib : Library)
    (defaults : ClassDefaults) (rag : RAGService) (st : Storage)
    (chat_id query : str) (subreddit_filter : option str) :
  search_faults rag query subreddit_filter 10 ->
  search_reddit rag query subreddit_filter 10 = []
  /\ generate_research_stream lib defaults rag st chat_id query
       subreddit_filter
     = generate_research_stream lib defaults (with_results [] rag) st
         chat_id query subreddit_filter.
Proof.
  intros H.
  assert (E : search_reddit rag query subreddit_filter 10 = []).
  { unfold search_reddit, search_faults in *.
    destruct (tavily_client rag); [|done].
    destruct H as [msg ->]. done. }
  split; [exact E|].
  unfold generate_research_stream. rewrite E. reflexivity.
Qed.

Lemma C8_witness :
  search_reddit Demo.rag_search_down Demo.query None 10 = []
  /\ generate_research_stream Ref.lib Demo.defaults Demo.rag_search_down
       Demo.st Demo.chat_id Demo.query None
     = generate_research_stream Ref.lib Demo.defaults
         (with_results [] Demo.rag_search_down) Demo.st Demo.chat_id
         Demo.query None.
Proof.
  apply C8_search_fault_is_empty_result.
  simpl. eexists. reflexivity.
Defined.

(** What a run over an empty search does to a conversation that exists. *)
Lemma empty_search_persists (lib : Library) (defaults : ClassDefaults)
    (rag : RAGService) (st : Storage) (chat_id query : str)
    (subreddit_filter : option str) (chat : Chat.t) :
  search_reddit rag query subreddit_filter 10 = [] ->
  get_chat st chat_id = Some chat ->
  exists chat',
    get_chat
      (storage (generate_research_stream lib defaults rag st chat_id query
                  subreddit_filter)) chat_id = Some chat'
    /\ Chat.messages chat'
       = Chat.messages chat
         ++ [Message_new defaults (py "assistant") empty_search_msg]
    /\ Chat.sources chat' = Chat.sources chat.
Proof.
  intros E Hchat. unfold generate_research_stream. rewrite E. simpl.
  by apply add_message_chat.
Qed.

(** C1, amended. When the search returns the empty list, the stream is
    exactly the frame that carries "No relevant discussions found on
    Reddit." followed by the terminal frame, no call is made to the model,
    and the only change to the storage is the [add_message] of that text as
    an assistant message: a conversation that exists gains that one
    message and no source. *)
Theorem C1_empty_search (lib : Library) (defaults : ClassDefaults)
    (rag : RAGService) (st : Storage) (chat_id query : str)
    (subreddit_filter : option str) :
  search_reddit rag query subreddit_filter 10 = [] ->
  let run :=
    generate_research_stream lib defaults rag st chat_id query
      subreddit_filter in
  frames run = [sse (quoted empty_search_msg); sse DONE]
  /\ calls run = []
  /\ storage run
     = fst (add_message defaults st chat_id (py "assistant") empty_search_msg)
  /\ forall chat,
       get_chat st chat_id = Some chat ->
       exists chat',
         get_chat (storage run) chat_id = Some chat'
         /\ Chat.messages chat'
            = Chat.messages chat
              ++ [Message_new defaults (py "assistant") empty_search_msg]
         /\ Chat.sources chat' = Chat.sources chat.
Proof.
  intros E run. split; [|split; [|split]].
  - subst run. unfold generate_research_stream. by rewrite E.
  - subst run. unfold generate_research_stream. by rewrite E.
  - subst run. unfold generate_research_stream. by rewrite E.
  - intros chat Hchat. by apply empty_search_persists.
Qed.

Lemma demo_chat : get_chat Demo.st Demo.chat_id = Some Demo.chat.
Proof. apply lookup_singleton_eq. Qed.

Lemma C1_witness :
  search_reddit (Demo.rag [] Demo.good_answer Demo.stream_hi)
    Demo.query None 10 = []
  /\ let run :=
       generate_research_stream Ref.lib Demo.defaults
         (Demo.rag [] Demo.good_answer Demo.stream_hi) Demo.st Demo.chat_id
         Demo.query None in
     frames run = [sse (quoted empty_search_msg); sse DONE]
     /\ calls run = []
     /\ storage run
        = fst (add_message Demo.defaults Demo.st Demo.chat_id (py "assistant")
                 empty_search_msg)
     /\ forall chat,
          get_chat Demo.st Demo.chat_id = Some chat ->
          exists chat',
            get_chat (storage run) Demo.chat_id = Some chat'
            /\ Chat.messages chat'
               = Chat.messages chat
                 ++ [Message_new Demo.defaults (py "assistant")
                       empty_search_msg]
            /\ Chat.sources chat' = Chat.sources chat.
Proof.
  split; [reflexivity|].
  apply C1_empty_search. reflexivity.
Defined.

(** C1 as stated fails: on an empty search the conversation does gain a
    message, the assistant message that carries the error text. *)
Lemma C1_counterexample :
  ~ claim_C1 Ref.lib Demo.defaults
      (Demo.rag [] Demo.good_answer Demo.stream_hi) Demo.st Demo.chat_id
      Demo.query None.
Proof.
  intros H. destruct (H eq_refl) as [_ Hkeep].
  destruct (empty_search_persists Ref.lib Demo.defaults
              (Demo.rag [] Demo.good_answer Demo.stream_hi) Demo.st
              Demo.chat_id Demo.query None Demo.chat eq_refl demo_chat)
    as (chat' & Hchat' & Hmsgs & _).
  destruct (Hkeep Demo.chat chat' demo_chat Hchat') as [Hsame _].
  rewrite Hmsgs in Hsame.
  apply (f_equal length) in Hsame. rewrite length_app in Hsame.
  simpl in Hsame. lia.
Qed.

(** ** The orchestrator's loop *)

Section LoopFacts.
Context (lib : Library).

Lemma fragments_cons chunk stream :
  fragments lib (chunk :: stream)
  = fragments lib [chunk] ++ fragments lib stream.
Proof.
  unfold fragments. simpl.
  by destruct (decide _); [destruct (_ <$> _)|].
Qed.

Lemma fragments_one chunk :
  fragments lib [chunk]
  = match payload chunk with
    | Some data =>
        if decide (data = DONE) then []
        else if reads_as_verdict lib data then []
        else [decode_payload data]
    | None => []
    end.
Proof.
  unfold fragments, kind. cbn [omap list_omap].
  destruct (payload chunk) as [data|]; [|done].
  destruct (decide (data = DONE)); [done|].
  by destruct (reads_as_verdict _ _).
Qed.

(** A chunk that carries text is yielded, and its text is kept when it is
    neither empty nor the sentinel. *)
Lemma consume_text_step s chunk data :
  yielded (consume_text s chunk data) = yielded s ++ [chunk]
  /\ accumulated_content (consume_text s chunk data)
     = accumulated_content s ++ filter kept [decode_payload data].
Proof.
  unfold consume_text.
  generalize (decode_payload data) as text. intros text.
  rewrite filter_cons, filter_nil.
  destruct (decide (kept text)) as [[Hne Hnd]|Hno].
  - destruct text as [|c text]; [done|]. simpl.
    by rewrite bool_decide_eq_false_2.
  - rewrite app_nil_r.
    destruct text as [|c text]; [done|]. simpl.
    destruct (bool_decide_reflect (c :: text = DONE)) as [E|E]; [done|].
    exfalso. apply Hno. by split.
Qed.

(** One turn of the loop leaves it exactly when the reader raises something
    other than a [ValueError]. *)
Lemma consume_fault s chunk :
  match reader_fault lib chunk with
  | Some e => consume lib s chunk = Raises e
  | None => exists s', consume lib s chunk = Returns s'
  end.
Proof.
  unfold reader_fault, consume, payload.
  generalize (Py.strip (drop 6 chunk)) as data.
  generalize (Py.startswith (py "data: ") chunk) as prefixed.
  intros [|] data; [|by eexists].
  destruct (decide (data = DONE)); [by eexists|].
  destruct (json_loads lib data) as [v| |e|e]; try (by eexists).
  destruct (is_sentiment v); by eexists.
Qed.

(** One turn of the loop that ends: the chunk is yielded, and its text is
    kept when the chunk is a text fragment whose text is neither empty nor
    the sentinel. *)
Lemma consume_step s chunk s' :
  consume lib s chunk = Returns s' ->
  yielded s' = yielded s ++ [chunk]
  /\ accumulated_content s'
     = accumulated_content s ++ filter kept (fragments lib [chunk]).
Proof.
  rewrite fragments_one. unfold consume, payload, reads_as_verdict.
  generalize (Py.strip (drop 6 chunk)) as data.
  generalize (Py.startswith (py "data: ") chunk) as prefixed.
  intros [|] data; [|intros [= <-]; by rewrite filter_nil, app_nil_r].
  destruct (decide (data = DONE));
    [intros [= <-]; by rewrite filter_nil, app_nil_r|].
  destruct (json_loads lib data) as [v| |e|e].
  - destruct (is_sentiment v).
    + intros [= <-]. by rewrite filter_nil, app_nil_r.
    + intros [= <-]. apply consume_text_step.
  - intros [= <-]. apply consume_text_step.
  - intros [= <-]. apply consume_text_step.
  - discriminate.
Qed.

(** The loop over a report that it is not made to leave: every chunk is
    yielded, every call is made. *)
Lemma consume_report_done events : forall s made s' made',
  consume_report lib events s made = (s', made', None) ->
  made' = made ++ calls_of events
  /\ yielded s' = yielded s ++ chunks_of events
  /\ accumulated_content s'
     = accumulated_content s ++ filter kept (fragments lib (chunks_of events)).
Proof.
  induction events as [|[c|chunk] events IH]; intros s made s' made';
    cbn [consume_report].
  - intros [= <- <-]. change (fragments lib (chunks_of [])) with (@nil str).
    by rewrite filter_nil, !app_nil_r.
  - intros H. destruct (IH _ _ _ _ H) as (Hm & Hy & Ha).
    change (calls_of (ModelCall c :: events)) with (c :: calls_of events).
    change (chunks_of (ModelCall c :: events)) with (chunks_of events).
    split; [|done]. by rewrite Hm, <- app_assoc.
  - destruct (consume lib s chunk) as [s1|e] eqn:E; [|discriminate].
    intros H. destruct (IH _ _ _ _ H) as (Hm & Hy & Ha).
    destruct (consume_step s chunk s1 E) as [Hy1 Ha1].
    change (calls_of (Yield chunk :: events)) with (calls_of events).
    change (chunks_of (Yield chunk :: events))
      with (chunk :: chunks_of events).
    split; [done|].
    rewrite Hy, Ha, Hy1, Ha1, (fragments_cons chunk (chunks_of events)),
      filter_app.
    by rewrite <- !app_assoc.
Qed.

(** The loop is not left when the reader raises on no chunk. *)
Lemma consume_report_safe events : forall s made,
  Forall (fun chunk => reader_fault lib chunk = None) (chunks_of events) ->
  exists s', consume_report lib events s made = (s', made ++ calls_of events, None).
Proof.
  induction events as [|[c|chunk] events IH]; intros s made Hsafe;
    cbn [consume_report].
  - exists s. by rewrite app_nil_r.
  - destruct (IH s (made ++ [c]) Hsafe) as [s' H]. exists s'.
    change (calls_of (ModelCall c :: events)) with (c :: calls_of events).
    by rewrite H, <- app_assoc.
  - change (chunks_of (Yield chunk :: events))
      with (chunk :: chunks_of events) in Hsafe.
    apply Forall_cons in Hsafe as [Hc Hsafe].
    pose proof (consume_fault s chunk) as Hf. rewrite Hc in Hf.
    destruct Hf as [s1 ->]. apply IH, Hsafe.
Qed.

(** Whether the loop is left or not, what it has yielded are the first
    chunks of the report, and the calls made are its first calls. *)
Lemma consume_report_prefix events : forall s made s' made' stopped,
  consume_report lib events s made = (s', made', stopped) ->
  exists sent called,
    yielded s' = yielded s ++ sent
    /\ sent `prefix_of` chunks_of events
    /\ made' = made ++ called
    /\ called `prefix_of` calls_of events.
Proof.
  induction events as [|[c|chunk] events IH]; intros s made s' made' stopped;
    cbn [consume_report].
  - intros [= <- <- <-]. exists [], []. by rewrite !app_nil_r.
  - intros H. destruct (IH _ _ _ _ _ H) as (sent & called & Hy & Hp & Hm & Hq).
    exists sent, (c :: called). split; [done|]. split; [done|].
    split; [by rewrite Hm, <- app_assoc|].
    change (calls_of (ModelCall c :: events)) with (c :: calls_of events).
    by apply prefix_cons.
  - destruct (consume lib s chunk) as [s1|e] eqn:E.
    + intros H.
      destruct (IH _ _ _ _ _ H) as (sent & called & Hy & Hp & Hm & Hq).
      destruct (consume_step s chunk s1 E) as [Hy1 _].
      exists (chunk :: sent), called.
      split; [by rewrite Hy, Hy1, <- app_assoc|].
      split; [|done].
      change (chunks_of (Yield chunk :: events))
        with (chunk :: chunks_of events).
      by apply prefix_cons.
    + intros [= <- <- <-]. exists [], []. rewrite !app_nil_r.
      split; [done|]. split; [apply prefix_nil|]. split; [done|].
      apply prefix_nil.
Qed.

(** Empty texts do not show in a concatenation. *)
Lemma concat_kept (texts : list str) :
  concat (filter kept texts)
  = concat (filter (fun text => text <> DONE) texts).
Proof.
  induction texts as [|t texts IH]; [done|].
  rewrite !filter_cons.
  destruct (decide (kept t)) as [[Hne Hnd]|Hno].
  - rewrite decide_True by done. simpl. by rewrite IH.
  - destruct (decide (t <> DONE)) as [Hnd|_]; [|done].
    destruct t as [|c t]; [simpl; exact IH|].
    exfalso. apply Hno. by split.
Qed.

End LoopFacts.

(** ** Runs over a non-empty search *)

Lemma chunks_of_app a b : chunks_of (a ++ b) = chunks_of a ++ chunks_of b.
Proof. unfold chunks_of. apply omap_app. Qed.

Lemma calls_of_app a b : calls_of (a ++ b) = calls_of a ++ calls_of b.
Proof. unfold calls_of. apply omap_app. Qed.

Lemma chunks_of_calls made : chunks_of (map ModelCall made) = [].
Proof. by induction made. Qed.

Lemma calls_of_calls made : calls_of (map ModelCall made) = made.
Proof. induction made as [|c made IH]; [done|]. cbn. by rewrite <- IH at 2. Qed.

Lemma chunks_of_yields chunks : chunks_of (map Yield chunks) = chunks.
Proof. induction chunks as [|c chunks IH]; [done|]. cbn. by rewrite <- IH at 2. Qed.

Lemma calls_of_yields chunks : calls_of (map Yield chunks) = [].
Proof. by induction chunks. Qed.

(** The counts of a list of results can all be read exactly when none of
    them is at fault. *)
Lemma count_fault_none results :
  count_fault results = None
  <-> Forall (fun result => count_readable (get_content result)) results.
Proof.
  induction results as [|r results IH]; [by split; [constructor|]|].
  cbn [count_fault]. unfold count_readable at 1.
  destruct (extract_upvotes_from_content (get_content r)) as [n|e] eqn:E.
  - rewrite IH. split.
    + intros H. constructor; [|done]. unfold count_readable. by exists n.
    + by intros [_ H]%Forall_cons.
  - split; [done|]. intros [[n Hn]%(@id (count_readable _)) _]%Forall_cons.
    congruence.
Qed.

Section RunFacts.
Context (lib : Library) (defaults : ClassDefaults).

Lemma sources_loop_spec results : forall sources,
  sources_loop defaults results sources
  = match count_fault results with
    | Some e => Raises e
    | None => Returns (sources ++ map (source_of defaults) results)
    end.
Proof.
  induction results as [|r results IH]; intros sources;
    cbn [sources_loop count_fault].
  - by rewrite app_nil_r.
  - destruct (extract_upvotes_from_content (get_content r)) as [n|e] eqn:E;
      [|done].
    rewrite IH. destruct (count_fault results); [done|].
    rewrite <- app_assoc. cbn [map app]. do 3 f_equal.
    unfold source_of, upvotes_of. by rewrite E.
Qed.

Lemma report_loop_spec results : forall i sources context_parts,
  report_loop defaults i results sources context_parts
  = match count_fault results with
    | Some e => Raises e
    | None =>
        Returns (sources ++ map (source_of defaults) results,
                 context_parts ++ imap (fun j => context_of (i + j)) results)
    end.
Proof.
  induction results as [|r results IH]; intros i sources context_parts;
    cbn [report_loop count_fault].
  - by rewrite !app_nil_r.
  - destruct (extract_upvotes_from_content (get_content r)) as [n|e] eqn:E;
      [|done].
    rewrite IH. destruct (count_fault results); [done|].
    rewrite <- !app_assoc. cbn [map app imap]. do 2 f_equal.
    + do 2 f_equal. unfold source_of, upvotes_of. by rewrite E.
    + do 2 f_equal.
      * unfold context_of. by rewrite Nat.add_0_r.
      * apply imap_ext. intros j x _. simpl. f_equal. lia.
Qed.

(** The report: it raises at its first step when a count cannot be read;
    otherwise it makes the calls of the classifier, yields the verdict, and
    goes on with the synthesis. *)
Lemma report_events (rag : RAGService) (query : str)
    (results : list Result.t) (subreddit_filter : option str) :
  generate_sentiment_report lib defaults rag query results subreddit_filter
  = match count_fault (take 8 results) with
    | Some e => ([], Some e)
    | None =>
        (map ModelCall
           (snd (analyze_sentiment lib rag (map get_content (take 5 results))))
         ++ Yield (sse (model_dump_json lib (verdict_of lib rag results)))
         :: synthesis rag
              (system_prompt lib query
                 (Py.join [nl; nl] (imap context_of (take 8 results)))
                 (verdict_of lib rag results)),
         None)
    end.
Proof.
  unfold generate_sentiment_report, verdict_of.
  rewrite report_loop_spec.
  destruct (count_fault (take 8 results)); [done|].
  by destruct (analyze_sentiment lib rag (map get_content (take 5 results))).
Qed.

(** A run over a non-empty search: it ends in the handler when the loop is
    left or the report raises; otherwise it sends the chunks of the report,
    makes the calls of the report, and persists one assistant message and
    the sources of the first eight results. *)
Lemma run_nonempty (rag : RAGService) (st : Storage) (chat_id query : str)
    (subreddit_filter : option str) :
  search_reddit rag query subreddit_filter 10 <> [] ->
  let results := search_reddit rag query subreddit_filter 10 in
  let report :=
    generate_sentiment_report lib defaults rag query results
      subreddit_filter in
  let loop := consume_report lib (fst report) loop_start [] in
  generate_research_stream lib defaults rag st chat_id query subreddit_filter
  = match snd loop, snd report with
    | Some e, _ => handled lib (yielded (fst (fst loop))) st (snd (fst loop)) e
    | None, Some e =>
        handled lib (yielded (fst (fst loop))) st (snd (fst loop)) e
    | None, None =>
        {| frames := chunks_of (fst report);
           storage :=
             fst (add_sources
                    (fst (add_message defaults st chat_id (py "assistant")
                            (persisted_content lib (chunks_of (fst report)))))
                    chat_id (map (source_of defaults) (take 8 results)));
           calls := calls_of (fst report);
           error := None |}
    end.
Proof.
  intros Hne results report loop. subst loop report results.
  unfold generate_research_stream.
  destruct (search_reddit rag query subreddit_filter 10) as [|r l] eqn:E;
    [done|].
  rewrite report_events, sources_loop_spec.
  destruct (count_fault (take 8 (r :: l))) as [e|] eqn:Hfault.
  { reflexivity. }
  cbn [fst snd]. set (events := _ ++ _ :: _).
  fold loop_start.
  destruct (consume_report lib events loop_start []) as [[s made] stopped]
    eqn:Hloop.
  cbn [fst snd].
  destruct stopped as [e|]; [reflexivity|].
  destruct (consume_report_done lib events _ _ _ _ Hloop) as (Hm & Hy & Ha).
  simpl in Hm, Hy, Ha. rewrite Hm, Hy, Ha, concat_kept.
  unfold persisted_content, transcript.
  by destruct (Py.truthy _).
Qed.

(** A run over results with a count that cannot be read: the report raises
    at its first step, and the handler sends its two frames; no call is
    made and nothing is persisted. *)
Lemma run_count_fault (rag : RAGService) (st : Storage) (chat_id query : str)
    (subreddit_filter : option str) (e : exception) :
  search_reddit rag query subreddit_filter 10 <> [] ->
  count_fault (take 8 (search_reddit rag query subreddit_filter 10)) = Some e ->
  generate_research_stream lib defaults rag st chat_id query subreddit_filter
  = handled lib [] st [] e.
Proof.
  intros Hne Hfault.
  rewrite (run_nonempty rag st chat_id query subreddit_filter Hne).
  rewrite report_events, Hfault. reflexivity.
Qed.

End RunFacts.

(** The exception a run over a non-empty search ends with: the one that
    leaves the loop, or else the one the report raises. *)
Lemma run_error (lib : Library) (defaults : ClassDefaults)
    (rag : RAGService) (st : Storage) (chat_id query : str)
    (subreddit_filter : option str) :
  search_reddit rag query subreddit_filter 10 <> [] ->
  let report :=
    generate_sentiment_report lib defaults rag query
      (search_reddit rag query subreddit_filter 10) subreddit_filter in
  error (generate_research_stream lib defaults rag st chat_id query
           subreddit_filter)
  = match snd (consume_report lib (fst report) loop_start []) with
    | Some e => Some e
    | None => snd report
    end.
Proof.
  intros Hne report. subst report.
  rewrite (run_nonempty lib defaults rag st chat_id query subreddit_filter Hne).
  destruct (snd (consume_report _ _ _ _)); [done|].
  by destruct (snd (generate_sentiment_report _ _ _ _ _ _)).
Qed.

(** The frames, the calls and the storage of a run that completes. *)
Lemma run_completed (lib : Library) (defaults : ClassDefaults)
    (rag : RAGService) (st : Storage) (chat_id query : str)
    (subreddit_filter : option str) :
  search_reddit rag query subreddit_filter 10 <> [] ->
  let results := search_reddit rag query subreddit_filter 10 in
  let report :=
    generate_sentiment_report lib defaults rag query results
      subreddit_filter in
  let run :=
    generate_research_stream lib defaults rag st chat_id query
      subreddit_filter in
  completes run ->
  frames run = chunks_of (fst report)
  /\ calls run = calls_of (fst report)
  /\ snd report = None
  /\ storage run
     = fst (add_sources
              (fst (add_message defaults st chat_id (py "assistant")
                      (persisted_content lib (frames run))))
              chat_id (map (source_of defaults) (take 8 results))).
Proof.
  intros Hne results report run. subst run report results. unfold completes.
  rewrite (run_nonempty lib defaults rag st chat_id query subreddit_filter Hne).
  destruct (snd (consume_report _ _ _ _)); [done|].
  by destruct (snd (generate_sentiment_report _ _ _ _ _ _)).
Qed.

(** A run that ends in the handler leaves the storage as it was, and its
    last two frames are those of the handler. *)
Lemma run_failed (lib : Library) (defaults : ClassDefaults)
    (rag : RAGService) (st : Storage) (chat_id query : str)
    (subreddit_filter : option str) (e : exception) :
  let run :=
    generate_research_stream lib defaults rag st chat_id query
      subreddit_filter in
  error run = Some e ->
  storage run = st
  /\ exists sent,
       frames run = sent ++ [error_frame lib e; sse DONE]
       /\ sent `prefix_of`
            chunks_of
              (fst (generate_sentiment_report lib defaults rag query
                      (search_reddit rag query subreddit_filter 10)
                      subreddit_filter)).
Proof.
  intros run. subst run.
  destruct (decide (search_reddit rag query subreddit_filter 10 = []))
    as [E|Hne].
  { unfold generate_research_stream. by rewrite E. }
  rewrite (run_nonempty lib defaults rag st chat_id query subreddit_filter Hne).
  set (events := fst (generate_sentiment_report _ _ _ _ _ _)).
  destruct (consume_report lib events loop_start []) as [[s made] stopped]
    eqn:Hloop.
  destruct (consume_report_prefix lib events _ _ _ _ _ Hloop)
    as (sent & called & Hy & Hp & _ & _).
  simpl in Hy. cbn [fst snd].
  destruct stopped as [e'|].
  - intros [= ->]. split; [done|]. exists sent. by rewrite Hy.
  - destruct (snd (generate_sentiment_report _ _ _ _ _ _)) as [e'|]; [|done].
    intros [= ->]. split; [done|]. exists sent. by rewrite Hy.
Qed.

(** What a run that completes does to a conversation that exists. *)
Lemma run_persists (lib : Library) (defaults : ClassDefaults)
    (rag : RAGService) (st : Storage) (chat_id query : str)
    (subreddit_filter : option str) (chat : Chat.t) :
  search_reddit rag query subreddit_filter 10 <> [] ->
  get_chat st chat_id = Some chat ->
  let run :=
    generate_research_stream lib defaults rag st chat_id query
      subreddit_filter in
  completes run ->
  exists chat',
    get_chat (storage run) chat_id = Some chat'
    /\ Chat.messages chat'
       = Chat.messages chat
         ++ [Message_new defaults (py "assistant")
               (persisted_content lib (frames run))]
    /\ Chat.sources chat'
       = Chat.sources chat
         ++ map (source_of defaults)
              (take 8 (search_reddit rag query subreddit_filter 10)).
Proof.
  intros Hne Hchat run Hdone.
  destruct (run_completed lib defaults rag st chat_id query subreddit_filter
              Hne Hdone) as (_ & _ & _ & Hst).
  fold run in Hst. rewrite Hst.
  destruct (add_message_chat defaults st chat_id (py "assistant")
              (persisted_content lib (frames run)) chat Hchat)
    as (chat1 & H1 & Hm1 & Hs1).
  destruct (add_sources_chat _ chat_id
              (map (source_of defaults)
                 (take 8 (search_reddit rag query subreddit_filter 10)))
              chat1 H1) as (chat2 & H2 & Hm2 & Hs2).
  exists chat2. split; [exact H2|]. split; congruence.
Qed.

(** ** C2: the persisted transcript *)

(** C2, amended. In every run over a non-empty search that completes (the
    handler of the orchestrator is not entered), a conversation that
    exists gains exactly one assistant message.  Its content is the
    concatenation, in emission order, of the decoded payloads of the text
    fragment frames of the stream, leaving out a payload that decodes to
    the sentinel "[DONE]", with the white space at both ends trimmed; when
    that trimmed text is empty the content is "Report generated
    successfully".  A run that ends in the handler persists nothing. *)
Theorem C2_persisted_transcript (lib : Library) (defaults : ClassDefaults)
    (rag : RAGService) (st : Storage) (chat_id query : str)
    (subreddit_filter : option str) (chat : Chat.t) :
  search_reddit rag query subreddit_filter 10 <> [] ->
  get_chat st chat_id = Some chat ->
  let run :=
    generate_research_stream lib defaults rag st chat_id query
      subreddit_filter in
  let text :=
    Py.strip
      (concat (filter (fun t => t <> DONE) (fragments lib (frames run)))) in
  (completes run ->
   exists chat',
     get_chat (storage run) chat_id = Some chat'
     /\ Chat.messages chat'
        = Chat.messages chat
          ++ [Message_new defaults (py "assistant")
                (if Py.truthy text then text else fallback_msg)])
  /\ (~ completes run -> storage run = st).
Proof.
  intros Hne Hchat run text. split.
  - intros Hdone.
    destruct (run_persists lib defaults rag st chat_id query subreddit_filter
                chat Hne Hchat Hdone) as (chat' & H & Hm & _).
    exists chat'. split; [exact H|]. exact Hm.
  - unfold completes. intros Hfail.
    destruct (error run) as [e|] eqn:E; [|done].
    apply (run_failed lib defaults rag st chat_id query subreddit_filter e E).
Qed.

Lemma demo_search (answer : generate_outcome) (stream : stream_outcome) :
  search_reddit (Demo.rag Demo.hits answer stream) Demo.query None 10 <> [].
Proof. discriminate. Qed.

(** The demonstration run completes. *)
Lemma demo_completes (st : Storage) (chat_id : str) :
  completes
    (generate_research_stream Ref.lib Demo.defaults
       (Demo.rag Demo.hits Demo.good_answer Demo.stream_hi) st chat_id
       Demo.query None).
Proof.
  unfold completes.
  rewrite (run_error Ref.lib Demo.defaults _ st chat_id Demo.query None
             (demo_search Demo.good_answer Demo.stream_hi)).
  vm_compute. reflexivity.
Qed.

Lemma C2_witness :
  let run :=
    generate_research_stream Ref.lib Demo.defaults
      (Demo.rag Demo.hits Demo.good_answer Demo.stream_hi) Demo.st
      Demo.chat_id Demo.query None in
  let text :=
    Py.strip
      (concat (filter (fun t => t <> DONE) (fragments Ref.lib (frames run)))) in
  completes run
  /\ exists chat',
       get_chat (storage run) Demo.chat_id = Some chat'
       /\ Chat.messages chat'
          = Chat.messages Demo.chat
            ++ [Message_new Demo.defaults (py "assistant")
                  (if Py.truthy text then text else fallback_msg)].
Proof.
  split; [apply demo_completes|].
  exact (proj1 (C2_persisted_transcript Ref.lib Demo.defaults
                  (Demo.rag Demo.hits Demo.good_answer Demo.stream_hi) Demo.st
                  Demo.chat_id Demo.query None Demo.chat
                  (demo_search Demo.good_answer Demo.stream_hi) demo_chat)
           (demo_completes Demo.st Demo.chat_id)).
Defined.

(** C2 as stated fails: the model streams the one fragment "Hi" followed
    by a newline and the run completes; the text fragments of the stream
    concatenate to that text, and the message persisted is "Hi". *)
Lemma C2_counterexample :
  ~ claim_C2 Ref.lib Demo.defaults
      (Demo.rag Demo.hits Demo.good_answer Demo.stream_hi) Demo.st
      Demo.chat_id Demo.query None.
Proof.
  intros H.
  destruct (run_persists Ref.lib Demo.defaults
              (Demo.rag Demo.hits Demo.good_answer Demo.stream_hi) Demo.st
              Demo.chat_id Demo.query None Demo.chat
              (demo_search _ _) demo_chat (demo_completes _ _))
    as (chat' & Hc & Hm & _).
  specialize (H (demo_search _ _) (demo_completes _ _) Demo.chat chat'
                demo_chat Hc).
  cbv zeta in H. rewrite Hm in H. apply app_inv_head in H.
  apply (f_equal (fun l => Message.content <$> head l)) in H.
  destruct (run_completed Ref.lib Demo.defaults
              (Demo.rag Demo.hits Demo.good_answer Demo.stream_hi) Demo.st
              Demo.chat_id Demo.query None (demo_search _ _)
              (demo_completes _ _)) as (Hframes & _).
  rewrite Hframes in H.
  vm_compute in H. discriminate H.
Qed.

(** A fragment that is the text of the sentinel reaches the consumer as a
    text fragment and is left out of the persisted message. *)
Example sentinel_fragment_is_dropped :
  fragments Ref.lib (Demo.report Demo.stream_sentinel) = [py "[DONE]"; py "Hi"]
  /\ persisted_content Ref.lib (Demo.report Demo.stream_sentinel) = py "Hi".
Proof. split; vm_compute; reflexivity. Qed.

(** ** C3: the order of the frames *)

Lemma lstrip_blank_app b s : blank b -> Py.lstrip (b ++ s) = Py.lstrip s.
Proof.
  induction 1 as [|c b Hc _ IH]; [done|]. simpl. by rewrite Hc.
Qed.

(** Trimming removes a blank tail after a word and nothing else. *)
Lemma strip_tail w1 t w2 b :
  word w1 -> word w2 -> blank b ->
  Py.strip (w1 ++ t ++ w2 ++ b) = w1 ++ t ++ w2.
Proof.
  intros H1 H2 Hb. unfold Py.strip, Py.rstrip.
  rewrite (lstrip_word w1 _ H1).
  replace (w1 ++ t ++ w2 ++ b) with ((w1 ++ t ++ w2) ++ b)
    by (by rewrite <- !app_assoc).
  rewrite rev_app_distr, lstrip_blank_app by (by apply List.Forall_rev).
  fold (Py.rstrip (w1 ++ t ++ w2)).
  pose proof (strip_between w1 t w2 H1 H2) as E.
  unfold Py.strip in E. by rewrite (lstrip_word w1 _ H1) in E.
Qed.

Lemma word_dq : word [dq].
Proof. split; [done|]. by repeat constructor. Qed.

Lemma payload_quoted text : payload (sse (quoted text)) = Some (quoted text).
Proof.
  unfold payload, sse.
  change (Py.startswith (py "data: ") (py "data: " ++ quoted text ++ [nl; nl]))
    with true.
  change (drop 6 (py "data: " ++ quoted text ++ [nl; nl]))
    with (quoted text ++ [nl; nl]).
  cbv iota. f_equal. unfold quoted. rewrite <- !app_assoc.
  apply strip_tail; [apply word_dq|apply word_dq|]. by repeat constructor.
Qed.

(** A frame with a quoted payload is a text fragment for every library
    that reads a quoted text as a string. *)
Lemma kind_quoted lib chunk :
  quoted_is_text lib -> quoted_frame chunk -> kind lib chunk = TextFragment.
Proof.
  intros Hq [text ->]. unfold kind, reads_as_verdict. rewrite payload_quoted.
  rewrite decide_False by discriminate.
  unfold quoted. cbn [app].
  by destruct (Hq (text ++ [dq])) as [[t ->]| ->].
Qed.


(** The reader raises nothing that leaves the loop on a frame with a quoted
    payload, on a verdict frame, or on the terminal frame. *)
Lemma quoted_safe lib chunk :
  quoted_is_text lib -> quoted_frame chunk -> reader_fault lib chunk = None.
Proof.
  intros Hq [text ->]. unfold reader_fault. rewrite payload_quoted.
  rewrite decide_False by discriminate.
  unfold quoted. cbn [app].
  by destruct (Hq (text ++ [dq])) as [[t ->]| ->].
Qed.

Lemma verdict_safe lib chunk :
  kind lib chunk = Verdict -> reader_fault lib chunk = None.
Proof.
  unfold kind, reader_fault, reads_as_verdict.
  destruct (payload chunk) as [data|]; [|done].
  destruct (decide (data = DONE)); [done|].
  by destruct (json_loads lib data).
Qed.

Lemma done_safe lib : reader_fault lib (sse DONE) = None.
Proof. reflexivity. Qed.

Lemma part_frames_quoted parts : Forall quoted_frame (part_frames parts).
Proof.
  unfold part_frames. induction parts as [|[text|] parts IH]; simpl; try done.
  destruct (Py.truthy text); simpl; [|done].
  constructor; [|done]. by eexists.
Qed.

Lemma stream_loop_quoted chunks fault :
  Forall quoted_frame (fst (stream_loop chunks fault)).
Proof.
  induction chunks as [|chunk chunks IH]; simpl; [constructor|].
  assert (Hparts : Forall quoted_frame
            match Chunk.parts chunk with
            | Some parts => part_frames parts
            | None => []
            end).
  { destruct (Chunk.parts chunk); [apply part_frames_quoted|constructor]. }
  destruct (Chunk.text chunk) as [|msg|text]; simpl.
  - destruct (stream_loop chunks fault) as [later raised]. simpl in *.
    by apply Forall_app.
  - constructor.
  - destruct (stream_loop chunks fault) as [later raised]. simpl in *.
    apply Forall_app. split; [|done].
    destruct (Py.truthy text); [|done].
    constructor; [|constructor]. by eexists.
Qed.

Lemma stream_frames_quoted response :
  Forall quoted_frame (stream_frames response).
Proof.
  assert (Herr : forall msg, quoted_frame (gemini_error_frame msg))
    by (intros msg; by eexists).
  destruct response as [msg| |chunks fault]; simpl.
  - by repeat constructor.
  - by repeat constructor.
  - pose proof (stream_loop_quoted chunks fault) as H.
    destruct (stream_loop chunks fault) as [frames [msg|]]; simpl in H.
    + apply Forall_app. split; [done|]. by repeat constructor.
    + destruct chunks; [|done].
      apply Forall_app. split; [done|].
      constructor; [|constructor]. by eexists.
Qed.

(** The synthesis yields frames with quoted payloads and then the terminal
    frame, whether it succeeds or fails, and makes at most the streaming
    call. *)
Lemma synthesis_shape (rag : RAGService) (prompt : str) :
  exists body,
    chunks_of (synthesis rag prompt) = body ++ [sse DONE]
    /\ Forall quoted_frame body.
Proof.
  unfold synthesis. destruct (gemini_model rag) as [model|].
  - exists (stream_frames (generate_content_stream model prompt)).
    split; [|apply stream_frames_quoted].
    change (chunks_of (ModelCall ?c :: ?l)) with (chunks_of l).
    apply chunks_of_yields.
  - eexists [_]. split; [reflexivity|].
    constructor; [|constructor]. by eexists.
Qed.

Lemma synthesis_calls (rag : RAGService) (prompt : str) :
  calls_of (synthesis rag prompt)
  = match gemini_model rag with
    | Some _ => [CallStream prompt]
    | None => []
    end.
Proof.
  unfold synthesis. destruct (gemini_model rag) as [model|]; [|done].
  change (calls_of (ModelCall ?c :: ?l)) with (c :: calls_of l).
  by rewrite calls_of_yields.
Qed.

(** The report over results whose counts can be read is the verdict frame,
    then frames with quoted payloads, then the terminal frame, whether the
    synthesis succeeds or fails. *)
Lemma report_shape (lib : Library) (defaults : ClassDefaults)
    (rag : RAGService) (query : str) (results : list Result.t)
    (subreddit_filter : option str) :
  count_fault (take 8 results) = None ->
  snd (generate_sentiment_report lib defaults rag query results
         subreddit_filter) = None
  /\ exists body,
       chunks_of
         (fst (generate_sentiment_report lib defaults rag query results
                 subreddit_filter))
       = sse (model_dump_json lib (verdict_of lib rag results))
           :: body ++ [sse DONE]
       /\ Forall quoted_frame body.
Proof.
  intros Hfault. rewrite report_events, Hfault. split; [done|].
  cbn [fst]. rewrite chunks_of_app, chunks_of_calls.
  destruct (synthesis_shape rag
              (system_prompt lib query
                 (Py.join [nl; nl] (imap context_of (take 8 results)))
                 (verdict_of lib rag results))) as (body & Hbody & Hq).
  exists body. split; [|done].
  cbn [app]. change (chunks_of (Yield ?c :: ?l)) with (c :: chunks_of l).
  by rewrite Hbody.
Qed.

(** A run over results whose counts can be read completes, for a library
    that reads a quoted text as a string and reads back the verdict it
    wrote. *)
Lemma run_completes (lib : Library) (defaults : ClassDefaults)
    (rag : RAGService) (st : Storage) (chat_id query : str)
    (subreddit_filter : option str) :
  search_reddit rag query subreddit_filter 10 <> [] ->
  quoted_is_text lib ->
  kind lib
    (sse (model_dump_json lib
            (verdict_of lib rag (search_reddit rag query subreddit_filter 10))))
  = Verdict ->
  counts_readable (search_reddit rag query subreddit_filter 10) ->
  completes
    (generate_research_stream lib defaults rag st chat_id query
       subreddit_filter).
Proof.
  intros Hne Hq Hv Hcounts. unfold completes.
  rewrite (run_error lib defaults rag st chat_id query subreddit_filter Hne).
  apply count_fault_none in Hcounts.
  destruct (report_shape lib defaults rag query
              (search_reddit rag query subreddit_filter 10) subreddit_filter
              Hcounts) as (-> & body & Hchunks & Hbody).
  set (events := fst (generate_sentiment_report _ _ _ _ _ _)) in *.
  destruct (consume_report_safe lib events loop_start []) as [s' ->]; [|done].
  rewrite Hchunks. constructor; [by apply verdict_safe|].
  apply Forall_app. split.
  - eapply Forall_impl; [exact Hbody|]. intros f Hf. by apply quoted_safe.
  - constructor; [apply done_safe|constructor].
Qed.

(** What cannot be read is a count of more than 4300 digits. *)
Lemma count_fault_is_too_long results e :
  count_fault results = Some e ->
  exists digits, e = IntTooLong digits /\ int_max_str_digits < digits.
Proof.
  induction results as [|r results IH]; [done|]. cbn [count_fault].
  unfold extract_upvotes_from_content, int_of_digits.
  destruct (search_upvotes _) as [digits|]; [|exact IH].
  destruct (int_max_str_digits <? length digits) eqn:E; [|exact IH].
  intros [= <-]. exists (length digits). split; [done|].
  by apply Nat.ltb_lt.
Qed.

(** The reference reader reads a quoted text as a string, or not at all. *)
Lemma ref_quoted_is_text : quoted_is_text Ref.lib.
Proof.
  intros s. simpl. unfold Ref.json_loads.
  cbn [Ref.read_value Ref.skip_ws].
  change (Ref.is_ws dq) with false. cbv iota.
  rewrite decide_True by done.
  destruct (Ref.read_string s) as [[text rest]|]; [|by right].
  destruct (Ref.skip_ws rest); [left; by eexists|by right].
Qed.



Lemma demo_counts : counts_readable Demo.hits.
Proof.
  apply count_fault_none. vm_compute. reflexivity.
Qed.


Lemma flooded_search (answer : generate_outcome) (stream : stream_outcome) :
  search_reddit (Demo.rag Demo.flooded_hits answer stream) Demo.query None 10
  <> [].
Proof. discriminate. Qed.

Lemma flooded_count_fault :
  count_fault (take 8 Demo.flooded_hits) = Some (IntTooLong 4301).
Proof. vm_compute. reflexivity. Qed.


(** The frames of that run, as the client reads them. *)
Example flooded_stream :
  let run :=
    generate_research_stream Ref.lib Demo.defaults
      (Demo.rag Demo.flooded_hits Demo.good_answer Demo.stream_hi) Demo.st
      Demo.chat_id Demo.query None in
  map (kind Ref.lib) (frames run) = [TextFragment; Done]
  /\ fragments Ref.lib (frames run)
     = [py "Error: Exceeds the limit (4300 digits) for integer string conversion: value has 4301 digits; use sys.set_int_max_str_digits() to increase the limit"]
  /\ calls run = []
  /\ storage run = Demo.st.
Proof.
  cbv zeta.
  rewrite (run_count_fault Ref.lib Demo.defaults
             (Demo.rag Demo.flooded_hits Demo.good_answer Demo.stream_hi)
             Demo.st Demo.chat_id Demo.query None (IntTooLong 4301)
             (flooded_search _ _) flooded_count_fault).
  cbn [handled frames calls storage].
  split; [vm_compute; reflexivity|]. split; [vm_compute; reflexivity|].
  by split.
Qed.

(** The stream of a synthesis that breaks after one chunk: the verdict, the
    chunk, the error text, the terminal frame. *)
Example broken_stream_kinds :
  map (kind Ref.lib) (Demo.report Demo.stream_broken)
  = [Verdict; TextFragment; TextFragment; Done]
  /\ fragments Ref.lib (Demo.report Demo.stream_broken)
     = [py "Overall, "; py "Error calling Gemini API: 504 Deadline Exceeded"].
Proof. split; vm_compute; reflexivity. Qed.

(** ** C5: the results that are used *)





(** The classifier makes at most one call, with the prompt of the text it
    combines. *)
Lemma analyze_sentiment_calls lib rag texts :
  snd (analyze_sentiment lib rag texts) = []
  \/ snd (analyze_sentiment lib rag texts)
     = [CallGenerate (sentiment_prompt (combined_text texts))].
Proof.
  unfold analyze_sentiment. destruct (gemini_model rag); [|by left].
  destruct (negb _); [by left|by right].
Qed.

(** The calls of the report over results whose counts can be read. *)
Lemma report_calls lib defaults rag query results filter :
  count_fault (take 8 results) = None ->
  calls_of (fst (generate_sentiment_report lib defaults rag query results
                   filter))
  = snd (analyze_sentiment lib rag (map get_content (take 5 results)))
    ++ match gemini_model rag with
       | Some _ =>
           [CallStream
              (system_prompt lib query
                 (Py.join [nl; nl] (imap context_of (take 8 results)))
                 (verdict_of lib rag results))]
       | None => []
       end.
Proof.
  intros Hfault. rewrite report_events, Hfault. cbn [fst].
  rewrite calls_of_app, calls_of_calls. f_equal.
  change (calls_of (Yield ?c :: ?l)) with (calls_of l).
  apply synthesis_calls.
Qed.

(** The calls a run makes are the first calls of the report. *)
Lemma run_calls_prefix lib defaults rag st chat_id query filter :
  search_reddit rag query filter 10 <> [] ->
  calls (generate_research_stream lib defaults rag st chat_id query filter)
  `prefix_of`
  calls_of (fst (generate_sentiment_report lib defaults rag query
                   (search_reddit rag query filter 10) filter)).
Proof.
  intros Hne.
  rewrite (run_nonempty lib defaults rag st chat_id query filter Hne).
  set (events := fst (generate_sentiment_report _ _ _ _ _ _)).
  destruct (consume_report lib events loop_start []) as [[s made] stopped]
    eqn:Hloop.
  destruct (consume_report_prefix lib events _ _ _ _ _ Hloop)
    as (sent & called & _ & _ & Hm & Hp).
  simpl in Hm. subst made. cbn [fst snd].
  destruct stopped as [e|]; [done|].
  destruct (snd (generate_sentiment_report _ _ _ _ _ _)); [done|].
  cbn [calls]. done.
Qed.







(** The synthesis prompt of the demonstration run cites the first result as
    Source [1] and the eighth as Source [8]; it has no Source [0] and no
    Source [9], and the text of the ninth result is not in it. *)
Example demo_prompt_cites_from_one :
  match calls (generate_research_stream Ref.lib Demo.defaults
                 (Demo.rag Demo.hits Demo.good_answer Demo.stream_hi)
                 {| chats := ∅; clock := 0 |} Demo.chat_id Demo.query None)
  with
  | [CallGenerate _; CallStream prompt] =>
      Py.contains (py "Source [1]: Thread 1") prompt = true
      /\ Py.contains (py "Source [8]: Thread 8") prompt = true
      /\ Py.contains (py "Source [0]") prompt = false
      /\ Py.contains (py "Source [9]") prompt = false
      /\ Py.contains (py "Ninth") prompt = false
  | _ => False
  end.
Proof.
  rewrite (proj1 (proj2 (run_completed Ref.lib Demo.defaults
             (Demo.rag Demo.hits Demo.good_answer Demo.stream_hi)
             {| chats := ∅; clock := 0 |} Demo.chat_id Demo.query None
             (demo_search _ _) (demo_completes _ _)))).
  vm_compute. repeat split.
Qed.

(** ** C9: the ids of the records *)

(** Every source and every message the pipeline constructs carries the id
    that was drawn when its class was defined. *)
Lemma new_records_share_ids (defaults : ClassDefaults) :
  (forall title url subreddit upvotes content,
     Source.id (Source_new defaults title url subreddit upvotes content)
     = Source_id defaults)
  /\ (forall role content,
        Message.id (Message_new defaults role content) = Message_id defaults).
Proof. split; reflexivity. Qed.

(** C9, on the code: the sources a run persists all carry the same id, the
    default drawn once for the class, so two distinct sources of one run do
    not differ in their ids.  A run that completes persists one source for
    each of the first eight results; a run that ends in the handler
    persists none. *)
Theorem C9_sources_share_one_id (lib : Library) (defaults : ClassDefaults)
    (rag : RAGService) (st : Storage) (chat_id query : str)
    (subreddit_filter : option str) (chat : Chat.t) :
  search_reddit rag query subreddit_filter 10 <> [] ->
  get_chat st chat_id = Some chat ->
  let run :=
    generate_research_stream lib defaults rag st chat_id query
      subreddit_filter in
  exists chat' added,
    get_chat (storage run) chat_id = Some chat'
    /\ Chat.sources chat' = Chat.sources chat ++ added
    /\ (completes run ->
        length added
        = length (take 8 (search_reddit rag query subreddit_filter 10)))
    /\ (~ completes run -> added = [])
    /\ forall s1 s2, s1 ∈ added -> s2 ∈ added -> Source.id s1 = Source.id s2.
Proof.
  intros Hne Hchat run.
  destruct (decide (completes run)) as [Hdone|Hfail].
  - destruct (run_persists lib defaults rag st chat_id query subreddit_filter
                chat Hne Hchat Hdone) as (chat' & H & _ & Hs).
    exists chat', (map (source_of defaults)
                     (take 8 (search_reddit rag query subreddit_filter 10))).
    split; [exact H|]. split; [exact Hs|].
    split; [by rewrite length_map|]. split; [done|].
    intros s1 s2 H1 H2.
    apply list_elem_of_fmap in H1 as (r1 & -> & _).
    apply list_elem_of_fmap in H2 as (r2 & -> & _).
    reflexivity.
  - exists chat, []. unfold completes in *.
    destruct (error run) as [e|] eqn:E; [|done].
    destruct (run_failed lib defaults rag st chat_id query subreddit_filter
                e E) as [Hst _].
    fold run in Hst. rewrite Hst, app_nil_r.
    split; [done|]. split; [done|]. split; [done|]. split; [done|].
    by intros s1 s2 ?%elem_of_nil.
Qed.

Lemma C9_witness :
  let run :=
    generate_research_stream Ref.lib Demo.defaults
      (Demo.rag Demo.hits Demo.good_answer Demo.stream_hi)
      Demo.st Demo.chat_id Demo.query None in
  completes run
  /\ exists chat' added,
       get_chat (storage run) Demo.chat_id = Some chat'
       /\ Chat.sources chat' = Chat.sources Demo.chat ++ added
       /\ (completes run ->
           length added
           = length (take 8 (search_reddit
                               (Demo.rag Demo.hits Demo.good_answer
                                  Demo.stream_hi)
                               Demo.query None 10)))
       /\ (~ completes run -> added = [])
       /\ forall s1 s2,
            s1 ∈ added -> s2 ∈ added -> Source.id s1 = Source.id s2.
Proof.
  split; [apply demo_completes|].
  exact (C9_sources_share_one_id Ref.lib Demo.defaults
           (Demo.rag Demo.hits Demo.good_answer Demo.stream_hi) Demo.st
           Demo.chat_id Demo.query None Demo.chat
           (demo_search Demo.good_answer Demo.stream_hi) demo_chat).
Defined.

(** The first two sources of the demonstration run are different records
    with one id. *)
Example two_sources_one_id :
  match map (source_of Demo.defaults) (take 8 Demo.hits) with
  | s1 :: s2 :: _ =>
      Source.url s1 <> Source.url s2 /\ Source.id s1 = Source.id s2
  | _ => False
  end.
Proof. vm_compute. split; [discriminate|reflexivity]. Qed.

(** ** C4: the round trip of a fragment *)

(** Replacing a single character is a map over the characters. *)
Lemma replace_char c new s :
  Py.replace [c] new s
  = flat_map (fun x => if decide (x = c) then new else [x]) s.
Proof.
  unfold Py.replace. induction s as [|x s IH]; [done|].
  cbn [Py.replace_from Py.startswith flat_map length Nat.sub].
  destruct (decide (c = x)) as [->|Hne].
  - rewrite decide_True by done. by rewrite IH.
  - rewrite decide_False by congruence. simpl. by rewrite IH.
Qed.

Lemma escape_chars s : escape s = flat_map escape_char s.
Proof.
  unfold escape. rewrite !replace_char.
  induction s as [|x s IH]; [done|].
  cbn [flat_map]. rewrite flat_map_app, IH. f_equal.
  unfold escape_char.
  destruct (decide (x = dq)) as [->|Hq]; [done|].
  simpl. by rewrite app_nil_r.
Qed.

(** The escaped text shows an n at its head only where the text does, and
    the text with its quotes escaped never shows a quote at its head. *)
Lemma head_n_escaped s :
  Py.startswith ["n"%char] (flat_map escape_char s)
  = Py.startswith ["n"%char] s.
Proof.
  destruct s as [|x s]; [done|]. cbn [flat_map]. unfold escape_char.
  destruct (decide (x = dq)) as [->|Hq]; [done|].
  destruct (decide (x = nl)) as [->|Hn]; done.
Qed.

Lemma head_quote_escaped s :
  Py.startswith [dq] (flat_map escape_quote s) = false.
Proof.
  destruct s as [|x s]; [done|]. cbn [flat_map]. unfold escape_quote.
  destruct (decide (x = dq)) as [->|Hq]; [done|].
  simpl. by rewrite decide_False by congruence.
Qed.

Lemma startswith_cons a p b s :
  Py.startswith (a :: p) (b :: s)
  = if decide (a = b) then Py.startswith p s else false.
Proof. reflexivity. Qed.

(** The first pass of [unescape] undoes the second pass of [escape], on a
    text that has no backslash followed by n. *)
Lemma unescape_newlines s :
  Py.contains [bs; "n"%char] s = false ->
  Py.replace [bs; "n"%char] [nl] (flat_map escape_char s)
  = flat_map escape_quote s.
Proof.
  unfold Py.replace. induction s as [|x s IH]; [done|].
  intros H. cbn [Py.contains] in H.
  apply orb_false_iff in H as [Hhere Hlater].
  specialize (IH Hlater).
  cbn [flat_map]. unfold escape_char at 1, escape_quote at 1.
  destruct (decide (x = dq)) as [->|Hq].
  { simpl. by rewrite IH. }
  destruct (decide (x = nl)) as [->|Hn].
  { simpl. by rewrite IH. }
  cbn [app Py.replace_from].
  assert (E : Py.startswith [bs; "n"%char] (x :: flat_map escape_char s)
              = false).
  { rewrite startswith_cons in *. destruct (decide (bs = x)); [|done].
    by rewrite head_n_escaped. }
  by rewrite E, IH.
Qed.

(** The second pass of [unescape] undoes the first pass of [escape]. *)
Lemma unescape_quotes s :
  Py.replace [bs; dq] [dq] (flat_map escape_quote s) = s.
Proof.
  unfold Py.replace. induction s as [|x s IH]; [done|].
  cbn [flat_map]. unfold escape_quote at 1.
  destruct (decide (x = dq)) as [->|Hq].
  { simpl. by rewrite IH. }
  cbn [app Py.replace_from].
  assert (E : Py.startswith [bs; dq] (x :: flat_map escape_quote s) = false).
  { rewrite startswith_cons. destruct (decide (bs = x)); [|done].
    apply head_quote_escaped. }
  by rewrite E, IH.
Qed.

Lemma unescape_escape s :
  Py.contains [bs; "n"%char] s = false -> unescape (escape s) = s.
Proof.
  intros H. unfold unescape.
  by rewrite escape_chars, (unescape_newlines s H), unescape_quotes.
Qed.

(** The consumer takes the quotes off a quoted payload. *)
Lemma decode_quoted text : decode_payload (quoted text) = unescape text.
Proof.
  unfold decode_payload.
  assert (Hs : Py.startswith [dq] (quoted text) = true) by done.
  assert (He : Py.endswith [dq] (quoted text) = true).
  { unfold Py.endswith, quoted. rewrite app_assoc, rev_app_distr. done. }
  rewrite Hs, He. cbv iota. simpl andb. cbv iota. f_equal.
  unfold Py.slice_1_m1, quoted.
  rewrite app_assoc, length_app. simpl length at 2.
  replace (length ([dq] ++ text) + 1 - 1) with (length ([dq] ++ text)) by lia.
  by rewrite take_app_length.
Qed.

(** X24. A fragment without a backslash followed by n comes back from the
    round trip as it was sent. *)
Lemma roundtrip_without_backslash_n (text : str) :
  Py.contains [bs; "n"%char] text = false -> roundtrip text = Some text.
Proof.
  intros H. unfold roundtrip, text_frame.
  rewrite payload_quoted. simpl. by rewrite decode_quoted, unescape_escape.
Qed.

(** C4, on the code: the fragment [say "hi\n"] followed by a line end has a
    double quote and a newline, and it does not come back: the backslash
    and the n of the fragment are decoded as a newline. *)
Theorem C4_roundtrip_loses_backslash_n :
  dq ∈ Demo.quip /\ nl ∈ Demo.quip
  /\ roundtrip Demo.quip
     = Some (py "say " ++ [dq] ++ py "hi" ++ [nl] ++ [dq; nl])
  /\ roundtrip Demo.quip <> Some Demo.quip.
Proof.
  split; [|split; [|split]].
  - apply list_elem_of_In. vm_compute. tauto.
  - apply list_elem_of_In. vm_compute. tauto.
  - vm_compute. reflexivity.
  - vm_compute. discriminate.
Qed.

(** * Further properties *)

(** ** The conversation store *)

(** X1. [create_chat] stores the new chat under its id, with the title and
    the filter given, without messages or sources, and changes no chat
    stored under another id.  The id is the default of the class, so a
    second [create_chat] replaces the chat the first one stored: the
    storage after both is the storage after the second alone. *)
Theorem create_chat_stores_and_replaces (defaults : ClassDefaults)
    (st : Storage) (title : str) (subreddit_filter : option str) :
  let st' := fst (create_chat defaults st title subreddit_filter) in
  let chat := snd (create_chat defaults st title subreddit_filter) in
  get_chat st' (Chat.id chat) = Some chat
  /\ Chat.title chat = title
  /\ Chat.subreddit_filter chat = subreddit_filter
  /\ Chat.messages chat = [] /\ Chat.sources chat = []
  /\ (forall other, other <> Chat.id chat ->
        get_chat st' other = get_chat st other)
  /\ (forall title0 filter0,
        fst (create_chat defaults
               (fst (create_chat defaults st title0 filter0))
               title subreddit_filter)
        = st').
Proof.
  simpl. unfold get_chat. simpl. split; [apply lookup_insert_eq|].
  repeat split.
  - intros other Hne. by apply lookup_insert_ne.
  - intros title0 filter0. unfold create_chat. simpl.
    by rewrite insert_insert_eq.
Qed.

(** X2. A mutation of one chat ([add_message], [add_sources],
    [update_chat_title], [delete_chat]) leaves every chat stored under
    another id as it was. *)
Theorem mutations_are_local (defaults : ClassDefaults) (st : Storage)
    (chat_id other : str) :
  other <> chat_id ->
  (forall role content,
     get_chat (fst (add_message defaults st chat_id role content)) other
     = get_chat st other)
  /\ (forall sources,
        get_chat (fst (add_sources st chat_id sources)) other
        = get_chat st other)
  /\ (forall title,
        get_chat (fst (update_chat_title st chat_id title)) other
        = get_chat st other)
  /\ get_chat (fst (delete_chat st chat_id)) other = get_chat st other.
Proof.
  intros Hne. repeat split; intros;
    unfold add_message, add_sources, update_chat_title, delete_chat;
    destruct (get_chat st chat_id) eqn:E; simpl; try done; unfold get_chat;
    simpl.
  - by apply lookup_insert_ne.
  - by apply lookup_insert_ne.
  - by apply lookup_insert_ne.
  - by apply lookup_delete_ne.
Qed.

Lemma mutations_are_local_witness :
  get_chat
    (fst (add_message Demo.defaults Demo.st Demo.chat_id (py "user") (py "hi")))
    (py "another-id")
  = get_chat Demo.st (py "another-id").
Proof.
  apply (proj1 (mutations_are_local Demo.defaults Demo.st Demo.chat_id
                  (py "another-id") ltac:(discriminate))).
Defined.

(** X3. [update_chat_title] on a chat that exists changes its title and
    its [updated_at] and nothing else of it; on an id that is not stored it
    answers false and changes nothing. *)
Theorem update_chat_title_spec (st : Storage) (chat_id title : str) :
  match get_chat st chat_id with
  | Some chat =>
      snd (update_chat_title st chat_id title) = true
      /\ exists chat',
           get_chat (fst (update_chat_title st chat_id title)) chat_id
           = Some chat'
           /\ Chat.title chat' = title
           /\ Chat.updated_at chat' = clock st
           /\ Chat.id chat' = Chat.id chat
           /\ Chat.messages chat' = Chat.messages chat
           /\ Chat.sources chat' = Chat.sources chat
           /\ Chat.created_at chat' = Chat.created_at chat
           /\ Chat.subreddit_filter chat' = Chat.subreddit_filter chat
  | None => update_chat_title st chat_id title = (st, false)
  end.
Proof.
  unfold update_chat_title. destruct (get_chat st chat_id) as [chat|]; [|done].
  simpl. split; [done|]. eexists. split; [apply lookup_insert_eq|]. done.
Qed.

(** X4. [delete_chat] answers true exactly when the chat was stored; after
    it the chat is not stored, and a message or sources added to it, or a
    new title, are refused without any change. *)
Theorem delete_chat_removes (defaults : ClassDefaults) (st : Storage)
    (chat_id : str) :
  let st' := fst (delete_chat st chat_id) in
  (snd (delete_chat st chat_id) = true <-> is_Some (get_chat st chat_id))
  /\ get_chat st' chat_id = None
  /\ (forall role content,
        add_message defaults st' chat_id role content = (st', None))
  /\ (forall sources, add_sources st' chat_id sources = (st', false))
  /\ (forall title, update_chat_title st' chat_id title = (st', false))
  /\ delete_chat st' chat_id = (st', false).
Proof.
  intros st'.
  assert (Hgone : get_chat st' chat_id = None).
  { subst st'. unfold delete_chat.
    destruct (get_chat st chat_id) eqn:E; simpl; [|done].
    apply lookup_delete_eq. }
  split; [|split; [exact Hgone|]].
  - unfold delete_chat. destruct (get_chat st chat_id); simpl.
    + split; [by eexists|done].
    + split; [done|]. by intros [? ?].
  - unfold add_message, add_sources, update_chat_title, delete_chat.
    rewrite Hgone. done.
Qed.

(** ** The list of all chats *)

Lemma insert_by_updated_at_perm chat later :
  insert_by_updated_at chat later ≡ₚ chat :: later.
Proof.
  induction later as [|other rest IH]; simpl; [done|].
  destruct (_ <? _); [|done].
  rewrite IH. apply Permutation_swap.
Qed.

Lemma insert_by_updated_at_sorted chat later :
  StronglySorted not_after later ->
  StronglySorted not_after (insert_by_updated_at chat later).
Proof.
  induction 1 as [|other rest Hrest IH Hall]; simpl.
  - by repeat constructor.
  - destruct (Chat.updated_at chat <? Chat.updated_at other) eqn:E.
    + apply Nat.ltb_lt in E. constructor; [exact IH|].
      rewrite insert_by_updated_at_perm. constructor; [|done].
      unfold not_after. lia.
    + apply Nat.ltb_ge in E. constructor; [by constructor|].
      constructor; [exact E|].
      eapply Forall_impl; [exact Hall|]. unfold not_after. intros y Hy. lia.
Qed.

Lemma insert_by_updated_at_stable (t : nat) chat later :
  filter (fun c => (Chat.updated_at c : nat) = t)
         (insert_by_updated_at chat later)
  = filter (fun c => (Chat.updated_at c : nat) = t) (chat :: later).
Proof.
  induction later as [|other rest IH]; simpl; [done|].
  destruct (Chat.updated_at chat <? Chat.updated_at other) eqn:E; [|done].
  apply Nat.ltb_lt in E.
  rewrite (filter_cons _ other), IH, !filter_cons.
  destruct (decide ((Chat.updated_at chat : nat) = t)) as [Hc|Hc];
    destruct (decide ((Chat.updated_at other : nat) = t)) as [Ho|Ho];
    try done.
  unfold datetime in *. lia.
Qed.

(** X5. [sorted(values, key=updated_at, reverse=True)] lists the chats it
    is given, each as often as it is given, from the most recently updated
    to the least, and keeps the order of the chats that have one
    [updated_at].  [get_all_chats] lists exactly the chats stored. *)
Theorem get_all_chats_sorted (values : list Chat.t) (st : Storage) :
  StronglySorted not_after (sorted_by_updated_at values)
  /\ sorted_by_updated_at values ≡ₚ values
  /\ (forall t : nat,
        filter (fun c => (Chat.updated_at c : nat) = t)
               (sorted_by_updated_at values)
        = filter (fun c => (Chat.updated_at c : nat) = t) values)
  /\ StronglySorted not_after (get_all_chats st)
  /\ length (get_all_chats st) = size (chats st)
  /\ (forall chat,
        chat ∈ get_all_chats st
        <-> exists chat_id, get_chat st chat_id = Some chat).
Proof.
  assert (Hsorted : forall l, StronglySorted not_after (sorted_by_updated_at l)).
  { induction l as [|c l IH]; simpl; [constructor|].
    by apply insert_by_updated_at_sorted. }
  assert (Hperm : forall l, sorted_by_updated_at l ≡ₚ l).
  { induction l as [|c l IH]; simpl; [done|].
    by rewrite insert_by_updated_at_perm, IH. }
  split; [apply Hsorted|]. split; [apply Hperm|]. split; [|split; [|split]].
  - intros t. induction values as [|c l IH]; simpl; [done|].
    by rewrite insert_by_updated_at_stable, !filter_cons, IH.
  - apply Hsorted.
  - unfold get_all_chats. rewrite Hperm, length_fmap.
    apply length_map_to_list.
  - intros chat. unfold get_all_chats, get_chat. rewrite Hperm.
    rewrite list_elem_of_fmap. split.
    + intros ([k c] & -> & Hin). exists k. by apply elem_of_map_to_list.
    + intros [k Hk]. exists (k, chat). split; [done|].
      by apply elem_of_map_to_list.
Qed.

(** ** The orchestrator *)

(** X6. The frames a run sends and the calls it makes to the model do not
    depend on the storage or on the chat id, and neither does the way it
    ends; a run for an id that is not stored (a conversation deleted in the
    meantime) leaves the storage as it was. *)
Theorem run_without_conversation (lib : Library) (defaults : ClassDefaults)
    (rag : RAGService) (st : Storage) (chat_id query : str)
    (subreddit_filter : option str) :
  (forall st' chat_id',
     frames (generate_research_stream lib defaults rag st' chat_id' query
               subreddit_filter)
     = frames (generate_research_stream lib defaults rag st chat_id query
                 subreddit_filter)
     /\ calls (generate_research_stream lib defaults rag st' chat_id' query
                 subreddit_filter)
        = calls (generate_research_stream lib defaults rag st chat_id query
                   subreddit_filter)
     /\ error (generate_research_stream lib defaults rag st' chat_id' query
                 subreddit_filter)
        = error (generate_research_stream lib defaults rag st chat_id query
                   subreddit_filter))
  /\ (get_chat st chat_id = None ->
      storage (generate_research_stream lib defaults rag st chat_id query
                 subreddit_filter) = st).
Proof.
  destruct (decide (search_reddit rag query subreddit_filter 10 = []))
    as [E|Hne].
  - unfold generate_research_stream. rewrite E. simpl. split; [done|].
    intros Hnone. by apply add_message_absent.
  - split.
    + intros st' chat_id'.
      rewrite !(run_nonempty lib defaults rag _ _ query subreddit_filter Hne).
      destruct (snd (consume_report _ _ _ _)); [done|].
      by destruct (snd (generate_sentiment_report _ _ _ _ _ _)).
    + intros Hnone.
      rewrite (run_nonempty lib defaults rag st chat_id query subreddit_filter
                 Hne).
      destruct (snd (consume_report _ _ _ _)); [done|].
      destruct (snd (generate_sentiment_report _ _ _ _ _ _)); [done|].
      cbn [storage]. rewrite add_message_absent by done.
      unfold add_sources. by rewrite Hnone.
Qed.

Lemma run_without_conversation_witness :
  storage (generate_research_stream Ref.lib Demo.defaults
             (Demo.rag Demo.hits Demo.good_answer Demo.stream_hi)
             {| chats := ∅; clock := 7 |} Demo.chat_id Demo.query None)
  = {| chats := ∅; clock := 7 |}.
Proof.
  apply (proj2 (run_without_conversation Ref.lib Demo.defaults
                  (Demo.rag Demo.hits Demo.good_answer Demo.stream_hi)
                  {| chats := ∅; clock := 7 |} Demo.chat_id Demo.query None)).
  apply lookup_empty.
Defined.

(** X7. Over a non-empty search the orchestrator sends chunks of the
    report as they are and in their order.  A run that completes sends all
    of them and nothing else.  A run that ends in the handler sends the
    chunks it has forwarded until then, which are the first chunks of the
    report, and then two frames of its own: the error frame, which carries
    "Error: " and the text of the exception, and the terminal frame. *)
Theorem orchestrator_forwards_report (lib : Library)
    (defaults : ClassDefaults) (rag : RAGService) (st : Storage)
    (chat_id query : str) (subreddit_filter : option str) :
  search_reddit rag query subreddit_filter 10 <> [] ->
  let chunks :=
    chunks_of
      (fst (generate_sentiment_report lib defaults rag query
              (search_reddit rag query subreddit_filter 10)
              subreddit_filter)) in
  let run :=
    generate_research_stream lib defaults rag st chat_id query
      subreddit_filter in
  match error run with
  | None => frames run = chunks
  | Some e =>
      exists sent,
        frames run
        = sent ++ [sse (quoted (py "Error: " ++ exception_str lib e)); sse DONE]
        /\ sent `prefix_of` chunks
  end.
Proof.
  intros Hne chunks run.
  destruct (error run) as [e|] eqn:E.
  - apply (run_failed lib defaults rag st chat_id query subreddit_filter e E).
  - apply (run_completed lib defaults rag st chat_id query subreddit_filter
             Hne E).
Qed.

Lemma orchestrator_forwards_report_witness :
  let chunks :=
    chunks_of
      (fst (generate_sentiment_report Ref.lib Demo.defaults
              (Demo.rag Demo.flooded_hits Demo.good_answer Demo.stream_hi)
              Demo.query
              (search_reddit
                 (Demo.rag Demo.flooded_hits Demo.good_answer Demo.stream_hi)
                 Demo.query None 10)
              None)) in
  let run :=
    generate_research_stream Ref.lib Demo.defaults
      (Demo.rag Demo.flooded_hits Demo.good_answer Demo.stream_hi) Demo.st
      Demo.chat_id Demo.query None in
  match error run with
  | None => frames run = chunks
  | Some e =>
      exists sent,
        frames run
        = sent
          ++ [sse (quoted (py "Error: " ++ exception_str Ref.lib e)); sse DONE]
        /\ sent `prefix_of` chunks
  end.
Proof.
  exact (orchestrator_forwards_report Ref.lib Demo.defaults
           (Demo.rag Demo.flooded_hits Demo.good_answer Demo.stream_hi)
           Demo.st Demo.chat_id Demo.query None (flooded_search _ _)).
Defined.

(** The calls of a report: at most one call of the classifier, then at most
    the streaming call. *)
Lemma report_calls_shape lib defaults rag query results filter :
  exists first second,
    calls_of (fst (generate_sentiment_report lib defaults rag query results
                     filter))
    = first ++ second
    /\ (first = [] \/ exists prompt, first = [CallGenerate prompt])
    /\ (second = [] \/ exists prompt, second = [CallStream prompt])
    /\ (gemini_model rag = None -> first = [] /\ second = []).
Proof.
  destruct (count_fault (take 8 results)) as [e|] eqn:Hfault.
  { rewrite report_events, Hfault. exists [], [].
    split; [done|]. split; [by left|]. split; [by left|done]. }
  rewrite (report_calls lib defaults rag query results filter Hfault).
  eexists _, _. split; [reflexivity|]. split; [|split].
  - destruct (analyze_sentiment_calls lib rag
                (map get_content (take 5 results))) as [->| ->];
      [by left|right; by eexists].
  - destruct (gemini_model rag); [right; by eexists|by left].
  - intros E. rewrite E. split; [|done].
    unfold analyze_sentiment. by rewrite E.
Qed.

(** X8. A run calls the model at most twice: at most once for the verdict
    and then at most once for the report, in that order.  It makes no call
    when the search finds nothing or when the model is unconfigured. *)
Theorem run_calls_model_at_most_twice (lib : Library)
    (defaults : ClassDefaults) (rag : RAGService) (st : Storage)
    (chat_id query : str) (subreddit_filter : option str) :
  let made :=
    calls (generate_research_stream lib defaults rag st chat_id query
             subreddit_filter) in
  (exists first second,
     made = first ++ second
     /\ (first = [] \/ exists prompt, first = [CallGenerate prompt])
     /\ (second = [] \/ exists prompt, second = [CallStream prompt]))
  /\ (search_reddit rag query subreddit_filter 10 = [] -> made = [])
  /\ (gemini_model rag = None -> made = []).
Proof.
  intros made. subst made.
  destruct (decide (search_reddit rag query subreddit_filter 10 = []))
    as [E|Hne].
  { unfold generate_research_stream. rewrite E. simpl.
    split; [|done]. exists [], []. split; [done|]. by split; left. }
  destruct (run_calls_prefix lib defaults rag st chat_id query
              subreddit_filter Hne) as [k Hk].
  destruct (report_calls_shape lib defaults rag query
              (search_reddit rag query subreddit_filter 10) subreddit_filter)
    as (first & second & Hcalls & Hfirst & Hsecond & Hnone).
  rewrite Hcalls in Hk.
  set (made := calls _) in *.
  split; [|split; [done|]].
  - destruct Hfirst as [->|[p ->]], Hsecond as [->|[q ->]];
      destruct made as [|c1 [|c2 [|c3 made]]]; try discriminate Hk;
      simplify_eq/=.
    + exists [], []. split; [done|]. by split; left.
    + exists [], []. split; [done|]. by split; left.
    + exists [], [CallStream q]. split; [done|].
      split; [by left|right; by eexists].
    + exists [], []. split; [done|]. by split; left.
    + exists [CallGenerate p], []. split; [done|].
      split; [right; by eexists|by left].
    + exists [], []. split; [done|]. by split; left.
    + exists [CallGenerate p], []. split; [done|].
      split; [right; by eexists|by left].
    + exists [CallGenerate p], [CallStream q]. split; [done|].
      split; right; by eexists.
  - intros E. destruct (Hnone E) as [-> ->].
    by destruct made.
Qed.

(** ** The helpers of [rag_service.py] *)

Lemma until_slash_no_slash s : slash ∉ until_slash s.
Proof.
  induction s as [|c s IH]; simpl; [apply not_elem_of_nil|].
  destruct (decide (c = slash)); [apply not_elem_of_nil|].
  apply not_elem_of_cons. by split; [congruence|].
Qed.

Lemma until_slash_app name rest :
  slash ∉ name -> rest = [] \/ (exists rest', rest = slash :: rest') ->
  until_slash (name ++ rest) = name.
Proof.
  intros Hname Hrest. induction name as [|c name IH]; simpl.
  - destruct Hrest as [->|[rest' ->]]; [done|]. reflexivity.
  - apply not_elem_of_cons in Hname as [Hc Hname].
    rewrite decide_False by done. by rewrite IH.
Qed.

Lemma search_subreddit_some url name :
  search_subreddit url = Some name -> name <> [] /\ (slash ∉ name).
Proof.
  induction url as [|c url IH]; [done|]. cbn [search_subreddit].
  destruct (Py.startswith (py "reddit.com/r/") (c :: url)); [|exact IH].
  destruct (until_slash (drop 13 (c :: url))) as [|a found] eqn:E; [exact IH|].
  intros [= <-]. split; [done|]. rewrite <- E. apply until_slash_no_slash.
Qed.

Lemma search_subreddit_none url :
  Py.contains (py "reddit.com/r/") url = false -> search_subreddit url = None.
Proof.
  induction url as [|c url IH]; [done|].
  intros H. cbn [Py.contains] in H. apply orb_false_iff in H as [H1 H2].
  cbn [search_subreddit]. rewrite H1. by apply IH.
Qed.

Lemma startswith_app p s : Py.startswith p (p ++ s) = true.
Proof.
  induction p as [|c p IH]; [done|].
  simpl. by rewrite decide_True.
Qed.

Lemma extract_subreddit_shape url :
  extract_subreddit_from_url url <> []
  /\ (slash ∉ extract_subreddit_from_url url).
Proof.
  unfold extract_subreddit_from_url.
  destruct (search_subreddit url) as [name|] eqn:E.
  - by destruct (search_subreddit_some url name E).
  - split; [done|].
    intros H. apply list_elem_of_In in H. vm_compute in H.
    repeat (destruct H as [H|H]; [discriminate H|]). exact H.
Qed.

(** X9. The community tag read from a url is never empty and has no
    slash; it is "unknown" when the url does not contain
    "reddit.com/r/". *)
Theorem extract_subreddit_tag (url : str) :
  extract_subreddit_from_url url <> []
  /\ (slash ∉ extract_subreddit_from_url url)
  /\ (Py.contains (py "reddit.com/r/") url = false ->
      extract_subreddit_from_url url = py "unknown").
Proof.
  destruct (extract_subreddit_shape url) as [Hne Hslash].
  split; [exact Hne|]. split; [exact Hslash|].
  intros H. unfold extract_subreddit_from_url.
  by rewrite (search_subreddit_none url H).
Qed.

Lemma extract_subreddit_tag_witness :
  extract_subreddit_from_url (py "https://example.com/r/apple") = py "unknown".
Proof.
  apply (proj2 (proj2 (extract_subreddit_tag
                         (py "https://example.com/r/apple")))).
  vm_compute. reflexivity.
Defined.

(** X10. From a url made of a prefix without the letter r, then
    "reddit.com/r/", then a name without a slash, then nothing or a slash
    and anything, the community tag read is that name. *)
Theorem extract_subreddit_of_thread_url (prefix name rest : str) :
  "r"%char ∉ prefix ->
  name <> [] -> slash ∉ name ->
  rest = [] \/ (exists rest', rest = slash :: rest') ->
  extract_subreddit_from_url (prefix ++ py "reddit.com/r/" ++ name ++ rest)
  = name.
Proof.
  intros Hprefix Hne Hname Hrest. unfold extract_subreddit_from_url.
  assert (E : search_subreddit (prefix ++ py "reddit.com/r/" ++ name ++ rest)
              = Some name); [|by rewrite E].
  induction prefix as [|c prefix IH].
  - change ([] ++ py "reddit.com/r/" ++ name ++ rest)
      with ("r"%char :: (py "eddit.com/r/" ++ name ++ rest)).
    cbn [search_subreddit].
    change ("r"%char :: (py "eddit.com/r/" ++ name ++ rest))
      with (py "reddit.com/r/" ++ name ++ rest).
    rewrite startswith_app.
    change (drop 13 (py "reddit.com/r/" ++ name ++ rest)) with (name ++ rest).
    rewrite (until_slash_app name rest Hname Hrest).
    by destruct name.
  - apply not_elem_of_cons in Hprefix as [Hc Hprefix].
    change ((c :: prefix) ++ py "reddit.com/r/" ++ name ++ rest)
      with (c :: (prefix ++ py "reddit.com/r/" ++ name ++ rest)).
    cbn [search_subreddit].
    assert (Hno : Py.startswith (py "reddit.com/r/")
                    (c :: (prefix ++ py "reddit.com/r/" ++ name ++ rest))
                  = false).
    { change (py "reddit.com/r/") with ("r"%char :: py "eddit.com/r/").
      rewrite startswith_cons. by rewrite decide_False by congruence. }
    rewrite Hno. by apply IH.
Qed.

Lemma extract_subreddit_of_thread_url_witness :
  extract_subreddit_from_url
    (py "https://www." ++ py "reddit.com/r/" ++ py "apple"
     ++ py "/comments/1abc/")
  = py "apple".
Proof.
  apply (extract_subreddit_of_thread_url (py "https://www.") (py "apple")
           (py "/comments/1abc/")).
  - intros H. apply list_elem_of_In in H. vm_compute in H.
    repeat (destruct H as [H|H]; [discriminate H|]). exact H.
  - discriminate.
  - intros H. apply list_elem_of_In in H. vm_compute in H.
    repeat (destruct H as [H|H]; [discriminate H|]). exact H.
  - right. by eexists.
Defined.

Lemma lower_char_idem c : Py.lower_char (Py.lower_char c) = Py.lower_char c.
Proof. by destruct c as [[] [] [] [] [] [] [] []]. Qed.

Lemma lower_char_isdigit c : Py.isdigit (Py.lower_char c) = Py.isdigit c.
Proof. by destruct c as [[] [] [] [] [] [] [] []]. Qed.

Lemma lower_char_isspace c : Py.isspace (Py.lower_char c) = Py.isspace c.
Proof. by destruct c as [[] [] [] [] [] [] [] []]. Qed.

Lemma lower_digit c : Py.isdigit c = true -> Py.lower_char c = c.
Proof. by destruct c as [[] [] [] [] [] [] [] []]. Qed.

Lemma lower_idem s : Py.lower (Py.lower s) = Py.lower s.
Proof.
  unfold Py.lower. rewrite map_map. apply map_ext. apply lower_char_idem.
Qed.

Lemma decimal_value_from_nonneg digits : forall acc,
  (0 <= acc)%Z ->
  (0 <= fold_left
          (fun acc c => (acc * 10 + Z.of_nat (nat_of_ascii c - 48))%Z)
          digits acc)%Z.
Proof.
  induction digits as [|c digits IH]; intros acc Hacc; simpl; [done|].
  apply IH. lia.
Qed.

Lemma search_upvotes_no_digit s :
  Forall (fun c => Py.isdigit c = false) s -> search_upvotes s = None.
Proof.
  induction 1 as [|c s Hc _ IH]; [done|].
  cbn [search_upvotes]. unfold match_upvotes_here.
  cbn [leading_digits]. by rewrite Hc.
Qed.

Lemma extract_upvotes_nonneg content n :
  extract_upvotes_from_content content = Returns n -> (0 <= n)%Z.
Proof.
  unfold extract_upvotes_from_content, int_of_digits.
  destruct (search_upvotes _) as [digits|]; [|by intros [= <-]].
  destruct (_ <? _); [done|]. intros [= <-].
  by apply decimal_value_from_nonneg.
Qed.

(** X11. The upvote count read from a content is never negative; it is 0
    when the content has no digit; the reading ignores the case of the
    letters; and the only exception it raises is that of a count of more
    than 4300 digits. *)
Theorem extract_upvotes_count (content : str) :
  (forall n, extract_upvotes_from_content content = Returns n -> (0 <= n)%Z)
  /\ (Forall (fun c => Py.isdigit c = false) content ->
      extract_upvotes_from_content content = Returns 0%Z)
  /\ extract_upvotes_from_content (Py.lower content)
     = extract_upvotes_from_content content
  /\ (forall e,
        extract_upvotes_from_content content = Raises e ->
        exists digits, e = IntTooLong digits /\ 4300 < digits).
Proof.
  split; [apply extract_upvotes_nonneg|].
  unfold extract_upvotes_from_content. split; [|split].
  - intros H. rewrite search_upvotes_no_digit; [done|].
    unfold Py.lower. apply Forall_fmap.
    eapply Forall_impl; [exact H|]. intros c Hc. simpl.
    by rewrite lower_char_isdigit.
  - by rewrite lower_idem.
  - intros e. unfold int_of_digits.
    destruct (search_upvotes _) as [digits|]; [|done].
    destruct (int_max_str_digits <? length digits) eqn:E; [|done].
    intros [= <-]. exists (length digits). split; [done|].
    by apply Nat.ltb_lt in E.
Qed.

Lemma extract_upvotes_count_witness :
  extract_upvotes_from_content (py "No numbers here, just karma")
  = Returns 0%Z.
Proof.
  apply (proj1 (proj2 (extract_upvotes_count
                         (py "No numbers here, just karma")))).
  by repeat constructor.
Defined.

Lemma digits_of_uint d :
  Forall (fun c => Py.isdigit c = true) (py (NilEmpty.string_of_uint d)).
Proof. induction d; simpl; by constructor. Qed.

Lemma int_of_uint d : forall acc,
  fold_left (fun acc c => (acc * 10 + Z.of_nat (nat_of_ascii c - 48))%Z)
            (py (NilEmpty.string_of_uint d)) (Z.of_nat acc)
  = Z.of_nat (Nat.of_uint_acc d acc).
Proof.
  induction d; intros acc; cbn [NilEmpty.string_of_uint py
    list_ascii_of_string fold_left Nat.of_uint_acc]; [done|..];
    rewrite <- IHd, Nat.tail_mul_spec; f_equal;
    change (nat_of_ascii _ - 48) with 0 || change (nat_of_ascii _ - 48) with 1
    || change (nat_of_ascii _ - 48) with 2 || change (nat_of_ascii _ - 48) with 3
    || change (nat_of_ascii _ - 48) with 4 || change (nat_of_ascii _ - 48) with 5
    || change (nat_of_ascii _ - 48) with 6 || change (nat_of_ascii _ - 48) with 7
    || change (nat_of_ascii _ - 48) with 8 || change (nat_of_ascii _ - 48) with 9;
    lia.
Qed.

(** The decimal writing of a number writes that number. *)
Lemma decimal_of_nat n : decimal_value (Py.of_nat n) = Z.of_nat n.
Proof.
  unfold decimal_value, Py.of_nat.
  change 0%Z with (Z.of_nat 0). rewrite (int_of_uint (Nat.to_uint n) 0).
  fold (Nat.of_uint (Nat.to_uint n)). by rewrite DecimalNat.Unsigned.of_to.
Qed.

Lemma of_nat_nonempty n : Py.of_nat n <> [].
Proof.
  intros E. pose proof (decimal_of_nat n) as H. rewrite E in H.
  unfold decimal_value in H. simpl in H.
  destruct n; [vm_compute in E; discriminate E|lia].
Qed.

Lemma leading_digits_app digits rest :
  Forall (fun c => Py.isdigit c = true) digits ->
  leading_digits rest = [] ->
  leading_digits (digits ++ rest) = digits.
Proof.
  intros H Hrest. induction H as [|c digits Hc _ IH]; simpl; [done|].
  by rewrite Hc, IH.
Qed.

Lemma lower_app a b : Py.lower (a ++ b) = Py.lower a ++ Py.lower b.
Proof. apply map_app. Qed.

Lemma lower_digits digits :
  Forall (fun c => Py.isdigit c = true) digits -> Py.lower digits = digits.
Proof.
  induction 1 as [|c digits Hc _ IH]; [done|].
  unfold Py.lower in *. simpl. by rewrite IH, lower_digit.
Qed.

Lemma search_upvotes_skip before rest :
  Forall (fun c => Py.isdigit c = false) before ->
  search_upvotes (before ++ rest) = search_upvotes rest.
Proof.
  induction 1 as [|c before Hc _ IH]; [done|].
  change ((c :: before) ++ rest) with (c :: (before ++ rest)).
  cbn [search_upvotes]. unfold match_upvotes_here at 1.
  cbn [leading_digits]. by rewrite Hc.
Qed.

(** X12. A count written in digits, then white space or nothing, then
    "upvote", "karma" or "point", after a text without digits, is read
    back as the number the digits write, whatever follows, as long as it
    has at most 4300 digits; a count of more digits makes the reading raise
    the [ValueError] of [int()].  The digits that write a number in decimal
    are read back as that number. *)
Theorem extract_upvotes_reads_count (before digits blanks word after : str) :
  Forall (fun c => Py.isdigit c = false) before ->
  digits <> [] ->
  Forall (fun c => Py.isdigit c = true) digits ->
  blank blanks ->
  word ∈ [py "upvote"; py "karma"; py "point"] ->
  extract_upvotes_from_content (before ++ digits ++ blanks ++ word ++ after)
  = (if 4300 <? length digits
     then Raises (IntTooLong (length digits))
     else Returns (decimal_value digits))
  /\ forall n, digits = Py.of_nat n -> decimal_value digits = Z.of_nat n.
Proof.
  intros Hbefore Hne Hdigits Hblanks Hword.
  split; [|intros n ->; apply decimal_of_nat].
  unfold extract_upvotes_from_content.
  rewrite !lower_app, (lower_digits _ Hdigits).
  rewrite search_upvotes_skip.
  2:{ unfold Py.lower. apply Forall_fmap.
      eapply Forall_impl; [exact Hbefore|]. intros c Hc. simpl.
      by rewrite lower_char_isdigit. }
  assert (Hb : blank (Py.lower blanks)).
  { unfold Py.lower. apply Forall_fmap.
    eapply Forall_impl; [exact Hblanks|]. intros c Hc. simpl.
    by rewrite lower_char_isspace. }
  set (tail := Py.lower after).
  assert (Hw : Py.lower word = word).
  { repeat (apply elem_of_cons in Hword as [->|Hword]; [done|]).
    by apply elem_of_nil in Hword. }
  rewrite Hw.
  assert (Hhead : leading_digits (Py.lower blanks ++ word ++ tail) = []).
  { destruct Hb as [|c bl Hc _]; simpl.
    - repeat (apply elem_of_cons in Hword as [->|Hword]; [done|]).
      by apply elem_of_nil in Hword.
    - destruct c as [[] [] [] [] [] [] [] []]; done. }
  assert (Hmatch : match_upvotes_here
                     (digits ++ Py.lower blanks ++ word ++ tail)
                   = Some digits).
  { unfold match_upvotes_here.
    rewrite (leading_digits_app _ _ Hdigits Hhead).
    rewrite drop_app_length, (lstrip_blank_app _ _ Hb).
    assert (Hstrip : Py.lstrip (word ++ tail) = word ++ tail).
    { repeat (apply elem_of_cons in Hword as [->|Hword]; [done|]).
      by apply elem_of_nil in Hword. }
    rewrite Hstrip.
    assert (Hstart : Py.startswith (py "upvote") (word ++ tail)
                     || Py.startswith (py "karma") (word ++ tail)
                     || Py.startswith (py "point") (word ++ tail) = true).
    { repeat (apply elem_of_cons in Hword as [->|Hword];
              [by rewrite startswith_app, ?orb_true_r|]).
      by apply elem_of_nil in Hword. }
    rewrite Hstart. by destruct digits. }
  assert (Hsearch : search_upvotes
                      (digits ++ Py.lower blanks ++ word ++ tail)
                    = Some digits).
  { destruct (digits ++ Py.lower blanks ++ word ++ tail) as [|c s] eqn:E.
    - by destruct digits.
    - cbn [search_upvotes]. by rewrite Hmatch. }
  rewrite Hsearch. reflexivity.
Qed.

Lemma long_count_digits :
  Forall (fun c => Py.isdigit c = true) Demo.long_count.
Proof.
  unfold Demo.long_count. apply Forall_forall.
  intros c Hc. by apply elem_of_replicate in Hc as [-> _].
Qed.

Lemma extract_upvotes_reads_count_witness :
  extract_upvotes_from_content
    (py "Got " ++ Py.of_nat 1204 ++ py " " ++ py "upvote" ++ py "s overnight")
  = Returns (Z.of_nat 1204)
  /\ extract_upvotes_from_content
       (py "This got " ++ Demo.long_count ++ py " " ++ py "point" ++ py "s")
     = Raises (IntTooLong 4301).
Proof.
  split.
  - destruct (extract_upvotes_reads_count (py "Got ") (Py.of_nat 1204)
                (py " ") (py "upvote") (py "s overnight")) as [H Hn].
    + by repeat constructor.
    + discriminate.
    + by repeat constructor.
    + by repeat constructor.
    + apply elem_of_cons. by left.
    + rewrite H. rewrite (Hn 1204 eq_refl). reflexivity.
  - destruct (extract_upvotes_reads_count (py "This got ") Demo.long_count
                (py " ") (py "point") (py "s")) as [H _].
    + by repeat constructor.
    + discriminate.
    + apply long_count_digits.
    + by repeat constructor.
    + apply elem_of_cons. right. apply elem_of_cons. right.
      apply elem_of_cons. by left.
    + rewrite H. vm_compute. reflexivity.
Defined.

(** ** The sentiment classifier *)

(** X13. The prompt of the classifier carries the first 2000 characters of
    the combined text and no more: it is the prompt of that prefix, and it
    has at most 2412 characters.  The classifier makes at most one call,
    with such a prompt. *)
Theorem sentiment_prompt_is_bounded (lib : Library) (rag : RAGService)
    (texts : list str) (text : str) :
  sentiment_prompt (take 2000 text) = sentiment_prompt text
  /\ length (sentiment_prompt text) = 412 + (length text `min` 2000)
  /\ length (snd (analyze_sentiment lib rag texts)) <= 1
  /\ (forall prompt,
        CallGenerate prompt ∈ snd (analyze_sentiment lib rag texts) ->
        length prompt <= 2412).
Proof.
  assert (Hlen : forall t,
            length (sentiment_prompt t) = 412 + (length t `min` 2000)).
  { intros t. unfold sentiment_prompt.
    repeat (rewrite length_app || rewrite length_take).
    unfold quoted. repeat rewrite length_app.
    change (length [nl]) with 1. change (length [dq]) with 1.
    repeat match goal with
           | |- context [length (py ?s)] =>
               let n := eval vm_compute in (length (py s)) in
               change (length (py s)) with n
           end.
    lia. }
  split; [|split; [apply Hlen|split]].
  - unfold sentiment_prompt. by rewrite take_take.
  - unfold analyze_sentiment. destruct (gemini_model rag); [|simpl; lia].
    destruct (negb _); simpl; lia.
  - intros prompt. unfold analyze_sentiment.
    destruct (gemini_model rag); [|by intros ?%elem_of_nil].
    destruct (negb _); [by intros ?%elem_of_nil|]. cbn [snd].
    intros [= ->]%list_elem_of_singleton. rewrite Hlen. lia.
Qed.

Lemma split_on_from_nonempty sep s : forall skip cur,
  Py.split_on_from sep skip cur s <> [].
Proof.
  induction s as [|c s IH]; intros skip cur; [done|].
  cbn [Py.split_on_from]. destruct skip; [|apply IH].
  destruct (Py.startswith sep (c :: s)); [done|apply IH].
Qed.

(** When the separator occurs, [split] returns two pieces at least: the
    index 1 of lines 164 and 166 is in range. *)
Lemma split_on_two sep s :
  sep <> [] -> Py.contains sep s = true ->
  forall cur, exists a b l, Py.split_on_from sep 0 cur s = a :: b :: l.
Proof.
  intros Hsep. induction s as [|c s IH]; intros H cur.
  - destruct sep; done.
  - cbn [Py.contains] in H. cbn [Py.split_on_from].
    destruct (Py.startswith sep (c :: s)).
    + pose proof (split_on_from_nonempty sep s (length sep - 1) []) as Hne.
      destruct (Py.split_on_from sep (length sep - 1) [] s) as [|b l];
        [done|]. by eexists _, _, _.
    + simpl in H. by apply IH.
Qed.

Lemma startswith_prefix p q s :
  Py.startswith (p ++ q) s = true -> Py.startswith p s = true.
Proof.
  revert s. induction p as [|a p IH]; intros s; [done|].
  destruct s as [|b s]; [done|]. simpl.
  destruct (decide (a = b)); [apply IH|done].
Qed.

Lemma contains_prefix p q s :
  Py.contains (p ++ q) s = true -> Py.contains p s = true.
Proof.
  induction s as [|c s IH]; cbn [Py.contains].
  - rewrite !orb_false_r. apply startswith_prefix.
  - intros [H|H]%orb_true_iff; apply orb_true_iff.
    + left. by eapply startswith_prefix.
    + right. by apply IH.
Qed.

(** A piece without the first character of the separator is passed as it
    is, up to the separator that follows it. *)
Lemma split_on_from_piece c sep piece : forall cur rest,
  c ∉ piece ->
  Py.split_on_from (c :: sep) 0 cur (piece ++ (c :: sep) ++ rest)
  = (rev cur ++ piece) :: Py.split_on_from (c :: sep) (length sep) []
                            (sep ++ rest).
Proof.
  induction piece as [|x piece IH]; intros cur rest Hc.
  - change ([] ++ (c :: sep) ++ rest) with (c :: (sep ++ rest)).
    cbn [Py.split_on_from].
    change (c :: (sep ++ rest)) with ((c :: sep) ++ rest).
    rewrite startswith_app, app_nil_r. simpl length.
    by replace (S (length sep) - 1) with (length sep) by lia.
  - apply not_elem_of_cons in Hc as [Hx Hc].
    change ((x :: piece) ++ (c :: sep) ++ rest)
      with (x :: (piece ++ (c :: sep) ++ rest)).
    cbn [Py.split_on_from]. rewrite startswith_cons.
    rewrite decide_False by done. rewrite IH by done.
    simpl. by rewrite <- app_assoc.
Qed.

Lemma split_on_from_skip sep passed : forall cur rest,
  Py.split_on_from sep (length passed) cur (passed ++ rest)
  = Py.split_on_from sep 0 cur rest.
Proof.
  induction passed as [|x passed IH]; intros cur rest; [done|].
  simpl. apply IH.
Qed.

Lemma split_on_from_last c sep piece : forall cur,
  c ∉ piece ->
  Py.split_on_from (c :: sep) 0 cur piece = [rev cur ++ piece].
Proof.
  induction piece as [|x piece IH]; intros cur Hc.
  - simpl. by rewrite app_nil_r.
  - apply not_elem_of_cons in Hc as [Hx Hc].
    cbn [Py.split_on_from]. rewrite startswith_cons.
    rewrite decide_False by done. rewrite IH by done.
    simpl. by rewrite <- app_assoc.
Qed.

Lemma contains_without c sep s : c ∉ s -> Py.contains (c :: sep) s = false.
Proof.
  induction s as [|x s IH]; intros Hc; [done|].
  apply not_elem_of_cons in Hc as [Hx Hc].
  cbn [Py.contains]. rewrite startswith_cons.
  rewrite decide_False by done. by apply IH.
Qed.

Lemma split_on_from_absent sep s : forall cur,
  Py.contains sep s = false -> Py.split_on_from sep 0 cur s = [rev cur ++ s].
Proof.
  induction s as [|x s IH]; intros cur H.
  - simpl. by rewrite app_nil_r.
  - cbn [Py.contains] in H. apply orb_false_iff in H as [H1 H2].
    cbn [Py.split_on_from]. rewrite H1, IH by done.
    simpl. by rewrite <- app_assoc.
Qed.

Lemma contains_app_without c sep piece s :
  c ∉ piece ->
  Py.contains (c :: sep) (piece ++ s) = Py.contains (c :: sep) s.
Proof.
  induction piece as [|x piece IH]; intros Hc; [done|].
  apply not_elem_of_cons in Hc as [Hx Hc].
  change ((x :: piece) ++ s) with (x :: (piece ++ s)).
  cbn [Py.contains]. rewrite startswith_cons.
  rewrite decide_False by done. by apply IH.
Qed.

Lemma startswith_split p s :
  Py.startswith p s = true -> exists rest, s = p ++ rest.
Proof.
  revert s. induction p as [|a p IH]; intros s H; [by exists s|].
  destruct s as [|b s]; [done|]. simpl in H.
  destruct (decide (a = b)) as [->|]; [|done].
  destruct (IH s H) as [rest ->]. by exists rest.
Qed.

(** The first piece of what follows the opening fence, cut at the closing
    fence, is the body of the block. *)
Lemma fenced_body body after :
  backtick ∉ body -> backtick ∉ after ->
  exists piece l,
    Py.split_on_from (py "```json") 0 [] (body ++ py "```" ++ after)
    = piece :: l
    /\ exists l', Py.split_on_from (py "```") 0 [] piece = body :: l'.
Proof.
  intros Hy Ha.
  destruct (Py.startswith (py "json") after) eqn:Hj.
  - destruct (startswith_split _ _ Hj) as [after' ->].
    exists body, (Py.split_on_from (py "```json") 6 [] (py "``json" ++ after')).
    split.
    + change (body ++ py "```" ++ py "json" ++ after')
        with (body ++ (backtick :: py "``json") ++ after').
      by rewrite (split_on_from_piece backtick (py "``json") body [] _ Hy).
    + exists []. by apply (split_on_from_last backtick (py "``")).
  - exists (body ++ py "```" ++ after), []. split.
    + apply (split_on_from_absent (py "```json")).
      rewrite (contains_app_without backtick (py "``json") body _ Hy).
      pose proof (contains_without backtick (py "``json") after Ha) as Hno.
      cbn [app py list_ascii_of_string Py.contains].
      assert (Hhead : forall p, Py.startswith (backtick :: p) after = false).
      { intros p. destruct after as [|x after]; [done|].
        apply not_elem_of_cons in Ha as [Hx _].
        rewrite startswith_cons. by rewrite decide_False by done. }
      fold backtick.
      change [backtick; backtick; backtick; "j"%char; "s"%char; "o"%char;
              "n"%char] with (backtick :: py "``json").
      rewrite Hno. rewrite !orb_false_r.
      change (py "``json") with (backtick :: backtick :: py "json").
      repeat (rewrite startswith_cons; rewrite decide_True by done).
      by rewrite Hj, !Hhead.
    + eexists.
      change (body ++ py "```" ++ after)
        with (body ++ (backtick :: py "``") ++ after).
      by rewrite (split_on_from_piece backtick (py "``") body [] _ Hy).
Qed.

(** X14. Taking the fence off a response never fails.  A response without
    three backticks in a row is left as it is, and of a response that
    holds one block fenced with [```json] and [```], with no other
    backtick, the trimmed content of the block is kept. *)
Theorem unfence_spec (response_text : str) :
  (exists text, unfence response_text = Some text)
  /\ (Py.contains (py "```") response_text = false ->
      unfence response_text = Some response_text)
  /\ (forall before body after,
        backtick ∉ before -> backtick ∉ body -> backtick ∉ after ->
        response_text = before ++ py "```json" ++ body ++ py "```" ++ after ->
        unfence response_text = Some (Py.strip body)).
Proof.
  split; [|split].
  - unfold unfence, Py.split_on.
    destruct (Py.contains (py "```json") response_text) eqn:E1.
    { destruct (split_on_two (py "```json") response_text
                  ltac:(discriminate) E1 []) as (a & b & l & ->).
      pose proof (split_on_from_nonempty (py "```") b 0 []) as Hne.
      destruct (Py.split_on_from (py "```") 0 [] b); [done|by eexists]. }
    destruct (Py.contains (py "```") response_text) eqn:E2; [|by eexists].
    destruct (split_on_two (py "```") response_text
                ltac:(discriminate) E2 []) as (a & b & l & ->).
    pose proof (split_on_from_nonempty (py "```") b 0 []) as Hne.
    destruct (Py.split_on_from (py "```") 0 [] b); [done|by eexists].
  - intros H. unfold unfence. rewrite H.
    destruct (Py.contains (py "```json") response_text) eqn:E; [|done].
    apply (contains_prefix (py "```") (py "json")) in E. congruence.
  - intros before body after Hb Hy Ha ->. unfold unfence.
    assert (E : Py.contains (py "```json")
                  (before ++ py "```json" ++ body ++ py "```" ++ after)
                = true).
    { rewrite (contains_app_without backtick (py "``json") before _ Hb).
      cbn [app py list_ascii_of_string Py.contains].
      apply orb_true_iff. left.
      apply (startswith_app (py "```json")). }
    rewrite E. unfold Py.split_on.
    change (py "```json") with (backtick :: py "``json") at 1 2.
    rewrite (split_on_from_piece backtick (py "``json") before [] _ Hb).
    rewrite (split_on_from_skip (backtick :: py "``json") (py "``json")).
    change (backtick :: py "``json") with (py "```json").
    destruct (fenced_body body after Hy Ha) as (piece & l & -> & l' & ->).
    reflexivity.
Qed.

Lemma unfence_spec_witness :
  unfence (py "```json" ++ py "{}" ++ py "```" ++ [nl])
  = Some (Py.strip (py "{}")).
Proof.
  apply (proj2 (proj2 (unfence_spec
           (py "```json" ++ py "{}" ++ py "```" ++ [nl]))) [] (py "{}") [nl]).
  - apply not_elem_of_nil.
  - intros H. apply list_elem_of_In in H. vm_compute in H.
    repeat (destruct H as [H|H]; [discriminate H|]). exact H.
  - intros H. apply list_elem_of_In in H. vm_compute in H.
    repeat (destruct H as [H|H]; [discriminate H|]). exact H.
  - reflexivity.
Defined.

(** X15. When the response of the model is a JSON object that has none of
    the keys [score], [label] and [confidence], the verdict is made of the
    defaults of lines 170-172: score 50, "Neutral" and confidence 0.5,
    for a library whose validation accepts them as they are. *)
Theorem classifier_defaults_for_missing_keys (lib : Library)
    (rag : RAGService) (texts : list str) (text u : str)
    (d : list (str * json)) :
  model_answers rag texts text ->
  unfence (Py.strip text) = Some u ->
  json_loads lib u = Loaded (JObj d) ->
  dict_has (py "score") d = false ->
  dict_has (py "label") d = false ->
  dict_has (py "confidence") d = false ->
  validate_float lib (JNum 50) = Some 50%Q ->
  validate_str lib (JStr (py "Neutral")) = Some (py "Neutral") ->
  validate_float lib (JNum (1 # 2)) = Some (1 # 2) ->
  fst (analyze_sentiment lib rag texts) = neutral (1 # 2).
Proof.
  intros (model & Hmodel & Hs & Hcall) Hu Hj H1 H2 H3 Hv1 Hv2 Hv3.
  assert (Hget : forall k dflt, dict_has k d = false -> dict_get k dflt d = dflt).
  { intros k dflt H. unfold dict_has, dict_get in *.
    apply bool_decide_eq_false in H.
    destruct (dict_find k d); [|done]. destruct H. by eexists. }
  unfold analyze_sentiment. rewrite Hmodel.
  destruct (Py.strip (combined_text texts)) eqn:E; [done|].
  cbn [Py.truthy negb]. rewrite Hcall. cbn [fst].
  unfold parse_sentiment. rewrite Hu, Hj.
  rewrite !Hget by done. unfold SentimentAnalysis_new.
  by rewrite Hv1, Hv2, Hv3.
Qed.

Lemma classifier_defaults_for_missing_keys_witness :
  fst (analyze_sentiment Ref.lib
         (Demo.rag Demo.hits (GenerateText (py "{}")) Demo.stream_hi)
         Demo.texts)
  = neutral (1 # 2).
Proof.
  apply (classifier_defaults_for_missing_keys Ref.lib
           (Demo.rag Demo.hits (GenerateText (py "{}")) Demo.stream_hi)
           Demo.texts (py "{}") (py "{}") []).
  - apply demo_answers.
  - vm_compute. reflexivity.
  - vm_compute. reflexivity.
  - reflexivity.
  - reflexivity.
  - reflexivity.
  - reflexivity.
  - reflexivity.
  - reflexivity.
Defined.

(** ** From the model's stream to the persisted message *)

Section StreamFacts.
Context (lib : Library).

Lemma fragments_app a b :
  fragments lib (a ++ b) = fragments lib a ++ fragments lib b.
Proof.
  induction a as [|x a IH]; [done|].
  change ((x :: a) ++ b) with (x :: (a ++ b)).
  by rewrite (fragments_cons lib x (a ++ b)), (fragments_cons lib x a), IH,
    app_assoc.
Qed.

Lemma fragments_verdict chunk :
  kind lib chunk = Verdict -> fragments lib [chunk] = [].
Proof.
  intros H. unfold fragments. cbn [omap list_omap]. by rewrite H.
Qed.

Lemma fragments_done : fragments lib [sse DONE] = [].
Proof. reflexivity. Qed.

Lemma fragments_quoted texts :
  quoted_is_text lib ->
  fragments lib (map (fun text => sse (quoted text)) texts)
  = map unescape texts.
Proof.
  intros Hq. induction texts as [|text texts IH]; [done|].
  cbn [map]. rewrite fragments_cons, IH. f_equal.
  unfold fragments. cbn [omap list_omap].
  rewrite (kind_quoted lib _ Hq) by (by eexists).
  rewrite decide_True, payload_quoted by done.
  cbn [fmap option_fmap option_map]. by rewrite decode_quoted.
Qed.

(** The message persisted for a stream made of the verdict, frames with
    quoted payloads and the terminal frame. *)
Lemma persisted_of_quoted verdict texts :
  quoted_is_text lib -> kind lib verdict = Verdict ->
  persisted_content lib
    (verdict :: map (fun text => sse (quoted text)) texts ++ [sse DONE])
  = message_of_texts (map unescape texts).
Proof.
  intros Hq Hv. unfold persisted_content, transcript, message_of_texts.
  rewrite (fragments_cons lib verdict), fragments_app, fragments_verdict,
    fragments_done, fragments_quoted by done.
  by rewrite app_nil_r.
Qed.

End StreamFacts.

Lemma stream_loop_plain texts :
  stream_loop (map plain_chunk texts) None
  = (map text_frame (filter (fun t => t <> []) texts), None).
Proof.
  induction texts as [|text texts IH]; [done|].
  cbn [map stream_loop plain_chunk Chunk.text Chunk.parts].
  rewrite IH, filter_cons. by destruct text.
Qed.

Lemma concat_nonempty (P : str -> Prop) `{forall t, Decision (P t)}
    (texts : list str) :
  concat (filter P (filter (fun t => t <> []) texts))
  = concat (filter P texts).
Proof.
  induction texts as [|t texts IH]; [done|].
  rewrite (filter_cons (fun t => t <> [])).
  destruct (decide (t <> [])) as [Hne|He].
  - rewrite !filter_cons. destruct (decide (P t)); simpl; by rewrite IH.
  - assert (t = []) as -> by (by destruct t; [|destruct He]).
    rewrite IH, filter_cons. by destruct (decide (P [])).
Qed.

Lemma map_unescape_escape texts :
  Forall (fun t => Py.contains [bs; "n"%char] t = false) texts ->
  map unescape (map escape texts) = texts.
Proof.
  induction 1 as [|t texts Ht _ IH]; [done|].
  simpl. by rewrite IH, unescape_escape.
Qed.

(** The chunks of the synthesis, and of the report over results whose
    counts can be read. *)
Lemma synthesis_chunks (rag : RAGService) (prompt : str) :
  chunks_of (synthesis rag prompt)
  = match gemini_model rag with
    | Some model =>
        stream_frames (generate_content_stream model prompt) ++ [sse DONE]
    | None =>
        [sse (quoted (py "Error generating report: Gemini model not initialized. Check GEMINI_API_KEY."));
         sse DONE]
    end.
Proof.
  unfold synthesis. destruct (gemini_model rag) as [model|]; [|done].
  change (chunks_of (ModelCall ?c :: ?l)) with (chunks_of l).
  apply chunks_of_yields.
Qed.

Lemma report_chunks lib defaults rag query results filter :
  count_fault (take 8 results) = None ->
  chunks_of (fst (generate_sentiment_report lib defaults rag query results
                    filter))
  = sse (model_dump_json lib (verdict_of lib rag results))
    :: chunks_of
         (synthesis rag
            (system_prompt lib query
               (Py.join [nl; nl] (imap context_of (take 8 results)))
               (verdict_of lib rag results))).
Proof.
  intros Hfault. rewrite report_events, Hfault. cbn [fst].
  by rewrite chunks_of_app, chunks_of_calls.
Qed.

(** X16. When the count of each of the first eight results can be read and
    the model streams chunks that each carry a text, none with a backslash
    followed by n, the run completes; it sends the verdict frame, one frame
    for each text that is not empty, and the terminal frame; and the
    assistant message it persists is the texts concatenated in order and
    trimmed, the fallback when that is empty (texts that are "[DONE]"
    left out). *)
Theorem streamed_texts_are_persisted (lib : Library)
    (defaults : ClassDefaults) (rag : RAGService) (st : Storage)
    (chat_id query : str) (subreddit_filter : option str) (chat : Chat.t)
    (model : GenerativeModel) (texts : list str) :
  search_reddit rag query subreddit_filter 10 <> [] ->
  counts_readable (search_reddit rag query subreddit_filter 10) ->
  get_chat st chat_id = Some chat ->
  gemini_model rag = Some model ->
  (forall prompt,
     generate_content_stream model prompt
     = StreamChunks (map plain_chunk texts) None) ->
  texts <> [] ->
  Forall (fun t => Py.contains [bs; "n"%char] t = false) texts ->
  quoted_is_text lib ->
  kind lib
    (sse (model_dump_json lib
            (verdict_of lib rag (search_reddit rag query subreddit_filter 10))))
  = Verdict ->
  let run :=
    generate_research_stream lib defaults rag st chat_id query
      subreddit_filter in
  completes run
  /\ frames run
     = sse (model_dump_json lib
              (verdict_of lib rag
                 (search_reddit rag query subreddit_filter 10)))
       :: map text_frame (filter (fun t => t <> []) texts) ++ [sse DONE]
  /\ exists chat',
       get_chat (storage run) chat_id = Some chat'
       /\ Chat.messages chat'
          = Chat.messages chat
            ++ [Message_new defaults (py "assistant")
                  (message_of_texts texts)].
Proof.
  intros Hne Hcounts Hchat Hmodel Hstream Htexts Hclean Hq Hv run.
  pose proof (run_completes lib defaults rag st chat_id query subreddit_filter
                Hne Hq Hv Hcounts) as Hdone.
  fold run in Hdone. split; [exact Hdone|].
  destruct (run_completed lib defaults rag st chat_id query subreddit_filter
              Hne Hdone) as (Hrun & _).
  fold run in Hrun.
  apply count_fault_none in Hcounts.
  rewrite (report_chunks lib defaults rag query _ subreddit_filter Hcounts),
    synthesis_chunks, Hmodel, Hstream in Hrun.
  unfold stream_frames in Hrun. rewrite stream_loop_plain in Hrun.
  assert (Hframes : frames run
            = sse (model_dump_json lib
                     (verdict_of lib rag
                        (search_reddit rag query subreddit_filter 10)))
              :: map text_frame (filter (fun t => t <> []) texts)
                 ++ [sse DONE]).
  { rewrite Hrun. by destruct texts. }
  split; [exact Hframes|].
  destruct (run_persists lib defaults rag st chat_id query subreddit_filter
              chat Hne Hchat Hdone) as (chat' & H & Hm & _).
  fold run in H, Hm.
  exists chat'. split; [exact H|]. rewrite Hm, Hframes.
  do 3 f_equal. unfold text_frame.
  rewrite <- (map_map escape (fun t => sse (quoted t))).
  rewrite (persisted_of_quoted lib _ _ Hq Hv).
  rewrite map_unescape_escape.
  2:{ apply Forall_forall. intros t Ht%list_elem_of_filter.
      rewrite Forall_forall in Hclean. apply Hclean, Ht. }
  unfold message_of_texts. by rewrite concat_nonempty.
Qed.

Lemma streamed_texts_are_persisted_witness :
  let rag := Demo.rag Demo.hits Demo.good_answer Demo.stream_hi in
  let run :=
    generate_research_stream Ref.lib Demo.defaults rag Demo.st Demo.chat_id
      Demo.query None in
  completes run
  /\ frames run
     = sse (model_dump_json Ref.lib
              (verdict_of Ref.lib rag (search_reddit rag Demo.query None 10)))
       :: map text_frame (filter (fun t => t <> []) [py "Hi" ++ [nl]])
          ++ [sse DONE]
  /\ exists chat',
       get_chat (storage run) Demo.chat_id = Some chat'
       /\ Chat.messages chat'
          = Chat.messages Demo.chat
            ++ [Message_new Demo.defaults (py "assistant")
                  (message_of_texts [py "Hi" ++ [nl]])].
Proof.
  apply (streamed_texts_are_persisted Ref.lib Demo.defaults
           (Demo.rag Demo.hits Demo.good_answer Demo.stream_hi) Demo.st
           Demo.chat_id Demo.query None Demo.chat
           {| generate_content := fun _ => Demo.good_answer;
              generate_content_stream := fun _ => Demo.stream_hi |}
           [py "Hi" ++ [nl]]).
  - apply demo_search.
  - apply demo_counts.
  - apply demo_chat.
  - reflexivity.
  - reflexivity.
  - discriminate.
  - by repeat constructor.
  - apply ref_quoted_is_text.
  - vm_compute. reflexivity.
Defined.

(** X17. When the count of each of the first eight results can be read and
    the model is unconfigured, or streams no chunk at all, the run over a
    non-empty search completes with three frames (the verdict, a notice,
    the terminal frame) and persists the notice as the assistant message:
    "Error generating report: Gemini model not initialized. Check
    GEMINI_API_KEY." in the first case, "No response generated. Please try
    again." in the second. *)
Theorem degenerate_synthesis_persists_notice (lib : Library)
    (defaults : ClassDefaults) (rag : RAGService) (st : Storage)
    (chat_id query : str) (subreddit_filter : option str) (chat : Chat.t) :
  search_reddit rag query subreddit_filter 10 <> [] ->
  counts_readable (search_reddit rag query subreddit_filter 10) ->
  get_chat st chat_id = Some chat ->
  quoted_is_text lib ->
  kind lib
    (sse (model_dump_json lib
            (verdict_of lib rag (search_reddit rag query subreddit_filter 10))))
  = Verdict ->
  (gemini_model rag = None
   \/ exists model,
        gemini_model rag = Some model
        /\ forall prompt,
             generate_content_stream model prompt = StreamChunks [] None) ->
  let run :=
    generate_research_stream lib defaults rag st chat_id query
      subreddit_filter in
  let notice :=
    match gemini_model rag with
    | None =>
        py "Error generating report: Gemini model not initialized. Check GEMINI_API_KEY."
    | Some _ => py "No response generated. Please try again."
    end in
  completes run
  /\ frames run
     = [sse (model_dump_json lib
               (verdict_of lib rag
                  (search_reddit rag query subreddit_filter 10)));
        sse (quoted notice); sse DONE]
  /\ exists chat',
       get_chat (storage run) chat_id = Some chat'
       /\ Chat.messages chat'
          = Chat.messages chat ++ [Message_new defaults (py "assistant") notice].
Proof.
  intros Hne Hcounts Hchat Hq Hv Hcase run notice.
  pose proof (run_completes lib defaults rag st chat_id query subreddit_filter
                Hne Hq Hv Hcounts) as Hdone.
  fold run in Hdone. split; [exact Hdone|].
  destruct (run_completed lib defaults rag st chat_id query subreddit_filter
              Hne Hdone) as (Hrun & _).
  fold run in Hrun.
  apply count_fault_none in Hcounts.
  rewrite (report_chunks lib defaults rag query _ subreddit_filter Hcounts),
    synthesis_chunks in Hrun.
  assert (Hframes : frames run
            = sse (model_dump_json lib
                     (verdict_of lib rag
                        (search_reddit rag query subreddit_filter 10)))
              :: map (fun t => sse (quoted t)) [notice] ++ [sse DONE]).
  { rewrite Hrun. subst notice.
    destruct Hcase as [->|(model & -> & Hstream)]; [done|].
    by rewrite Hstream. }
  split; [exact Hframes|].
  destruct (run_persists lib defaults rag st chat_id query subreddit_filter
              chat Hne Hchat Hdone) as (chat' & H & Hm & _).
  fold run in H, Hm.
  exists chat'. split; [exact H|]. rewrite Hm, Hframes.
  do 3 f_equal. rewrite (persisted_of_quoted lib _ _ Hq Hv).
  subst notice. by destruct (gemini_model rag).
Qed.

Lemma degenerate_synthesis_persists_notice_witness :
  let rag := Demo.rag Demo.hits Demo.good_answer (StreamChunks [] None) in
  let run :=
    generate_research_stream Ref.lib Demo.defaults rag Demo.st Demo.chat_id
      Demo.query None in
  let notice :=
    match gemini_model rag with
    | None =>
        py "Error generating report: Gemini model not initialized. Check GEMINI_API_KEY."
    | Some _ => py "No response generated. Please try again."
    end in
  completes run
  /\ frames run
     = [sse (model_dump_json Ref.lib
               (verdict_of Ref.lib rag (search_reddit rag Demo.query None 10)));
        sse (quoted notice); sse DONE]
  /\ exists chat',
       get_chat (storage run) Demo.chat_id = Some chat'
       /\ Chat.messages chat'
          = Chat.messages Demo.chat
            ++ [Message_new Demo.defaults (py "assistant") notice].
Proof.
  apply (degenerate_synthesis_persists_notice Ref.lib Demo.defaults
           (Demo.rag Demo.hits Demo.good_answer (StreamChunks [] None))
           Demo.st Demo.chat_id Demo.query None Demo.chat).
  - apply demo_search.
  - apply demo_counts.
  - apply demo_chat.
  - apply ref_quoted_is_text.
  - vm_compute. reflexivity.
  - right. eexists. split; reflexivity.
Defined.

(** ** The sources *)

Lemma source_of_wellformed defaults result :
  wellformed_source (source_of defaults result).
Proof.
  unfold wellformed_source, source_of, Source_new. cbn.
  split; [rewrite length_take; lia|].
  split; [|apply extract_subreddit_shape].
  eexists. split; [reflexivity|]. unfold upvotes_of.
  destruct (extract_upvotes_from_content (get_content result)) as [n|e] eqn:E;
    [|done].
  by apply (extract_upvotes_nonneg (get_content result)).
Qed.

(** X18. Every source a run persists meets the data model: its content
    is the first 1000 characters of the result's content at most, its
    upvote count is present and not negative, and its community tag is
    not empty and has no slash.  The sources a conversation had before are
    kept in front of them.  A run that completes persists one source for
    each of the first eight results, in their order, with the title, the
    url and the content of the result; a run that ends in the handler
    persists none. *)
Theorem persisted_sources_are_wellformed (lib : Library)
    (defaults : ClassDefaults) (rag : RAGService) (st : Storage)
    (chat_id query : str) (subreddit_filter : option str) (chat : Chat.t) :
  search_reddit rag query subreddit_filter 10 <> [] ->
  get_chat st chat_id = Some chat ->
  let run :=
    generate_research_stream lib defaults rag st chat_id query
      subreddit_filter in
  exists chat' added,
    get_chat (storage run) chat_id = Some chat'
    /\ Chat.sources chat' = Chat.sources chat ++ added
    /\ Forall wellformed_source added
    /\ (completes run ->
        Forall2 (fun s result =>
                   Source.content s = take 1000 (get_content result)
                   /\ Source.title s = get_title result
                   /\ Source.url s = get_url result)
          added (take 8 (search_reddit rag query subreddit_filter 10)))
    /\ (~ completes run -> added = []).
Proof.
  intros Hne Hchat run.
  destruct (decide (completes run)) as [Hdone|Hfail].
  - destruct (run_persists lib defaults rag st chat_id query subreddit_filter
                chat Hne Hchat Hdone) as (chat' & H & _ & Hs).
    exists chat', (map (source_of defaults)
                     (take 8 (search_reddit rag query subreddit_filter 10))).
    split; [exact H|]. split; [exact Hs|]. split; [|split; [|done]].
    + apply Forall_fmap, Forall_forall. intros r _.
      apply source_of_wellformed.
    + intros _. apply Forall2_fmap_l, Forall_Forall2_diag, Forall_forall.
      by intros r _.
  - exists chat, []. unfold completes in *.
    destruct (error run) as [e|] eqn:E; [|done].
    destruct (run_failed lib defaults rag st chat_id query subreddit_filter
                e E) as [Hst _].
    fold run in Hst. rewrite Hst, app_nil_r.
    split; [done|]. split; [done|]. split; [constructor|]. by split.
Qed.

Lemma persisted_sources_are_wellformed_witness :
  let run :=
    generate_research_stream Ref.lib Demo.defaults
      (Demo.rag Demo.hits Demo.good_answer Demo.stream_hi)
      Demo.st Demo.chat_id Demo.query None in
  completes run
  /\ exists chat' added,
       get_chat (storage run) Demo.chat_id = Some chat'
       /\ Chat.sources chat' = Chat.sources Demo.chat ++ added
       /\ Forall wellformed_source added
       /\ (completes run ->
           Forall2 (fun s result =>
                      Source.content s = take 1000 (get_content result)
                      /\ Source.title s = get_title result
                      /\ Source.url s = get_url result)
             added
             (take 8 (search_reddit
                        (Demo.rag Demo.hits Demo.good_answer Demo.stream_hi)
                        Demo.query None 10)))
       /\ (~ completes run -> added = []).
Proof.
  split; [apply demo_completes|].
  exact (persisted_sources_are_wellformed Ref.lib Demo.defaults
           (Demo.rag Demo.hits Demo.good_answer Demo.stream_hi) Demo.st
           Demo.chat_id Demo.query None Demo.chat
           (demo_search Demo.good_answer Demo.stream_hi) demo_chat).
Defined.

Lemma roundtrip_without_backslash_n_witness :
  roundtrip (py "Line one" ++ [nl] ++ py "He said " ++ [dq] ++ py "no" ++ [dq])
  = Some (py "Line one" ++ [nl] ++ py "He said " ++ [dq] ++ py "no" ++ [dq]).
Proof.
  apply roundtrip_without_backslash_n. vm_compute. reflexivity.
Defined.

(** ** The start of the service *)

Lemma try_model_validated genai name model :
  try_model genai name = Some model -> validated model = true.
Proof.
  unfold try_model. destruct (GenerativeModel_new genai name) as [m|]; [|done].
  destruct (validated m) eqn:E; [|done]. by intros [= <-].
Qed.

Lemma first_valid_spec genai names :
  match first_valid genai names with
  | Some model => validated model = true
  | None => Forall (fun name => try_model genai name = None) names
  end.
Proof.
  induction names as [|name names IH]; simpl; [constructor|].
  destruct (try_model genai name) as [model|] eqn:E.
  - by apply (try_model_validated genai name).
  - destruct (first_valid genai names); [done|]. by constructor.
Qed.

(** X19. After [__init__] the service holds a model only if that model
    answered the test call.  It holds "gemini-1.5-flash" whenever that one
    passes, and it holds none exactly when the key is missing or empty, or
    when the two named models fail and the listing raises or none of the
    listed models that can generate content passes.  The search client is
    there exactly when its key is set and not empty. *)
Theorem init_keeps_validated_model (env : Environ)
    (TavilyClient_new : str -> TavilyClient) (genai : Genai) :
  let service := RAGService_init env TavilyClient_new genai in
  let key_set (key : option str) := exists k, key = Some k /\ k <> [] in
  (forall model, gemini_model service = Some model -> validated model = true)
  /\ (forall model,
        key_set (GEMINI_API_KEY env) ->
        try_model genai (py "gemini-1.5-flash") = Some model ->
        gemini_model service = Some model)
  /\ (gemini_model service = None <->
      ~ key_set (GEMINI_API_KEY env)
      \/ (try_model genai (py "gemini-1.5-flash") = None
          /\ try_model genai (py "gemini-1.5-pro") = None
          /\ (list_models genai = None
              \/ exists models,
                   list_models genai = Some models
                   /\ Forall (fun name => try_model genai name = None)
                        (available_models models))))
  /\ (is_Some (tavily_client service) <-> key_set (TAVILY_API_KEY env)).
Proof.
  intros service key_set. subst service. unfold RAGService_init.
  cbn [gemini_model tavily_client]. unfold init_gemini.
  split; [|split; [|split]].
  - intros model. destruct (GEMINI_API_KEY env) as [key|]; [|done].
    destruct key as [|c key]; [done|]. cbn [Py.truthy negb].
    destruct (try_model genai (py "gemini-1.5-flash")) as [m|] eqn:E1.
    { intros [= <-]. by apply (try_model_validated genai _ _ E1). }
    destruct (try_model genai (py "gemini-1.5-pro")) as [m|] eqn:E2.
    { intros [= <-]. by apply (try_model_validated genai _ _ E2). }
    destruct (list_models genai) as [models|]; [|done].
    pose proof (first_valid_spec genai (available_models models)) as H.
    destruct (first_valid genai (available_models models)); [|done].
    by intros [= <-].
  - intros model (k & -> & Hk) ->. by destruct k.
  - destruct (GEMINI_API_KEY env) as [key|].
    2:{ split; [|done]. intros _. left. by intros (k & ? & _). }
    destruct key as [|c key]; cbn [Py.truthy negb].
    { split; [|done]. intros _. left. intros (k & [= <-] & Hk). done. }
    destruct (try_model genai (py "gemini-1.5-flash")) as [m|] eqn:E1.
    { split; [done|]. intros [Hno|(H & _)]; [|done].
      destruct Hno. by eexists. }
    destruct (try_model genai (py "gemini-1.5-pro")) as [m|] eqn:E2.
    { split; [done|]. intros [Hno|(_ & H & _)]; [|done].
      destruct Hno. by eexists. }
    destruct (list_models genai) as [models|].
    2:{ split; [|done]. intros _. right. repeat split; by left. }
    pose proof (first_valid_spec genai (available_models models)) as H.
    destruct (first_valid genai (available_models models)) as [m|] eqn:E3.
    + split; [done|]. intros [Hno|(_ & _ & [Hl|(ms & [= <-] & Hall)])].
      * destruct Hno. by eexists.
      * done.
      * exfalso. clear H. induction Hall as [|name names Hn _ IH]; [done|].
        simpl in E3. rewrite Hn in E3. by apply IH.
    + split; [|done]. intros _. right. repeat split; try done.
      right. by exists models.
  - destruct (TAVILY_API_KEY env) as [key|].
    2:{ split; [by intros [? ?]|]. by intros (k & ? & _). }
    destruct key as [|c key]; cbn [Py.truthy].
    + split; [by intros [? ?]|]. by intros (k & [= <-] & Hk).
    + split; [|by eexists]. intros _. by eexists.
Qed.

Lemma init_keeps_validated_model_witness :
  let genai :=
    {| GenerativeModel_new := fun name =>
         Some {| generate_content := fun _ => GenerateText (py "ok");
                 generate_content_stream := fun _ => Demo.stream_hi |};
       list_models := None |} in
  let env :=
    {| TAVILY_API_KEY := Some (py "tvly-key");
       GEMINI_API_KEY := Some (py "gm-key") |} in
  gemini_model (RAGService_init env (fun _ => {| search := fun _ _ =>
                   SearchResponse (Some Demo.hits) |}) genai)
  = Some {| generate_content := fun _ => GenerateText (py "ok");
            generate_content_stream := fun _ => Demo.stream_hi |}.
Proof.
  intros genai env.
  apply (proj1 (proj2 (init_keeps_validated_model env
           (fun _ => {| search := fun _ _ => SearchResponse (Some Demo.hits) |})
           genai))).
  - eexists. split; [reflexivity|discriminate].
  - reflexivity.
Defined.

(** ** The routes *)

Lemma add_message_keeps defaults st chat_id role content chat :
  get_chat st chat_id = Some chat ->
  exists chat',
    get_chat (fst (add_message defaults st chat_id role content)) chat_id
    = Some chat'
    /\ Chat.messages chat'
       = Chat.messages chat ++ [Message_new defaults role content]
    /\ Chat.sources chat' = Chat.sources chat
    /\ Chat.id chat' = Chat.id chat
    /\ Chat.title chat' = Chat.title chat
    /\ Chat.created_at chat' = Chat.created_at chat
    /\ Chat.subreddit_filter chat' = Chat.subreddit_filter chat.
Proof.
  intros H. unfold add_message. rewrite H. cbn [fst].
  eexists. split; [apply lookup_insert_eq|]. done.
Qed.

Lemma add_sources_keeps st chat_id sources chat :
  get_chat st chat_id = Some chat ->
  exists chat',
    get_chat (fst (add_sources st chat_id sources)) chat_id = Some chat'
    /\ Chat.messages chat' = Chat.messages chat
    /\ Chat.sources chat' = Chat.sources chat ++ sources
    /\ Chat.id chat' = Chat.id chat
    /\ Chat.title chat' = Chat.title chat
    /\ Chat.created_at chat' = Chat.created_at chat
    /\ Chat.subreddit_filter chat' = Chat.subreddit_filter chat.
Proof.
  intros H. unfold add_sources. rewrite H. cbn [fst].
  eexists. split; [apply lookup_insert_eq|]. done.
Qed.

(** What any run does to a conversation that exists: a run that
    completes appends one assistant message and the sources; a run that
    ends in the handler appends nothing. *)
Lemma conversation_after_run (lib : Library) (defaults : ClassDefaults)
    (rag : RAGService) (st : Storage) (chat_id query : str)
    (subreddit_filter : option str) (chat : Chat.t) :
  get_chat st chat_id = Some chat ->
  let results := search_reddit rag query subreddit_filter 10 in
  let run :=
    generate_research_stream lib defaults rag st chat_id query
      subreddit_filter in
  exists chat',
    get_chat (storage run) chat_id = Some chat'
    /\ Chat.messages chat'
       = Chat.messages chat
         ++ match error run with
            | None =>
                [Message_new defaults (py "assistant")
                   match results with
                   | [] => empty_search_msg
                   | _ => persisted_content lib (frames run)
                   end]
            | Some _ => []
            end
    /\ Chat.sources chat'
       = Chat.sources chat
         ++ match error run with
            | None => map (source_of defaults) (take 8 results)
            | Some _ => []
            end
    /\ Chat.id chat' = Chat.id chat
    /\ Chat.title chat' = Chat.title chat
    /\ Chat.created_at chat' = Chat.created_at chat
    /\ Chat.subreddit_filter chat' = Chat.subreddit_filter chat.
Proof.
  intros Hchat results run.
  destruct (error run) as [e|] eqn:E.
  { destruct (run_failed lib defaults rag st chat_id query subreddit_filter
                e E) as [Hst _].
    fold run in Hst. rewrite Hst. exists chat. by rewrite !app_nil_r. }
  destruct (decide (search_reddit rag query subreddit_filter 10 = []))
    as [Hnil|Hne].
  - subst run results. unfold generate_research_stream. rewrite Hnil.
    cbn [storage take map]. rewrite app_nil_r.
    by apply add_message_keeps.
  - destruct (run_completed lib defaults rag st chat_id query subreddit_filter
                Hne E) as (_ & _ & _ & Hst).
    fold run results in Hst. rewrite Hst.
    destruct (add_message_keeps defaults st chat_id (py "assistant")
                (persisted_content lib (frames run))
                chat Hchat) as (c1 & H1 & Hm1 & Hs1 & Hi1 & Ht1 & Hc1 & Hf1).
    destruct (add_sources_keeps _ chat_id
                (map (source_of defaults) (take 8 results)) c1 H1)
      as (c2 & H2 & Hm2 & Hs2 & Hi2 & Ht2 & Hc2 & Hf2).
    exists c2. split; [exact H2|].
    assert (Hcase : match results with
                    | [] => empty_search_msg
                    | _ :: _ => persisted_content lib (frames run)
                    end
                    = persisted_content lib (frames run)).
    { subst results.
      by destruct (search_reddit rag query subreddit_filter 10). }
    rewrite Hcase. repeat split; congruence.
Qed.

(** X20. [POST /api/research/{chat_id}/stream] on a conversation that
    exists answers with the frames of the run it starts, and appends the
    user message.  When that run completes, it then appends exactly one
    assistant message (the error text on an empty search, the transcript
    or the fallback otherwise) and the sources of the first eight results;
    when that run ends in the handler, it appends nothing more.  The id,
    the title, the creation time and the filter of the conversation stay
    as they were. *)
Theorem stream_research_appends (lib : Library) (defaults : ClassDefaults)
    (rag : RAGService) (st : Storage) (chat_id : str)
    (request : QueryRequest.t) (chat : Chat.t) :
  get_chat st chat_id = Some chat ->
  let query := QueryRequest.query request in
  let results :=
    search_reddit rag query (QueryRequest.subreddit_filter request) 10 in
  let run :=
    generate_research_stream lib defaults rag
      (fst (add_message defaults st chat_id (py "user") query)) chat_id query
      (QueryRequest.subreddit_filter request) in
  exists chat',
    snd (Api.stream_research lib defaults rag st chat_id request)
    = Ok (frames run)
    /\ get_chat
         (fst (Api.stream_research lib defaults rag st chat_id request))
         chat_id = Some chat'
    /\ Chat.messages chat'
       = Chat.messages chat
         ++ Message_new defaults (py "user") query
            :: match error run with
               | None =>
                   [Message_new defaults (py "assistant")
                      match results with
                      | [] => empty_search_msg
                      | _ => persisted_content lib (frames run)
                      end]
               | Some _ => []
               end
    /\ Chat.sources chat'
       = Chat.sources chat
         ++ match error run with
            | None => map (source_of defaults) (take 8 results)
            | Some _ => []
            end
    /\ length (Chat.sources chat') <= length (Chat.sources chat) + 8
    /\ Chat.id chat' = Chat.id chat
    /\ Chat.title chat' = Chat.title chat
    /\ Chat.created_at chat' = Chat.created_at chat
    /\ Chat.subreddit_filter chat' = Chat.subreddit_filter chat.
Proof.
  intros Hchat query results run. unfold Api.stream_research. rewrite Hchat.
  cbn [fst snd].
  destruct (add_message_keeps defaults st chat_id (py "user") query chat Hchat)
    as (c1 & H1 & Hm1 & Hs1 & Hi1 & Ht1 & Hc1 & Hf1).
  destruct (conversation_after_run lib defaults rag _ chat_id query
              (QueryRequest.subreddit_filter request) c1 H1)
    as (c2 & H2 & Hm2 & Hs2 & Hi2 & Ht2 & Hc2 & Hf2).
  fold run results in H2, Hm2, Hs2.
  exists c2. split; [reflexivity|]. split; [exact H2|].
  split; [|split; [|split]].
  - rewrite Hm2, Hm1, <- app_assoc. reflexivity.
  - by rewrite Hs2, Hs1.
  - rewrite Hs2, Hs1, length_app.
    destruct (error run); [simpl; lia|].
    rewrite length_map, length_take. lia.
  - repeat split; congruence.
Qed.

Lemma stream_research_appends_witness :
  let request :=
    {| QueryRequest.query := Demo.query;
       QueryRequest.chat_id := None;
       QueryRequest.subreddit_filter := None |} in
  let rag := Demo.rag Demo.hits Demo.good_answer Demo.stream_hi in
  let query := QueryRequest.query request in
  let results :=
    search_reddit rag query (QueryRequest.subreddit_filter request) 10 in
  let run :=
    generate_research_stream Ref.lib Demo.defaults rag
      (fst (add_message Demo.defaults Demo.st Demo.chat_id (py "user") query))
      Demo.chat_id query (QueryRequest.subreddit_filter request) in
  exists chat',
    snd (Api.stream_research Ref.lib Demo.defaults rag Demo.st Demo.chat_id
           request) = Ok (frames run)
    /\ get_chat
         (fst (Api.stream_research Ref.lib Demo.defaults rag Demo.st
                 Demo.chat_id request))
         Demo.chat_id = Some chat'
    /\ Chat.messages chat'
       = Chat.messages Demo.chat
         ++ Message_new Demo.defaults (py "user") query
            :: match error run with
               | None =>
                   [Message_new Demo.defaults (py "assistant")
                      match results with
                      | [] => empty_search_msg
                      | _ => persisted_content Ref.lib (frames run)
                      end]
               | Some _ => []
               end
    /\ Chat.sources chat'
       = Chat.sources Demo.chat
         ++ match error run with
            | None => map (source_of Demo.defaults) (take 8 results)
            | Some _ => []
            end
    /\ length (Chat.sources chat') <= length (Chat.sources Demo.chat) + 8
    /\ Chat.id chat' = Chat.id Demo.chat
    /\ Chat.title chat' = Chat.title Demo.chat
    /\ Chat.created_at chat' = Chat.created_at Demo.chat
    /\ Chat.subreddit_filter chat' = Chat.subreddit_filter Demo.chat.
Proof.
  intros request rag.
  exact (stream_research_appends Ref.lib Demo.defaults rag Demo.st
           Demo.chat_id request Demo.chat demo_chat).
Defined.

(** X21. [POST /api/research] answers with the frames of the run it
    starts and leaves, under the id it returns in [X-Chat-ID], a
    conversation titled after the query, with the filter of the request,
    whatever the storage held before.  When the run completes, the
    conversation has exactly two messages (the query, then the assistant's
    text) and the sources of the first eight results, at most eight; when
    the run ends in the handler, it has the query as its only message and
    no source. *)
Theorem create_new_research_conversation (lib : Library)
    (defaults : ClassDefaults) (rag : RAGService) (st : Storage)
    (request : QueryRequest.t) :
  let query := QueryRequest.query request in
  let results :=
    search_reddit rag query (QueryRequest.subreddit_filter request) 10 in
  let served := Api.create_new_research lib defaults rag st request in
  let stream := fst (snd served) in
  let chat_id := snd (snd served) in
  let run :=
    generate_research_stream lib defaults rag
      (fst (add_message defaults
              (fst (create_chat defaults st (generate_chat_title query)
                      (QueryRequest.subreddit_filter request)))
              (Chat_id defaults) (py "user") query))
      (Chat_id defaults) query (QueryRequest.subreddit_filter request) in
  chat_id = Chat_id defaults
  /\ stream = frames run
  /\ exists chat,
       get_chat (fst served) chat_id = Some chat
       /\ Chat.id chat = chat_id
       /\ Chat.title chat = generate_chat_title query
       /\ Chat.subreddit_filter chat = QueryRequest.subreddit_filter request
       /\ Chat.messages chat
          = Message_new defaults (py "user") query
            :: match error run with
               | None =>
                   [Message_new defaults (py "assistant")
                      match results with
                      | [] => empty_search_msg
                      | _ => persisted_content lib stream
                      end]
               | Some _ => []
               end
       /\ Chat.sources chat
          = match error run with
            | None => map (source_of defaults) (take 8 results)
            | Some _ => []
            end
       /\ length (Chat.sources chat) <= 8.
Proof.
  intros query results served stream chat_id run.
  subst chat_id stream served. unfold Api.create_new_research.
  cbn [create_chat fst snd Chat_new Chat.id].
  split; [reflexivity|]. split; [reflexivity|].
  subst run. cbn [create_chat fst snd Chat_new Chat.id].
  set (st1 := {| chats := _; clock := clock st |}).
  assert (H0 : get_chat st1 (Chat_id defaults)
               = Some (Chat_new defaults (generate_chat_title query)
                         (QueryRequest.subreddit_filter request))).
  { apply lookup_insert_eq. }
  destruct (add_message_keeps defaults st1 (Chat_id defaults) (py "user") query
              _ H0) as (c1 & H1 & Hm1 & Hs1 & Hi1 & Ht1 & Hc1 & Hf1).
  destruct (conversation_after_run lib defaults rag _ (Chat_id defaults) query
              (QueryRequest.subreddit_filter request) c1 H1)
    as (c2 & H2 & Hm2 & Hs2 & Hi2 & Ht2 & Hc2 & Hf2).
  fold results in H2, Hm2, Hs2.
  exists c2. split; [exact H2|].
  split; [by rewrite Hi2, Hi1|]. split; [by rewrite Ht2, Ht1|].
  split; [by rewrite Hf2, Hf1|]. split; [|split].
  - rewrite Hm2, Hm1. reflexivity.
  - rewrite Hs2, Hs1. reflexivity.
  - rewrite Hs2, Hs1. cbn [Chat_new Chat.sources app].
    destruct (error _); [simpl; lia|].
    rewrite length_map, length_take. lia.
Qed.

(** X22. For an id that is not stored, the four routes that take a chat
    id answer 404 "Chat not found" and leave the storage as it was; for an
    id that is stored they answer with a body. *)
Theorem routes_answer_404 (lib : Library) (defaults : ClassDefaults)
    (rag : RAGService) (st : Storage) (chat_id title : str)
    (request : QueryRequest.t) :
  match get_chat st chat_id with
  | None =>
      Api.get_chat st chat_id = NotFound chat_not_found
      /\ Api.update_chat_title st chat_id title
         = (st, NotFound chat_not_found)
      /\ Api.delete_chat st chat_id = (st, NotFound chat_not_found)
      /\ Api.stream_research lib defaults rag st chat_id request
         = (st, NotFound chat_not_found)
  | Some chat =>
      Api.get_chat st chat_id = Ok chat
      /\ snd (Api.update_chat_title st chat_id title) = Ok true
      /\ snd (Api.delete_chat st chat_id) = Ok true
      /\ exists stream,
           snd (Api.stream_research lib defaults rag st chat_id request)
           = Ok stream
  end.
Proof.
  unfold Api.get_chat, Api.update_chat_title, Api.delete_chat,
    Api.stream_research, update_chat_title, delete_chat.
  destruct (get_chat st chat_id) as [chat|]; [|done].
  repeat split. by eexists.
Qed.

(** X23. [POST /api/chats] returns the conversation as it is stored, with
    the title made from the query and the query as its only message. *)
Theorem create_chat_route_returns_stored_chat (defaults : ClassDefaults)
    (st : Storage) (query : str) (subreddit_filter : option str) :
  let st' := fst (Api.create_chat defaults st query subreddit_filter) in
  let chat := snd (Api.create_chat defaults st query subreddit_filter) in
  get_chat st' (Chat.id chat) = Some chat
  /\ Chat.id chat = Chat_id defaults
  /\ Chat.title chat = generate_chat_title query
  /\ length (Chat.title chat) <= 30
  /\ Chat.subreddit_filter chat = subreddit_filter
  /\ Chat.messages chat = [Message_new defaults (py "user") query]
  /\ Chat.sources chat = [].
Proof.
  intros st' chat. subst st' chat. unfold Api.create_chat.
  cbn [create_chat fst snd Chat_new Chat.id].
  set (st1 := {| chats := _; clock := clock st |}).
  assert (H0 : get_chat st1 (Chat_id defaults)
               = Some (Chat_new defaults (generate_chat_title query)
                         subreddit_filter)).
  { apply lookup_insert_eq. }
  destruct (add_message_keeps defaults st1 (Chat_id defaults) (py "user") query
              _ H0) as (c1 & H1 & Hm1 & Hs1 & Hi1 & Ht1 & Hc1 & Hf1).
  rewrite H1. cbn [default from_option id].
  cbn [Chat_new Chat.id Chat.title Chat.messages Chat.sources
       Chat.subreddit_filter app] in Hm1, Hs1, Hi1, Ht1, Hf1.
  rewrite Hi1.
  split; [exact H1|]. split; [reflexivity|]. split; [exact Ht1|].
  split; [|split; [exact Hf1|split; [exact Hm1|exact Hs1]]].
  rewrite Ht1.
  unfold generate_chat_title.
  set (t := Py.strip _).
  destruct (30 <? length t) eqn:E.
  - assert (Hlen : length (take 27 t ++ py "...") = 30).
    { apply Nat.ltb_lt in E. rewrite length_app, length_take.
      change (length (py "...")) with 3. lia. }
    destruct (take 27 t ++ py "...") eqn:E2; [done|].
    cbn [Py.truthy]. lia.
  - apply Nat.ltb_ge in E. destruct t; cbn [Py.truthy]; [|done].
    vm_compute. lia.
Qed.

(** ** A count that cannot be read *)

(** X25. For a library that reads a quoted text as a string and reads back
    the verdict it wrote, a run over a non-empty search completes exactly
    when the count of each of the first eight results can be read.
    Otherwise the exception is the [ValueError] of [int()] on a count of
    more than 4300 digits; it is raised by the report before its first
    frame and caught by the orchestrator, whose stream is then the error
    frame and the terminal frame; no call is made to the model and the
    storage is left as it was. *)
Theorem unreadable_count_ends_run (lib : Library) (defaults : ClassDefaults)
    (rag : RAGService) (st : Storage) (chat_id query : str)
    (subreddit_filter : option str) :
  search_reddit rag query subreddit_filter 10 <> [] ->
  quoted_is_text lib ->
  kind lib
    (sse (model_dump_json lib
            (verdict_of lib rag (search_reddit rag query subreddit_filter 10))))
  = Verdict ->
  let run :=
    generate_research_stream lib defaults rag st chat_id query
      subreddit_filter in
  (completes run
   <-> counts_readable (search_reddit rag query subreddit_filter 10))
  /\ (forall e,
        error run = Some e ->
        (exists digits, e = IntTooLong digits /\ 4300 < digits)
        /\ frames run
           = [sse (quoted (py "Error: " ++ exception_str lib e)); sse DONE]
        /\ calls run = []
        /\ storage run = st).
Proof.
  intros Hne Hq Hv run.
  destruct (count_fault (take 8 (search_reddit rag query subreddit_filter 10)))
    as [e'|] eqn:Hfault.
  - assert (Hrun : run = handled lib [] st [] e')
      by (by apply run_count_fault).
    split.
    + split.
      * rewrite Hrun. discriminate.
      * intros Hcounts%count_fault_none. congruence.
    + intros e. rewrite Hrun. intros [= <-].
      split; [by apply (count_fault_is_too_long _ _ Hfault)|done].
  - apply count_fault_none in Hfault.
    pose proof (run_completes lib defaults rag st chat_id query
                  subreddit_filter Hne Hq Hv Hfault) as Hdone.
    fold run in Hdone. split; [done|].
    intros e He. unfold completes in Hdone. congruence.
Qed.

Lemma unreadable_count_ends_run_witness :
  let run :=
    generate_research_stream Ref.lib Demo.defaults
      (Demo.rag Demo.flooded_hits Demo.good_answer Demo.stream_hi) Demo.st
      Demo.chat_id Demo.query None in
  (completes run
   <-> counts_readable
         (search_reddit
            (Demo.rag Demo.flooded_hits Demo.good_answer Demo.stream_hi)
            Demo.query None 10))
  /\ (forall e,
        error run = Some e ->
        (exists digits, e = IntTooLong digits /\ 4300 < digits)
        /\ frames run
           = [sse (quoted (py "Error: " ++ exception_str Ref.lib e));
              sse DONE]
        /\ calls run = []
        /\ storage run = Demo.st).
Proof.
  apply (unreadable_count_ends_run Ref.lib Demo.defaults
           (Demo.rag Demo.flooded_hits Demo.good_answer Demo.stream_hi)
           Demo.st Demo.chat_id Demo.query None).
  - apply flooded_search.
  - apply ref_quoted_is_text.
  - vm_compute. reflexivity.
Defined.
